(** * ACSI bus engine of acsi2stm (src/Acsi.cpp): a shallow embedding

    The driver talks to memory-mapped peripherals of an STM32: two GPIO
    ports, Timer1 and the systick interrupt.  Every method of the C++ class
    [Acsi] becomes a computation in a small state-and-outcome monad over a
    [World] that holds the registers the methods touch, the memory they read
    and write through their [uint8_t*] arguments, the behaviour of the host
    computer at the other end of the cable, and a log of every access.

    Two outcomes besides normal return are kept apart: [Hang], a busy-wait
    that is still spinning when the watchdog fires (the source has no
    timeouts of its own), and [Undefined], an operation C++ gives no meaning
    to (signed overflow, a load from memory nobody wrote). *)

From Stdlib Require Import ZArith Lia List Bool Morphisms Setoid.
From stdpp Require Import base gmap list.

Local Open Scope Z_scope.

(** ** Pin masks (Acsi.cpp lines 26-30) *)

Definition A1_MASK  : Z := 0x0040.
Definition CS_MASK  : Z := 0x0080.
Definition IRQ_MASK : Z := 0x0100.
Definition DRQ_MASK : Z := 0x0800.
Definition ACK_MASK : Z := 0x1000.

(** Bit position of each named pin inside its port. *)
Definition IRQ_PIN : Z := 8.
Definition DRQ_PIN : Z := 11.
Definition ACK_PIN : Z := 12.

(** ** C scalar conventions *)

Definition INT_MIN : Z := -2147483648.
Definition INT_MAX : Z := 2147483647.

(** Conversion of a scalar to [bool]: non-zero is true. *)
Definition c_bool (z : Z) : bool := negb (z =? 0).

(** [(uint8_t) z] and [(uint16_t) z] for a non-negative [z]. *)
Definition uint8 (z : Z) : Z := Z.land z 0xFF.
Definition uint16 (z : Z) : Z := Z.land z 0xFFFF.

(** ** The machine *)

Inductive reg : Set :=
| R_GPIOA_IDR | R_GPIOA_ODR | R_GPIOA_CRH
| R_GPIOB_IDR | R_GPIOB_ODR | R_GPIOB_CRH
| R_TIMER1_CNT | R_TIMER1_CCR1.

(** What the log records: systick being switched, register accesses with
    the value read or written, and accesses to the caller's buffer. *)
Inductive event : Type :=
| EvSystick (enabled : bool)
| EvRead (r : reg) (v : Z)
| EvWrite (r : reg) (v : Z)
| EvLoad (addr v : Z)
| EvStore (addr v : Z).

(** The host computer, seen from the microcontroller.  Input registers are
    volatile: the [t]-th poll of the firmware finds whatever the host has put
    on the lines by then.  [host_ACK t] lists the falling edges of ACK that
    happened since the previous poll, each with the level of port B at that
    edge (the value the DMA channel copies, lines 93-100 of the source). *)
Record Host : Type := mkHost {
  host_GPIOA : nat -> Z;
  host_GPIOB : nat -> Z;
  host_ACK : nat -> list Z
}.

Record World : Type := mkWorld {
  GPIOA_CRH : Z;
  GPIOA_ODR : Z;
  GPIOB_CRH : Z;
  GPIOB_ODR : Z;
  TIMER1_CNT : Z;
  TIMER1_CCR1 : Z;
  systick : bool;
  mem : gmap Z Z;
  host : Host;
  now : nat;
  patience : nat;
  trace : list event
}.

Definition set_GPIOA_CRH (v : Z) (w : World) : World :=
  mkWorld v (GPIOA_ODR w) (GPIOB_CRH w) (GPIOB_ODR w) (TIMER1_CNT w)
    (TIMER1_CCR1 w) (systick w) (mem w) (host w) (now w) (patience w) (trace w).

Definition set_GPIOA_ODR (v : Z) (w : World) : World :=
  mkWorld (GPIOA_CRH w) v (GPIOB_CRH w) (GPIOB_ODR w) (TIMER1_CNT w)
    (TIMER1_CCR1 w) (systick w) (mem w) (host w) (now w) (patience w) (trace w).

Definition set_GPIOB_CRH (v : Z) (w : World) : World :=
  mkWorld (GPIOA_CRH w) (GPIOA_ODR w) v (GPIOB_ODR w) (TIMER1_CNT w)
    (TIMER1_CCR1 w) (systick w) (mem w) (host w) (now w) (patience w) (trace w).

Definition set_GPIOB_ODR (v : Z) (w : World) : World :=
  mkWorld (GPIOA_CRH w) (GPIOA_ODR w) (GPIOB_CRH w) v (TIMER1_CNT w)
    (TIMER1_CCR1 w) (systick w) (mem w) (host w) (now w) (patience w) (trace w).

Definition set_TIMER1_CNT (v : Z) (w : World) : World :=
  mkWorld (GPIOA_CRH w) (GPIOA_ODR w) (GPIOB_CRH w) (GPIOB_ODR w) v
    (TIMER1_CCR1 w) (systick w) (mem w) (host w) (now w) (patience w) (trace w).

Definition set_TIMER1_CCR1 (v : Z) (w : World) : World :=
  mkWorld (GPIOA_CRH w) (GPIOA_ODR w) (GPIOB_CRH w) (GPIOB_ODR w) (TIMER1_CNT w)
    v (systick w) (mem w) (host w) (now w) (patience w) (trace w).

Definition set_systick (v : bool) (w : World) : World :=
  mkWorld (GPIOA_CRH w) (GPIOA_ODR w) (GPIOB_CRH w) (GPIOB_ODR w) (TIMER1_CNT w)
    (TIMER1_CCR1 w) v (mem w) (host w) (now w) (patience w) (trace w).

Definition set_mem (v : gmap Z Z) (w : World) : World :=
  mkWorld (GPIOA_CRH w) (GPIOA_ODR w) (GPIOB_CRH w) (GPIOB_ODR w) (TIMER1_CNT w)
    (TIMER1_CCR1 w) (systick w) v (host w) (now w) (patience w) (trace w).

Definition set_now (v : nat) (w : World) : World :=
  mkWorld (GPIOA_CRH w) (GPIOA_ODR w) (GPIOB_CRH w) (GPIOB_ODR w) (TIMER1_CNT w)
    (TIMER1_CCR1 w) (systick w) (mem w) (host w) v (patience w) (trace w).

Definition set_trace (v : list event) (w : World) : World :=
  mkWorld (GPIOA_CRH w) (GPIOA_ODR w) (GPIOB_CRH w) (GPIOB_ODR w) (TIMER1_CNT w)
    (TIMER1_CCR1 w) (systick w) (mem w) (host w) (now w) (patience w) v.

(** Append one event to the log. *)
Definition record (e : event) (w : World) : World :=
  set_trace (trace w ++ [e]) w.

(** ** The monad: state passing with three outcomes *)

Inductive outcome (A : Type) : Type :=
| Done (a : A) (w : World)
| Hang
| Undefined.

Arguments Done {A} a w.
Arguments Hang {A}.
Arguments Undefined {A}.

Definition M (A : Type) : Type := World -> outcome A.

Definition ret {A} (a : A) : M A := fun w => Done a w.

Definition bind {A B} (m : M A) (k : A -> M B) : M B :=
  fun w =>
    match m w with
    | Done a w' => k a w'
    | Hang => Hang
    | Undefined => Undefined
    end.

Definition hang {A} : M A := fun _ => Hang.
Definition undefined {A} : M A := fun _ => Undefined.
Definition modify (f : World -> World) : M unit := fun w => Done tt (f w).

Declare Scope acsi_scope.
Delimit Scope acsi_scope with acsi.
Notation "x <- m ;; k" := (bind m (fun x => k))
  (at level 100, m at next level, right associativity) : acsi_scope.
Notation "m ;; k" := (bind m (fun _ => k))
  (at level 100, right associativity) : acsi_scope.
Local Open Scope acsi_scope.

(** ** Loops

    The firmware has two kinds of loop.  A busy-wait polls a volatile
    register until the host moves a line; it has no bound in the source
    ("if CS never goes up before the watchdog triggers, the cable is
    probably disconnected"), so the model gives every busy-wait
    [patience w] polls and reports [Hang] when they are used up.  A counted
    loop runs at most [count] times, and receives that many turns. *)

(** [do v = read; while (again v);] returning the last value read. *)
Fixpoint poll {A} (fuel : nat) (read : M A) (again : A -> bool) : M A :=
  match fuel with
  | O => hang
  | S fuel' => v <- read;; if again v then poll fuel' read again else ret v
  end.

Definition busy_wait {A} (read : M A) (again : A -> bool) : M A :=
  fun w => poll (patience w) read again w.

(** [while (cond(s)) s = body(s);] with the loop variables in [s]. *)
Fixpoint while_ {S} (fuel : nat) (cond : S -> M bool) (body : S -> M S) (s : S)
  : M S :=
  b <- cond s;;
  if b then
    match fuel with
    | O => hang
    | S fuel' => s' <- body s;; while_ fuel' cond body s'
    end
  else ret s.

(** ** Hardware accesses *)

Module Hw.

(** [int] subtraction; overflow has no defined result. *)
Definition int_sub (a b : Z) : M Z :=
  if (INT_MIN <=? a - b) && (a - b <=? INT_MAX) then ret (a - b) else undefined.

(** libmaple's [systick_disable] and [systick_enable] clear and set the
    enable bit of the systick control register; they do not nest. *)
Definition systick_disable : M unit :=
  modify (fun w => record (EvSystick false) (set_systick false w)).

Definition systick_enable : M unit :=
  modify (fun w => record (EvSystick true) (set_systick true w)).

Definition write_GPIOA_CRH (v : Z) : M unit :=
  modify (fun w => record (EvWrite R_GPIOA_CRH v) (set_GPIOA_CRH v w)).

Definition write_GPIOB_CRH (v : Z) : M unit :=
  modify (fun w => record (EvWrite R_GPIOB_CRH v) (set_GPIOB_CRH v w)).

Definition write_GPIOA_ODR (v : Z) : M unit :=
  modify (fun w => record (EvWrite R_GPIOA_ODR v) (set_GPIOA_ODR v w)).

Definition write_GPIOB_ODR (v : Z) : M unit :=
  modify (fun w => record (EvWrite R_GPIOB_ODR v) (set_GPIOB_ODR v w)).

Definition read_GPIOA_ODR : M Z :=
  fun w => Done (GPIOA_ODR w) (record (EvRead R_GPIOA_ODR (GPIOA_ODR w)) w).

(** Input data registers: sixteen pins, the upper half of the word reads
    as zero.  Each read is one poll of the host. *)
Definition read_GPIOA_IDR : M Z :=
  fun w =>
    let v := uint16 (host_GPIOA (host w) (now w)) in
    Done v (record (EvRead R_GPIOA_IDR v) (set_now (S (now w)) w)).

Definition read_GPIOB_IDR : M Z :=
  fun w =>
    let v := uint16 (host_GPIOB (host w) (now w)) in
    Done v (record (EvRead R_GPIOB_IDR v) (set_now (S (now w)) w)).

(** One falling edge of ACK (source lines 93-100 and 140-146): Timer1,
    clocked by ACK, counts one up (sixteen bits wide), and the DMA channel
    it triggers copies port B into the compare register of channel 1. *)
Definition ack_edge (w : World) (portb : Z) : World :=
  set_TIMER1_CCR1 (uint16 portb)
    (set_TIMER1_CNT ((TIMER1_CNT w + 1) mod 65536) w).

Definition write_TIMER1_CNT (v : Z) : M unit :=
  modify (fun w => record (EvWrite R_TIMER1_CNT v) (set_TIMER1_CNT v w)).

(** Reading the counter is a poll: the edges the host produced since the
    previous poll have taken effect by the time the value is read. *)
Definition read_TIMER1_CNT : M Z :=
  fun w =>
    let w1 := fold_left ack_edge (host_ACK (host w) (now w)) w in
    Done (TIMER1_CNT w1)
      (record (EvRead R_TIMER1_CNT (TIMER1_CNT w1)) (set_now (S (now w)) w1)).

Definition read_TIMER1_CCR1 : M Z :=
  fun w => Done (TIMER1_CCR1 w) (record (EvRead R_TIMER1_CCR1 (TIMER1_CCR1 w)) w).

(** [*p] as an rvalue and [*p = v], for [uint8_t *p]. *)
Definition load (addr : Z) : M Z :=
  fun w =>
    match mem w !! addr with
    | Some v => Done v (record (EvLoad addr v) w)
    | None => Undefined
    end.

Definition store (addr v : Z) : M unit :=
  modify (fun w => record (EvStore addr v) (set_mem (<[addr := v]> (mem w)) w)).

End Hw.

(** ** The methods of class Acsi

    The [acsiVerbose] calls are debug output compiled out of the normal
    build and are left out.  Overloads get a suffix: [readIrq] and [sendIrq]
    are the single-byte forms, [readIrq_buf] and [sendIrq_buf] the forms
    taking a buffer and a count. *)

Module Acsi.
Import Hw.

(** [return (IDR & (IRQ|DRQ|ACK)) == IRQ_MASK | DRQ_MASK | ACK_MASK;]
    In C++ [==] binds tighter than [|], so the value returned is
    [((IDR & m) == IRQ_MASK) | DRQ_MASK | ACK_MASK] converted to [bool]. *)
Definition idle : M bool :=
  idr <- read_GPIOA_IDR;;
  ret (c_bool
         (Z.lor
            (Z.lor
               (Z.b2z (Z.land idr (Z.lor (Z.lor IRQ_MASK DRQ_MASK) ACK_MASK)
                       =? IRQ_MASK))
               DRQ_MASK)
            ACK_MASK)).

Definition readCs : M bool :=
  idr <- read_GPIOB_IDR;; ret (c_bool (Z.land idr CS_MASK)).

Definition readAck : M bool :=
  idr <- read_GPIOA_IDR;; ret (c_bool (Z.land idr ACK_MASK)).

Definition pullIrq : M unit := write_GPIOA_CRH 0x44444BB3.

Definition writeData (byte : Z) : M unit := write_GPIOB_ODR (Z.shiftl byte 8).

Definition releaseRq : M unit := write_GPIOA_CRH 0x44444BB4.

Definition releaseDataBus : M unit := write_GPIOB_CRH 0x44444444.

Definition releaseBus : M unit := releaseDataBus;; releaseRq.

Definition acquireDrq : M unit :=
  write_TIMER1_CNT 2;;
  write_GPIOA_CRH 0x44448BB4;;
  write_GPIOA_CRH 0x4444BBB4.

Definition acquireDataBus : M unit := write_GPIOB_CRH 0x33333333.

Definition setupGpio : M unit :=
  odr <- read_GPIOA_ODR;;
  write_GPIOA_ODR (Z.lor odr DRQ_MASK);;
  releaseBus.

(** [waitCommand]: the inner [while] spins until a snapshot of port B has
    both A1 and CS low; the enclosing [do ... while] goes round again when
    the device id in that snapshot is not in [mask], or when [idle()] is
    false ([||] evaluates [idle()] only for an id that is in the mask). *)
Fixpoint waitCommand_loop (fuel : nat) (mask : Z) : M Z :=
  match fuel with
  | O => hang
  | S fuel' =>
      port <- busy_wait read_GPIOB_IDR
                (fun port => c_bool (Z.land port (Z.lor A1_MASK CS_MASK)));;
      if negb (c_bool (Z.land (Z.shiftl 1 (Z.shiftr port (8 + 5))) mask))
      then waitCommand_loop fuel' mask
      else
        quiet <- idle;;
        if negb quiet then waitCommand_loop fuel' mask else ret port
  end.

Definition waitCommand (mask : Z) : M Z :=
  systick_disable;;
  port <- (fun w => waitCommand_loop (patience w) mask w);;
  busy_wait readCs negb;;
  systick_enable;;
  ret (uint8 (Z.shiftr port 8)).

(** [uint8_t Acsi::readIrq()] *)
Definition readIrq : M Z :=
  systick_disable;;
  pullIrq;;
  b <- busy_wait read_GPIOB_IDR (fun b => c_bool (Z.land b CS_MASK));;
  releaseRq;;
  systick_enable;;
  ret (uint8 (Z.shiftr b 8)).

(** [void Acsi::readIrq(uint8_t *bytes, int count)] *)
Definition readIrq_buf (bytes count : Z) : M unit :=
  systick_disable;;
  while_ (Z.to_nat count)
    (fun '(bytes, count) => ret (0 <? count))
    (fun '(bytes, count) =>
       b <- readIrq;;
       store bytes b;;
       ret (bytes + 1, count - 1))
    (bytes, count);;
  busy_wait readCs negb;;
  systick_enable.

(** [void Acsi::sendIrq(uint8_t byte)] *)
Definition sendIrq (byte : Z) : M unit :=
  systick_disable;;
  acquireDataBus;;
  writeData byte;;
  pullIrq;;
  busy_wait readCs id;;
  busy_wait readCs negb;;
  releaseBus;;
  systick_enable.

(** [void Acsi::sendIrq(const uint8_t *bytes, int count)] *)
Definition sendIrq_buf (bytes count : Z) : M unit :=
  while_ (Z.to_nat count)
    (fun '(bytes, count) => ret (0 <? count))
    (fun '(bytes, count) =>
       b <- load bytes;;
       sendIrq b;;
       ret (bytes + 1, count - 1))
    (bytes, count);;
  ret tt.

(** The macro [ACSI_READ_BYTE(b)], with the pointer it closes over. *)
Definition ACSI_READ_BYTE (bytes b : Z) : M unit :=
  write_TIMER1_CNT 0;;
  busy_wait read_TIMER1_CNT (fun cnt => cnt =? 0);;
  ccr1 <- read_TIMER1_CCR1;;
  store (bytes + b) (uint8 (Z.shiftr ccr1 8)).

(** [void Acsi::readDma(uint8_t *bytes, int count)].  The loop variables are
    the moving pointer [bytes] and the index [i]; [i + 16] and [i + 1] stay
    below [count], only [count - 16] can leave the range of [int]. *)
Definition readDma (bytes count : Z) : M unit :=
  systick_disable;;
  acquireDrq;;
  st <- while_ (Z.to_nat count)
          (fun '(bytes, i) => lim <- int_sub count 16;; ret (i <=? lim))
          (fun '(bytes, i) =>
             ACSI_READ_BYTE bytes 0;;
             ACSI_READ_BYTE bytes 1;;
             ACSI_READ_BYTE bytes 2;;
             ACSI_READ_BYTE bytes 3;;
             ACSI_READ_BYTE bytes 4;;
             ACSI_READ_BYTE bytes 5;;
             ACSI_READ_BYTE bytes 6;;
             ACSI_READ_BYTE bytes 7;;
             ACSI_READ_BYTE bytes 8;;
             ACSI_READ_BYTE bytes 9;;
             ACSI_READ_BYTE bytes 10;;
             ACSI_READ_BYTE bytes 11;;
             ACSI_READ_BYTE bytes 12;;
             ACSI_READ_BYTE bytes 13;;
             ACSI_READ_BYTE bytes 14;;
             ACSI_READ_BYTE bytes 15;;
             ret (bytes + 16, i + 16))
          (bytes, 0);;
  while_ (Z.to_nat count)
    (fun '(bytes, i) => ret (i <? count))
    (fun '(bytes, i) =>
       ACSI_READ_BYTE bytes 0;;
       ret (bytes + 1, i + 1))
    st;;
  releaseBus;;
  systick_enable.

(** The macro [ACSI_SEND_BYTE(b)]. *)
Definition ACSI_SEND_BYTE (bytes b : Z) : M unit :=
  v <- load (bytes + b);;
  writeData v;;
  write_TIMER1_CNT 0;;
  busy_wait read_TIMER1_CNT (fun cnt => cnt =? 0);;
  ret tt.

(** [void Acsi::sendDma(const uint8_t *bytes, int count)] *)
Definition sendDma (bytes count : Z) : M unit :=
  systick_disable;;
  acquireDataBus;;
  acquireDrq;;
  st <- while_ (Z.to_nat count)
          (fun '(bytes, i) => lim <- int_sub count 16;; ret (i <=? lim))
          (fun '(bytes, i) =>
             ACSI_SEND_BYTE bytes 0;;
             ACSI_SEND_BYTE bytes 1;;
             ACSI_SEND_BYTE bytes 2;;
             ACSI_SEND_BYTE bytes 3;;
             ACSI_SEND_BYTE bytes 4;;
             ACSI_SEND_BYTE bytes 5;;
             ACSI_SEND_BYTE bytes 6;;
             ACSI_SEND_BYTE bytes 7;;
             ACSI_SEND_BYTE bytes 8;;
             ACSI_SEND_BYTE bytes 9;;
             ACSI_SEND_BYTE bytes 10;;
             ACSI_SEND_BYTE bytes 11;;
             ACSI_SEND_BYTE bytes 12;;
             ACSI_SEND_BYTE bytes 13;;
             ACSI_SEND_BYTE bytes 14;;
             ACSI_SEND_BYTE bytes 15;;
             ret (bytes + 16, i + 16))
          (bytes, 0);;
  while_ (Z.to_nat count)
    (fun '(bytes, i) => ret (i <? count))
    (fun '(bytes, i) =>
       ACSI_SEND_BYTE bytes 0;;
       ret (bytes + 1, i + 1))
    st;;
  releaseBus;;
  systick_enable.

End Acsi.


(** * Vocabulary of the specification *)

(** The events a run added to the log. *)
Definition new_events (w w' : World) : list event :=
  drop (length (trace w)) (trace w').

(** Worlds for examples: every line direction register at its reset value
    (all inputs), the host given. *)
Definition power_on (h : Host) : World :=
  mkWorld 0x44444444 0 0x44444444 0 0 0 true ∅ h 0 8 [].

(** A host that holds port A and port B at fixed levels and never pulses
    ACK. *)
Definition still_host (porta portb : Z) : Host :=
  mkHost (fun _ => porta) (fun _ => portb) (fun _ => []).

(** A host that answers every poll of the counter with one pulse of ACK,
    port B at [samples t] when the pulse of poll [t] falls. *)
Definition pulsing_host (samples : nat -> Z) : Host :=
  mkHost (fun _ => 0x1900) (fun _ => 0x00C0) (fun t => [samples t]).

(** Memory holding the bytes [bs] from address [addr] on. *)
Definition buffer_at (addr : Z) (bs : list Z) : gmap Z Z :=
  list_to_map (imap (fun k b => (addr + Z.of_nat k, b)) bs).

(** The bytes 0, 1, ..., n-1 (modulo 256). *)
Definition seq_bytes (n : nat) : list Z :=
  map (fun k => Z.of_nat k mod 256) (seq 0 n).

(** A world for block transfers: seventeen bytes at address 100 and a host
    that acknowledges every poll. *)
Definition block_world : World :=
  set_mem (buffer_at 100 (seq_bytes 17))
    (power_on (pulsing_host (fun t => 256 * Z.of_nat t + 0xC0))).

(** A world for the interrupt byte protocol: two bytes at address 100 and a
    host that toggles CS at every poll, low first, with the byte 0x41 on the
    data pins. *)
Definition toggling_host : Host :=
  mkHost (fun _ => 0x1900)
         (fun t => if Nat.even t then 0x4100 else 0x4180)
         (fun _ => []).

Definition irq_world : World :=
  set_mem (buffer_at 100 [0x12; 0x34]) (power_on toggling_host).

(** A host that acknowledges every poll once, except the second poll,
    where ACK has pulsed twice since the first. *)
Definition double_ack_host : Host :=
  mkHost (fun _ => 0x1900) (fun _ => 0x00C0)
         (fun t => if (t =? 1)%nat then [0xA1C0; 0xA2C0] else [256 * Z.of_nat t + 0xC0]).

Definition double_ack_world : World :=
  set_mem (buffer_at 100 [0x12; 0x34; 0x56]) (power_on double_ack_host).

(** ** Bus-idle query *)

(** Port A as the host presents it for given levels of the three lines
    (true is high, that is released). *)
Definition line_levels (irq drq ack : bool) : Z :=
  Z.lor (Z.lor (if irq then IRQ_MASK else 0) (if drq then DRQ_MASK else 0))
        (if ack then ACK_MASK else 0).

(** What the bus-idle query is documented to answer. *)
Definition all_released (irq drq ack : bool) : bool := irq && drq && ack.

(** ** Line directions *)

(** The two registers that set the direction of the bus lines. *)
Definition directions (w : World) : Z * Z := (GPIOA_CRH w, GPIOB_CRH w).

Definition released_directions : Z * Z := (0x44444BB4, 0x44444444).

(** A configuration register holds four bits per pin; the low two of them
    are the mode, zero for an input (the source's comments: [0x4] input,
    [0x3] 50 MHz push-pull output, [0xB] alternate-function output). *)
Definition pin_mode (crh pin : Z) : Z :=
  Z.land (Z.shiftr crh (4 * (pin - 8))) 3.

Definition pin_is_input (crh pin : Z) : bool := pin_mode crh pin =? 0.

Definition data_bus_released (w : World) : bool :=
  forallb (pin_is_input (GPIOB_CRH w)) [8; 9; 10; 11; 12; 13; 14; 15].

Definition rq_released (w : World) : bool :=
  forallb (pin_is_input (GPIOA_CRH w)) [IRQ_PIN; DRQ_PIN; ACK_PIN].

(** The safe configuration: the engine drives neither the data bus nor the
    interrupt and request lines. *)
Definition bus_safe (w : World) : Prop :=
  data_bus_released w = true /\ rq_released w = true.

(** ** The transfer operations *)

Inductive transfer : Type :=
| ReadIrq
| ReadIrqBuf (bytes count : Z)
| SendIrq (byte : Z)
| SendIrqBuf (bytes count : Z)
| ReadDma (bytes count : Z)
| SendDma (bytes count : Z).

Definition run (t : transfer) : M unit :=
  match t with
  | ReadIrq => _ <- Acsi.readIrq;; ret tt
  | ReadIrqBuf bytes count => Acsi.readIrq_buf bytes count
  | SendIrq byte => Acsi.sendIrq byte
  | SendIrqBuf bytes count => Acsi.sendIrq_buf bytes count
  | ReadDma bytes count => Acsi.readDma bytes count
  | SendDma bytes count => Acsi.sendDma bytes count
  end.

(** ** Systick *)

Definition is_systick (e : event) : bool :=
  match e with EvSystick _ => true | _ => false end.

Definition is_enable (e : event) : bool :=
  match e with EvSystick true => true | _ => false end.

(** No systick event at all. *)
Definition quiet (evs : list event) : bool := forallb (fun e => negb (is_systick e)) evs.

(** Systick is switched off by the first event, on by the last, and not
    switched on anywhere in between. *)
Definition suspended_throughout (evs : list event) : bool :=
  match evs with
  | EvSystick false :: rest =>
      match rev rest with
      | EvSystick true :: rmid => forallb (fun e => negb (is_enable e)) rmid
      | _ => false
      end
  | _ => false
  end.

(** The stronger shape the single-byte and block operations have. *)
Definition suspended_once (evs : list event) : Prop :=
  exists mid, evs = EvSystick false :: mid ++ [EvSystick true] /\ quiet mid = true.

(** One byte of the multi-byte [sendIrq]: the byte is fetched, then sent by
    the single-byte form. *)
Definition sendIrq_segment (evs : list event) : Prop :=
  exists addr v rest, evs = EvLoad addr v :: rest /\ suspended_once rest.

(** ** Command capture *)

(** The strobe pattern: A1 and CS both low in a snapshot of port B. *)
Definition strobe (port : Z) : Prop := Z.land port (Z.lor A1_MASK CS_MASK) = 0.

(** The device id a snapshot carries: the top three bits of the data byte. *)
Definition device_id (port : Z) : Z := Z.shiftr port 13.

(** Membership of a device id in a mask. *)
Definition selected (mask d : Z) : Prop := Z.testbit mask d = true.

(** A snapshot [waitCommand] accepts. *)
Definition accepted (mask port : Z) : Prop :=
  strobe port /\ selected mask (device_id port).

(** ** Byte slots of a block transfer *)

Definition is_reset (e : event) : bool :=
  match e with EvWrite R_TIMER1_CNT 0 => true | _ => false end.

Definition is_store (e : event) : bool :=
  match e with EvStore _ _ => true | _ => false end.

Definition is_load (e : event) : bool :=
  match e with EvLoad _ _ => true | _ => false end.

(** A poll of the counter that finds more than one tick: the host pulsed
    ACK twice in one slot. *)
Definition is_overrun (e : event) : bool :=
  match e with EvRead R_TIMER1_CNT v => 2 <=? v | _ => false end.

(** How many events of a kind a log has. *)
Definition tally (f : event -> bool) (evs : list event) : nat :=
  length (filter (fun e => f e = true) evs).

(** The number of byte slots started. *)
Definition slots (evs : list event) : nat := tally is_reset evs.

(** No byte slot is started after the first overrun. *)
Fixpoint stops_at_overrun (evs : list event) : bool :=
  match evs with
  | [] => true
  | e :: rest =>
      if is_overrun e then forallb (fun e' => negb (is_reset e')) rest
      else stops_at_overrun rest
  end.

(** ** The per-byte reference transfer

    The specification describes a block transfer byte by byte: acquire the
    lines, then for each byte reset the counter, busy-wait for the tick and
    capture (or, sending, drive the byte first), and release the bus at the
    end, with the periodic interrupt off throughout. *)

Definition read_byte_slot (addr : Z) : M unit :=
  Hw.write_TIMER1_CNT 0;;
  busy_wait Hw.read_TIMER1_CNT (fun cnt => cnt =? 0);;
  sample <- Hw.read_TIMER1_CCR1;;
  Hw.store addr (uint8 (Z.shiftr sample 8)).

Definition write_byte_slot (addr : Z) : M unit :=
  v <- Hw.load addr;;
  Acsi.writeData v;;
  Hw.write_TIMER1_CNT 0;;
  busy_wait Hw.read_TIMER1_CNT (fun cnt => cnt =? 0);;
  ret tt.

Fixpoint per_byte (slot : Z -> M unit) (n : nat) (addr : Z) : M unit :=
  match n with
  | O => ret tt
  | S n' => slot addr;; per_byte slot n' (addr + 1)
  end.

Definition readBlock_per_byte (buffer count : Z) : M unit :=
  Hw.systick_disable;;
  Acsi.acquireDrq;;
  per_byte read_byte_slot (Z.to_nat count) buffer;;
  Acsi.releaseBus;;
  Hw.systick_enable.

Definition writeBlock_per_byte (buffer count : Z) : M unit :=
  Hw.systick_disable;;
  Acsi.acquireDataBus;;
  Acsi.acquireDrq;;
  per_byte write_byte_slot (Z.to_nat count) buffer;;
  Acsi.releaseBus;;
  Hw.systick_enable.

(** Two computations are the same when they agree on every world: same
    outcome, same result, same final registers, memory and log. *)
Definition meq {A} (m1 m2 : M A) : Prop := forall w, m1 w = m2 w.
Notation "m1 =m= m2" := (meq m1 m2) (at level 70, no associativity).

(** The two loops of [readDma] and [sendDma], over the macro they repeat. *)
Definition unrolled_loop (macro : Z -> Z -> M unit) (count : Z) (fuel : nat)
  : Z * Z -> M (Z * Z) :=
  while_ fuel
    (fun '(bytes, i) => lim <- Hw.int_sub count 16;; ret (i <=? lim))
    (fun '(bytes, i) =>
       macro bytes 0;; macro bytes 1;; macro bytes 2;; macro bytes 3;;
       macro bytes 4;; macro bytes 5;; macro bytes 6;; macro bytes 7;;
       macro bytes 8;; macro bytes 9;; macro bytes 10;; macro bytes 11;;
       macro bytes 12;; macro bytes 13;; macro bytes 14;; macro bytes 15;;
       ret (bytes + 16, i + 16)).

Definition remainder_loop (macro : Z -> Z -> M unit) (count : Z) (fuel : nat)
  : Z * Z -> M (Z * Z) :=
  while_ fuel
    (fun '(bytes, i) => ret (i <? count))
    (fun '(bytes, i) => macro bytes 0;; ret (bytes + 1, i + 1)).

(** What [readDma] and [sendDma] log around the byte loops. *)
Definition readDma_frame : list event :=
  [EvSystick false;
   EvWrite R_TIMER1_CNT 2; EvWrite R_GPIOA_CRH 0x44448BB4; EvWrite R_GPIOA_CRH 0x4444BBB4;
   EvWrite R_GPIOB_CRH 0x44444444; EvWrite R_GPIOA_CRH 0x44444BB4;
   EvSystick true].

Definition sendDma_frame : list event :=
  [EvSystick false;
   EvWrite R_GPIOB_CRH 0x33333333;
   EvWrite R_TIMER1_CNT 2; EvWrite R_GPIOA_CRH 0x44448BB4; EvWrite R_GPIOA_CRH 0x4444BBB4;
   EvWrite R_GPIOB_CRH 0x44444444; EvWrite R_GPIOA_CRH 0x44444BB4;
   EvSystick true].

(** ** Loopback *)

(** A buffer at [addr] holds the bytes [bs]. *)
Definition holds (m : gmap Z Z) (addr : Z) (bs : list Z) : Prop :=
  forall (k : nat) (b : Z), bs !! k = Some b -> m !! (addr + Z.of_nat k) = Some b.

Definition is_byte (b : Z) : Prop := 0 <= b < 256.

(** What the engine put on port B, slot after slot. *)
Definition bus_words (evs : list event) : list Z :=
  omap (fun e => match e with EvWrite R_GPIOB_ODR v => Some v | _ => None end) evs.

(** The host answers each of the next [n] polls of the counter with one
    pulse of ACK. *)
Definition acks_each_poll (w : World) (n : nat) : Prop :=
  forall k : nat, (k < n)%nat ->
    exists portb, host_ACK (host w) (now w + k)%nat = [portb].

(** Modelled from the spec: the loopback harness of the round-trip property
    (section 8), which is not part of the repository.  It pulses ACK once
    per poll and, at the [k]-th pulse, presents on the data pins (bits 8 to
    15 of port B) the [k]-th word the writer drove, the control pins in the
    low byte at any level. *)
Definition loopback (wire : list Z) (w : World) : Prop :=
  forall (k : nat) (v : Z), wire !! k = Some v ->
    exists ctl, 0 <= ctl < 256
                /\ host_ACK (host w) (now w + k)%nat = [Z.lor v ctl].

(** [m] returns from [w], with a result and a final world that satisfy
    [Q]. *)
Definition runs {A} (m : M A) (w : World) (Q : A -> World -> Prop) : Prop :=
  exists a w', m w = Done a w' /\ Q a w'.

(** ** Relations between the world before and after a computation *)

(** Every return of [m] relates the world it started from to the world it
    left. *)
Definition respects (R : World -> World -> Prop) {A} (m : M A) : Prop :=
  forall w a w', m w = Done a w' -> R w w'.

(** The line directions are as they were. *)
Definition same_directions (w w' : World) : Prop := directions w' = directions w.

(** The log grew by events of one kind only. *)
Definition adds_only (P : event -> bool) (w w' : World) : Prop :=
  exists evs, trace w' = trace w ++ evs /\ forallb P evs = true.

(** Systick was left alone. *)
Definition quietly (w w' : World) : Prop :=
  systick w' = systick w /\ adds_only (fun e => negb (is_systick e)) w w'.

(** The host and the watchdog are the same; polls only move time forward. *)
Definition same_host (w w' : World) : Prop :=
  host w' = host w /\ patience w' = patience w /\ (now w <= now w')%nat.

(** The run ended by switching systick on, having left it alone before. *)
Definition closing (w w' : World) : Prop :=
  exists mid, trace w' = trace w ++ mid ++ [EvSystick true]
              /\ quiet mid = true /\ systick w' = true.

(** The run left every line released. *)
Definition releasing (w w' : World) : Prop := directions w' = released_directions.

(** The direction of the data bus is as it was. *)
Definition same_data_direction (w w' : World) : Prop := GPIOB_CRH w' = GPIOB_CRH w.

(** The run left the interrupt and request lines released and did not touch
    the direction of the data bus. *)
Definition releasing_rq (w w' : World) : Prop :=
  GPIOA_CRH w' = 0x44444BB4 /\ GPIOB_CRH w' = GPIOB_CRH w.

(** A bus that was safe is safe again. *)
Definition safely (w w' : World) : Prop := bus_safe w -> bus_safe w'.

(** Systick, if it was on, is on again. *)
Definition keeps_on (w w' : World) : Prop := systick w = true -> systick w' = true.

(** The log grew by whole per-byte segments of the multi-byte [sendIrq]. *)
Definition in_segments (w w' : World) : Prop :=
  exists segs, trace w' = trace w ++ concat segs /\ Forall sendIrq_segment segs.

(** The log grew by exactly [n] events of kind [f]. *)
Definition tallies (f : event -> bool) (n : nat) {A} (m : M A) : Prop :=
  forall w a w', m w = Done a w' ->
    exists evs, trace w' = trace w ++ evs /\ tally f evs = n.

(** ** Snapshots of port B *)

(** What the [t]-th poll of the host finds on port B. *)
Definition snapshot (w : World) (t : nat) : Z := uint16 (host_GPIOB (host w) t).

(** The level of CS in a snapshot, as [readCs] returns it. *)
Definition cs_high (port : Z) : bool := c_bool (Z.land port CS_MASK).

(** The data byte of a snapshot: pins 8 to 15. *)
Definition data_byte (port : Z) : Z := uint8 (Z.shiftr port 8).

(** ** Sequences of transfers *)

Fixpoint run_all (ops : list transfer) : M unit :=
  match ops with
  | [] => ret tt
  | op :: rest => run op;; run_all rest
  end.

(** ** More relations between the world before and after *)

(** No register was written and memory is as it was: only systick, the
    clock of polls and the log may differ. *)
Definition untouched (w w' : World) : Prop :=
  GPIOA_CRH w' = GPIOA_CRH w /\ GPIOA_ODR w' = GPIOA_ODR w
  /\ GPIOB_CRH w' = GPIOB_CRH w /\ GPIOB_ODR w' = GPIOB_ODR w
  /\ TIMER1_CNT w' = TIMER1_CNT w /\ TIMER1_CCR1 w' = TIMER1_CCR1 w
  /\ mem w' = mem w.

Definition is_access (e : event) : bool :=
  match e with
  | EvSystick _ => true
  | EvRead R_GPIOA_IDR _ => true
  | EvRead R_GPIOB_IDR _ => true
  | _ => false
  end.

(** Only systick was switched and input registers read. *)
Definition only_polls (w w' : World) : Prop :=
  untouched w w' /\ adds_only is_access w w'.

Definition same_memory (w w' : World) : Prop := mem w' = mem w.

(** Memory is as it was outside the addresses from [lo] up to [hi]. *)
Definition stores_within (lo hi : Z) (w w' : World) : Prop :=
  forall a, ~ (lo <= a < hi) -> mem w' !! a = mem w !! a.

Definition is_bus_word (e : event) : bool :=
  match e with EvWrite R_GPIOB_ODR _ => true | _ => false end.

(** Memory is as it was and nothing was put on the data pins. *)
Definition silent (w w' : World) : Prop :=
  mem w' = mem w /\ adds_only (fun e => negb (is_bus_word e)) w w'.

(** One byte of the multi-byte forms of the interrupt protocol. *)
Definition sendIrq_at (addr : Z) : M unit :=
  b <- Hw.load addr;; Acsi.sendIrq b.

Definition readIrq_at (addr : Z) : M unit :=
  b <- Acsi.readIrq;; Hw.store addr b.

(** [m] always returns, and leaves the host, the watchdog and the clock of
    polls as they were. *)
Definition steady {A} (m : M A) : Prop :=
  forall w, exists a w1,
    m w = Done a w1
    /\ host w1 = host w /\ patience w1 = patience w /\ now w1 = now w.

(** Memory is as it was, and the words put on port B, in order, are [ws]. *)
Definition words (ws : list Z) (w w' : World) : Prop :=
  mem w' = mem w
  /\ exists evs, trace w' = trace w ++ evs /\ bus_words evs = ws.

(** A byte as [writeData] puts it on the data pins. *)
Definition on_data_pins (b : Z) : Z := Z.shiftl b 8.

(** The interrupt line being pulled. *)
Definition is_pull (e : event) : bool :=
  match e with EvWrite R_GPIOA_CRH v => v =? 0x44444BB3 | _ => false end.



(** * Reasoning about computations *)

Lemma new_events_app w w' evs :
  trace w' = trace w ++ evs -> new_events w w' = evs.
Proof.
  intros H. unfold new_events. rewrite H. apply drop_app_length.
Qed.

#[export] Instance meq_equiv {A} : Equivalence (@meq A).
Proof.
  split.
  - intros m w. reflexivity.
  - intros m1 m2 H w. symmetry. apply H.
  - intros m1 m2 m3 H1 H2 w. rewrite H1. apply H2.
Qed.

#[export] Instance bind_proper {A B} :
  Proper (meq ==> pointwise_relation A meq ==> meq) (@bind A B).
Proof.
  intros m1 m2 Hm k1 k2 Hk w. unfold bind. rewrite Hm.
  destruct (m2 w); auto. apply Hk.
Qed.

Lemma bind_ret_l {A B} (a : A) (k : A -> M B) : bind (ret a) k =m= k a.
Proof. intros w. reflexivity. Qed.

Lemma bind_ret_r {A} (m : M A) : bind m ret =m= m.
Proof. intros w. unfold bind, ret. destruct (m w); reflexivity. Qed.

Lemma bind_assoc {A B C} (m : M A) (f : A -> M B) (g : B -> M C) :
  bind (bind m f) g =m= bind m (fun a => bind (f a) g).
Proof. intros w. unfold bind. destruct (m w); reflexivity. Qed.

Lemma bind_undefined {A B} (k : A -> M B) : bind undefined k =m= undefined.
Proof. intros w. reflexivity. Qed.

Lemma bind_done {A B} (m : M A) (k : A -> M B) w b w'' :
  bind m k w = Done b w'' ->
  exists a w', m w = Done a w' /\ k a w' = Done b w''.
Proof.
  unfold bind. destruct (m w) as [a w'| |]; try discriminate. eauto.
Qed.

Lemma while_unfold {S} fuel cond body (s : S) :
  while_ fuel cond body s =
  (b <- cond s;;
   if b then
     match fuel with
     | O => hang
     | Datatypes.S fuel' => s' <- body s;; while_ fuel' cond body s'
     end
   else ret s).
Proof. destruct fuel; reflexivity. Qed.

Lemma int_sub_in_range (a b : Z) :
  INT_MIN <= a - b <= INT_MAX -> Hw.int_sub a b = ret (a - b).
Proof.
  intros [Hlo Hhi]. unfold Hw.int_sub.
  apply Z.leb_le in Hlo. apply Z.leb_le in Hhi. rewrite Hlo, Hhi. reflexivity.
Qed.

Lemma int_sub_overflow (a b : Z) :
  ~ (INT_MIN <= a - b <= INT_MAX) -> Hw.int_sub a b = undefined.
Proof.
  intros H. unfold Hw.int_sub.
  destruct (INT_MIN <=? a - b) eqn:E1; [| reflexivity].
  destruct (a - b <=? INT_MAX) eqn:E2; [| reflexivity].
  apply Z.leb_le in E1. apply Z.leb_le in E2. lia.
Qed.

Lemma run_ReadIrq : run ReadIrq = (_ <- Acsi.readIrq;; ret tt).
Proof. reflexivity. Qed.

Lemma run_ReadIrqBuf bytes count :
  run (ReadIrqBuf bytes count) = Acsi.readIrq_buf bytes count.
Proof. reflexivity. Qed.

Lemma run_SendIrq byte : run (SendIrq byte) = Acsi.sendIrq byte.
Proof. reflexivity. Qed.

Lemma run_SendIrqBuf bytes count :
  run (SendIrqBuf bytes count) = Acsi.sendIrq_buf bytes count.
Proof. reflexivity. Qed.

Lemma run_ReadDma bytes count : run (ReadDma bytes count) = Acsi.readDma bytes count.
Proof. reflexivity. Qed.

Lemma run_SendDma bytes count : run (SendDma bytes count) = Acsi.sendDma bytes count.
Proof. reflexivity. Qed.

Ltac run_op H :=
  first [ rewrite run_ReadIrq in H | rewrite run_ReadIrqBuf in H
        | rewrite run_SendIrq in H | rewrite run_SendIrqBuf in H
        | rewrite run_ReadDma in H | rewrite run_SendDma in H ].

(** * The bus-idle query *)

Lemma c_bool_lor_masks (b : bool) :
  c_bool (Z.lor (Z.lor (Z.b2z b) DRQ_MASK) ACK_MASK) = true.
Proof. destruct b; reflexivity. Qed.

Lemma idle_always_true (w : World) :
  Acsi.idle w =
  Done true
    (record (EvRead R_GPIOA_IDR (uint16 (host_GPIOA (host w) (now w))))
       (set_now (S (now w)) w)).
Proof.
  unfold Acsi.idle, bind, Hw.read_GPIOA_IDR, ret. cbv zeta.
  rewrite c_bool_lor_masks. reflexivity.
Qed.

(** C1, the code's side: on each of the eight combinations of levels of the
    interrupt, request and acknowledge lines [idle()] answers true, also
    when a line is asserted (low): the comparison is made against [IRQ_MASK]
    alone and its result is or-ed with the two other, non-zero, masks. *)
Theorem idle_truth_table (irq drq ack : bool) (w : World) :
  host_GPIOA (host w) (now w) = line_levels irq drq ack ->
  exists w', Acsi.idle w = Done true w'.
Proof.
  intros _. rewrite idle_always_true. eexists. reflexivity.
Qed.

Lemma idle_truth_table_witness :
  host_GPIOA (host (power_on (still_host 0 0))) 0 = line_levels false false false
  /\ all_released false false false = false
  /\ exists w', Acsi.idle (power_on (still_host 0 0)) = Done true w'.
Proof.
  split; [reflexivity |]. split; [reflexivity |].
  apply (idle_truth_table false false false); reflexivity.
Defined.

(** * Releasing the bus *)

(** C8: releasing the bus twice leaves the direction registers, and every
    other register and the memory, exactly as releasing it once; and
    [releaseBus] is [releaseDataBus] followed by [releaseRq]. *)
Theorem releaseBus_idempotent (w : World) :
  exists w1 w2,
    Acsi.releaseBus w = Done tt w1
    /\ (Acsi.releaseDataBus;; Acsi.releaseRq) w = Done tt w1
    /\ (Acsi.releaseBus;; Acsi.releaseBus) w = Done tt w2
    /\ directions w2 = directions w1
    /\ directions w1 = released_directions
    /\ (GPIOA_ODR w2, GPIOB_ODR w2, TIMER1_CNT w2, TIMER1_CCR1 w2, systick w2, mem w2)
       = (GPIOA_ODR w1, GPIOB_ODR w1, TIMER1_CNT w1, TIMER1_CCR1 w1, systick w1, mem w1).
Proof.
  do 2 eexists. repeat split; reflexivity.
Qed.

Lemma released_is_safe (w : World) :
  directions w = released_directions -> bus_safe w.
Proof.
  unfold directions, released_directions, bus_safe, data_bus_released, rq_released.
  intros H. injection H as Ha Hb. rewrite Ha, Hb. split; reflexivity.
Qed.

(** * The unrolled loops against the per-byte loop *)

Lemma per_byte_S {B} slot n addr (k : M B) :
  (per_byte slot (S n) addr;; k) =m= (slot addr;; per_byte slot n (addr + 1);; k).
Proof. cbn [per_byte]. apply bind_assoc. Qed.

Lemma per_byte_app slot n m addr :
  per_byte slot (n + m) addr
  =m= (per_byte slot n addr;; per_byte slot m (addr + Z.of_nat n)).
Proof.
  revert addr. induction n as [|n IH]; intros addr.
  - simpl. rewrite bind_ret_l. rewrite Z.add_0_r. reflexivity.
  - cbn [per_byte Nat.add]. rewrite bind_assoc.
    setoid_rewrite IH.
    replace (addr + 1 + Z.of_nat n) with (addr + Z.of_nat (S n)) by lia.
    reflexivity.
Qed.

Section Unrolled.
Context (macro : Z -> Z -> M unit) (slot : Z -> M unit).
Hypothesis macro_slot : forall bytes b, macro bytes b = slot (bytes + b).
Context (count : Z).

Lemma remainder_per_byte {B} (k : M B) n : forall fuel bytes i,
  n = Z.to_nat (count - i) -> (n <= fuel)%nat ->
  (remainder_loop macro count fuel (bytes, i);; k) =m= (per_byte slot n bytes;; k).
Proof.
  induction n as [|n IH]; intros fuel bytes i Hn Hf.
  - unfold remainder_loop. rewrite while_unfold.
    rewrite bind_ret_l.
    destruct (i <? count) eqn:E; [apply Z.ltb_lt in E; lia |].
    simpl. rewrite !bind_ret_l. reflexivity.
  - destruct fuel as [|fuel]; [lia |].
    unfold remainder_loop. rewrite while_unfold.
    fold (remainder_loop macro count fuel).
    rewrite bind_ret_l.
    destruct (i <? count) eqn:E; [| apply Z.ltb_ge in E; lia].
    rewrite macro_slot, Z.add_0_r.
    cbn [per_byte]. rewrite !bind_assoc.
    setoid_rewrite bind_ret_l.
    setoid_rewrite (IH fuel (bytes + 1) (i + 1) ltac:(lia) ltac:(lia)).
    reflexivity.
Qed.

Lemma batch_per_byte {A B} (x : A) (k : A -> M B) bytes :
  (r <- (macro bytes 0;; macro bytes 1;; macro bytes 2;; macro bytes 3;;
         macro bytes 4;; macro bytes 5;; macro bytes 6;; macro bytes 7;;
         macro bytes 8;; macro bytes 9;; macro bytes 10;; macro bytes 11;;
         macro bytes 12;; macro bytes 13;; macro bytes 14;; macro bytes 15;;
         ret x);;
   k r)
  =m= (per_byte slot 16 bytes;; k x).
Proof.
  rewrite !macro_slot.
  do 16 (rewrite bind_assoc, per_byte_S;
         apply bind_proper;
         [match goal with
          | |- slot ?a =m= slot ?b =>
              replace (slot b) with (slot a) by (f_equal; lia); reflexivity
          end
         | intros _]).
  cbn [per_byte]. rewrite !bind_ret_l. reflexivity.
Qed.

Lemma unrolled_undefined {B} (k : Z * Z -> M B) fuel st :
  ~ (INT_MIN <= count - 16 <= INT_MAX) ->
  (st' <- unrolled_loop macro count fuel st;; k st') =m= undefined.
Proof.
  intros H. unfold unrolled_loop. rewrite while_unfold. destruct st as [bytes i].
  rewrite int_sub_overflow by exact H.
  intros w. reflexivity.
Qed.

Hypothesis count_int : INT_MIN <= count - 16 <= INT_MAX.

Lemma unrolled_per_byte {B} (k : Z * Z -> M B) q : forall fuel bytes i,
  count - i < 16 * (Z.of_nat q + 1) ->
  (q = 0%nat \/ 16 * Z.of_nat q <= count - i) ->
  (q <= fuel)%nat ->
  (st <- unrolled_loop macro count fuel (bytes, i);; k st)
  =m= (per_byte slot (16 * q) bytes;;
       k (bytes + 16 * Z.of_nat q, i + 16 * Z.of_nat q)).
Proof.
  induction q as [|q IH]; intros fuel bytes i Hlt Hge Hf.
  - unfold unrolled_loop. rewrite while_unfold.
    rewrite int_sub_in_range by exact count_int.
    rewrite !bind_ret_l.
    destruct (i <=? count - 16) eqn:E; [apply Z.leb_le in E; lia |].
    cbn [per_byte Nat.mul]. rewrite !bind_ret_l.
    replace (bytes + 16 * Z.of_nat 0) with bytes by lia.
    replace (i + 16 * Z.of_nat 0) with i by lia. reflexivity.
  - destruct Hge as [Hq | Hge]; [discriminate |].
    destruct fuel as [|fuel]; [lia |].
    unfold unrolled_loop. rewrite while_unfold.
    fold (unrolled_loop macro count fuel).
    rewrite int_sub_in_range by exact count_int.
    rewrite !bind_ret_l.
    destruct (i <=? count - 16) eqn:E; [| apply Z.leb_gt in E; lia].
    rewrite bind_assoc.
    rewrite batch_per_byte.
    setoid_rewrite (IH fuel (bytes + 16) (i + 16)
                      ltac:(lia) ltac:(lia) ltac:(lia)).
    replace (16 * S q)%nat with (16 + 16 * q)%nat by lia.
    rewrite per_byte_app, bind_assoc.
    replace (bytes + Z.of_nat 16) with (bytes + 16) by lia.
    replace (bytes + 16 + 16 * Z.of_nat q) with (bytes + 16 * Z.of_nat (S q)) by lia.
    replace (i + 16 + 16 * Z.of_nat q) with (i + 16 * Z.of_nat (S q)) by lia.
    reflexivity.
Qed.

(** Both loops in sequence are the per-byte loop over [count] bytes. *)
Lemma loops_per_byte {B} (k : M B) bytes :
  (st <- unrolled_loop macro count (Z.to_nat count) (bytes, 0);;
   remainder_loop macro count (Z.to_nat count) st;; k)
  =m= (per_byte slot (Z.to_nat count) bytes;; k).
Proof.
  pose proof (Nat.div_mod_eq (Z.to_nat count) 16) as Hn.
  pose proof (Nat.mod_upper_bound (Z.to_nat count) 16 ltac:(lia)) as Hr.
  remember (Z.to_nat count / 16)%nat as q eqn:Hq.
  remember (Z.to_nat count mod 16)%nat as r eqn:Hr'.
  rewrite (unrolled_per_byte _ q) by lia.
  transitivity (per_byte slot (16 * q) bytes;;
                per_byte slot r (bytes + 16 * Z.of_nat q);; k).
  - apply bind_proper; [reflexivity | intros _].
    apply remainder_per_byte; lia.
  - rewrite Hn, per_byte_app, bind_assoc.
    replace (Z.of_nat (16 * q)) with (16 * Z.of_nat q) by lia.
    reflexivity.
Qed.
End Unrolled.

Lemma readDma_loops bytes count :
  Acsi.readDma bytes count =
  (Hw.systick_disable;;
   Acsi.acquireDrq;;
   st <- unrolled_loop Acsi.ACSI_READ_BYTE count (Z.to_nat count) (bytes, 0);;
   remainder_loop Acsi.ACSI_READ_BYTE count (Z.to_nat count) st;;
   Acsi.releaseBus;;
   Hw.systick_enable).
Proof. reflexivity. Qed.

Lemma sendDma_loops bytes count :
  Acsi.sendDma bytes count =
  (Hw.systick_disable;;
   Acsi.acquireDataBus;;
   Acsi.acquireDrq;;
   st <- unrolled_loop Acsi.ACSI_SEND_BYTE count (Z.to_nat count) (bytes, 0);;
   remainder_loop Acsi.ACSI_SEND_BYTE count (Z.to_nat count) st;;
   Acsi.releaseBus;;
   Hw.systick_enable).
Proof. reflexivity. Qed.

Lemma readDma_per_byte bytes count :
  INT_MIN <= count - 16 <= INT_MAX ->
  Acsi.readDma bytes count =m= readBlock_per_byte bytes count.
Proof.
  intros H. rewrite readDma_loops. unfold readBlock_per_byte.
  do 2 (apply bind_proper; [reflexivity | intros _]).
  apply (loops_per_byte Acsi.ACSI_READ_BYTE read_byte_slot); [reflexivity | exact H].
Qed.

Lemma sendDma_per_byte bytes count :
  INT_MIN <= count - 16 <= INT_MAX ->
  Acsi.sendDma bytes count =m= writeBlock_per_byte bytes count.
Proof.
  intros H. rewrite sendDma_loops. unfold writeBlock_per_byte.
  do 3 (apply bind_proper; [reflexivity | intros _]).
  apply (loops_per_byte Acsi.ACSI_SEND_BYTE write_byte_slot); [reflexivity | exact H].
Qed.

Lemma readDma_undefined bytes count w :
  ~ (INT_MIN <= count - 16 <= INT_MAX) -> Acsi.readDma bytes count w = Undefined.
Proof.
  intros H.
  assert (E : Acsi.readDma bytes count
              =m= (Hw.systick_disable;; Acsi.acquireDrq;; undefined)).
  { rewrite readDma_loops.
    do 2 (apply bind_proper; [reflexivity | intros _]).
    apply unrolled_undefined, H. }
  rewrite E. reflexivity.
Qed.

Lemma sendDma_undefined bytes count w :
  ~ (INT_MIN <= count - 16 <= INT_MAX) -> Acsi.sendDma bytes count w = Undefined.
Proof.
  intros H.
  assert (E : Acsi.sendDma bytes count
              =m= (Hw.systick_disable;; Acsi.acquireDataBus;; Acsi.acquireDrq;;
                   undefined)).
  { rewrite sendDma_loops.
    do 3 (apply bind_proper; [reflexivity | intros _]).
    apply unrolled_undefined, H. }
  rewrite E. reflexivity.
Qed.

(** C5: for every buffer and every byte count, [readDma] and [sendDma],
    with their loops unrolled sixteen times and a remainder loop, have on
    every world the outcome of the per-byte transfer of the specification:
    the same return, hang or undefined behaviour and, on return, the same
    final world, that is the same log of register and buffer accesses in the
    same order and the same memory. *)
Theorem unrolled_is_per_byte (bytes count : Z) (w : World) :
  0 <= count <= INT_MAX ->
  Acsi.readDma bytes count w = readBlock_per_byte bytes count w
  /\ Acsi.sendDma bytes count w = writeBlock_per_byte bytes count w.
Proof.
  intros H.
  assert (H' : INT_MIN <= count - 16 <= INT_MAX)
    by (unfold INT_MIN, INT_MAX in *; lia).
  split.
  - apply readDma_per_byte, H'.
  - apply sendDma_per_byte, H'.
Qed.

Lemma unrolled_is_per_byte_witness :
  0 <= 17 <= INT_MAX
  /\ (Acsi.readDma 100 17 block_world = readBlock_per_byte 100 17 block_world
      /\ Acsi.sendDma 100 17 block_world = writeBlock_per_byte 100 17 block_world)
  /\ (exists w', Acsi.readDma 100 17 block_world = Done tt w'
                 /\ slots (new_events block_world w') = 17%nat)
  /\ (exists w', Acsi.sendDma 100 17 block_world = Done tt w'
                 /\ slots (new_events block_world w') = 17%nat).
Proof.
  assert (H : 0 <= 17 <= INT_MAX) by (unfold INT_MAX; lia).
  split; [exact H |].
  split; [exact (unrolled_is_per_byte 100 17 block_world H) |].
  split; (eexists; split; [vm_compute; reflexivity | vm_compute; reflexivity]).
Defined.

(** * Relational reasoning about runs *)

Section Respects.
Context (R : World -> World -> Prop) `{!PreOrder R}.

Lemma respects_ret {A} (a : A) : respects R (ret a).
Proof. intros w a' w' H. inversion H; subst. reflexivity. Qed.

Lemma respects_bind {A B} (m : M A) (k : A -> M B) :
  respects R m -> (forall a, respects R (k a)) -> respects R (bind m k).
Proof.
  intros Hm Hk w b w'' H.
  apply bind_done in H as (a & w' & H1 & H2).
  transitivity w'; [eapply Hm | eapply Hk]; eauto.
Qed.

Lemma respects_poll {A} fuel (read : M A) again :
  respects R read -> respects R (poll fuel read again).
Proof.
  intros Hr. induction fuel as [|fuel IH]; intros w a w' H.
  - discriminate.
  - cbn [poll] in H. apply bind_done in H as (v & w1 & H1 & H2).
    transitivity w1; [eapply Hr; eauto |].
    destruct (again v).
    + eapply IH; eauto.
    + inversion H2; subst. reflexivity.
Qed.

Lemma respects_busy_wait {A} (read : M A) again :
  respects R read -> respects R (busy_wait read again).
Proof.
  intros Hr w a w' H. unfold busy_wait in H.
  eapply respects_poll; eauto.
Qed.

Lemma respects_while {S} fuel (cond : S -> M bool) body s :
  (forall s, respects R (cond s)) -> (forall s, respects R (body s)) ->
  respects R (while_ fuel cond body s).
Proof.
  intros Hc Hb. revert s. induction fuel as [|fuel IH]; intros s w a w' H.
  - cbn [while_] in H. apply bind_done in H as (b & w1 & H1 & H2).
    transitivity w1; [eapply Hc; eauto |].
    destruct b; [discriminate |]. inversion H2; subst. reflexivity.
  - cbn [while_] in H. apply bind_done in H as (b & w1 & H1 & H2).
    transitivity w1; [eapply Hc; eauto |].
    destruct b.
    + apply bind_done in H2 as (s' & w2 & H2 & H3).
      transitivity w2; [eapply Hb; eauto | eapply IH; eauto].
    + inversion H2; subst. reflexivity.
Qed.

Lemma respects_per_byte slot n : forall addr,
  (forall a, respects R (slot a)) -> respects R (per_byte slot n addr).
Proof.
  induction n as [|n IH]; intros addr Hs; cbn [per_byte].
  - apply respects_ret.
  - apply respects_bind; [apply Hs | intros _; apply IH, Hs].
Qed.
End Respects.

Lemma respects_weaken (R R' : World -> World -> Prop) {A} (m : M A) :
  (forall w w', R w w' -> R' w w') -> respects R m -> respects R' m.
Proof. intros HR Hm w a w' H. eapply HR, Hm, H. Qed.

Lemma respects_seq (R1 R2 : World -> World -> Prop) {A B} (m : M A) (k : A -> M B) :
  (forall a b c, R1 a b -> R2 b c -> R2 a c) ->
  respects R1 m -> (forall x, respects R2 (k x)) -> respects R2 (bind m k).
Proof.
  intros Hc Hm Hk w b w'' H.
  apply bind_done in H as (a & w' & H1 & H2).
  eapply Hc; [eapply Hm | eapply Hk]; eauto.
Qed.

(** Take a compound computation apart down to the hardware accesses. *)
Ltac respects_step :=
  lazymatch goal with
  | |- respects _ (bind _ _) => apply respects_bind; [try typeclasses eauto | | intros ?]
  | |- respects _ (ret _) => apply respects_ret; try typeclasses eauto
  | |- respects _ (busy_wait _ _) => apply respects_busy_wait; [try typeclasses eauto |]
  | |- respects _ (poll _ _ _) => apply respects_poll; [try typeclasses eauto |]
  | |- respects _ (while_ _ _ _ _) =>
      apply respects_while; [try typeclasses eauto | intros [? ?] | intros [? ?]]
  | |- respects _ (per_byte _ _ _) =>
      apply respects_per_byte; [try typeclasses eauto | intros ?]
  | |- respects _ (if ?b then _ else _) => destruct b
  end.

(** ** The relations are preorders *)

#[export] Instance same_directions_preorder : PreOrder same_directions.
Proof.
  split; unfold same_directions;
    [intros w; reflexivity | intros a b c H1 H2; congruence].
Qed.

#[export] Instance adds_only_preorder P : PreOrder (adds_only P).
Proof.
  split.
  - intros w. exists []. split; [symmetry; apply app_nil_r | reflexivity].
  - intros a b c (e1 & H1 & F1) (e2 & H2 & F2). exists (e1 ++ e2). split.
    + rewrite H2, H1, app_assoc. reflexivity.
    + rewrite forallb_app, F1, F2. reflexivity.
Qed.

#[export] Instance quietly_preorder : PreOrder quietly.
Proof.
  split.
  - intros w. split; reflexivity.
  - intros a b c [H1 F1] [H2 F2]. split; [congruence | etransitivity; eauto].
Qed.

#[export] Instance same_host_preorder : PreOrder same_host.
Proof.
  split.
  - intros w. repeat split. lia.
  - intros a b c (H1 & P1 & N1) (H2 & P2 & N2). repeat split; try congruence. lia.
Qed.

#[export] Instance safely_preorder : PreOrder safely.
Proof. split; unfold safely; [intros w H; exact H | intros a b c H1 H2 H; auto]. Qed.

#[export] Instance keeps_on_preorder : PreOrder keeps_on.
Proof. split; unfold keeps_on; [intros w H; exact H | intros a b c H1 H2 H; auto]. Qed.

#[export] Instance in_segments_preorder : PreOrder in_segments.
Proof.
  split.
  - intros w. exists []. split; [symmetry; apply app_nil_r | constructor].
  - intros a b c (s1 & H1 & F1) (s2 & H2 & F2). exists (s1 ++ s2). split.
    + rewrite H2, H1, concat_app, app_assoc. reflexivity.
    + apply Forall_app. split; assumption.
Qed.

#[export] Instance same_data_direction_preorder : PreOrder same_data_direction.
Proof.
  split; unfold same_data_direction;
    [intros w; reflexivity | intros a b c H1 H2; congruence].
Qed.

(** ** Hardware accesses, one by one *)

Lemma ack_edges_frame edges : forall w,
  directions (fold_left Hw.ack_edge edges w) = directions w
  /\ systick (fold_left Hw.ack_edge edges w) = systick w
  /\ mem (fold_left Hw.ack_edge edges w) = mem w
  /\ host (fold_left Hw.ack_edge edges w) = host w
  /\ now (fold_left Hw.ack_edge edges w) = now w
  /\ patience (fold_left Hw.ack_edge edges w) = patience w
  /\ trace (fold_left Hw.ack_edge edges w) = trace w.
Proof.
  induction edges as [|e edges IH]; intros w; cbn [fold_left].
  - repeat split.
  - destruct (IH (Hw.ack_edge w e)) as (H1 & H2 & H3 & H4 & H5 & H6 & H7).
    rewrite H1, H2, H3, H4, H5, H6, H7. repeat split.
Qed.

(** From [H : access w = Done a w'] to the world the access leaves. *)
Ltac run_prim H :=
  unfold Hw.systick_disable, Hw.systick_enable, Hw.write_GPIOA_CRH, Hw.write_GPIOB_CRH,
    Hw.write_GPIOA_ODR, Hw.write_GPIOB_ODR, Hw.read_GPIOA_ODR, Hw.read_GPIOA_IDR,
    Hw.read_GPIOB_IDR, Hw.write_TIMER1_CNT, Hw.read_TIMER1_CNT, Hw.read_TIMER1_CCR1,
    Hw.load, Hw.store, modify in H;
  cbv zeta in H;
  try match type of H with
      | context [mem ?w !! ?a] => destruct (mem w !! a); [| discriminate]
      end;
  inversion H; subst; clear H;
  try match goal with
      | |- context [fold_left Hw.ack_edge ?l ?w] =>
          let F := fresh "F" in
          pose proof (ack_edges_frame l w) as F;
          destruct F as (?F & ?F & ?F & ?F & ?F & ?F & ?F);
          generalize dependent (fold_left Hw.ack_edge l w); intros
      end.

Ltac prim_directions :=
  let H := fresh "H" in
  intros ? ? ? H; run_prim H; unfold same_directions, directions in *; simpl;
  solve [reflexivity | assumption].

Ltac prim_data_direction :=
  let H := fresh "H" in
  intros ? ? ? H; run_prim H; unfold same_data_direction, directions in *; simpl;
  solve [reflexivity | congruence].

Ltac prim_adds :=
  let H := fresh "H" in
  intros ? ? ? H; run_prim H; unfold adds_only; simpl;
  eexists; split;
  [ first [reflexivity
          | match goal with F : trace _ = trace _ |- _ => rewrite F; reflexivity end]
  | reflexivity ].

Ltac prim_quietly :=
  let H := fresh "H" in
  intros ? ? ? H; run_prim H; unfold quietly, adds_only; simpl;
  split; [solve [reflexivity | assumption] |];
  eexists; split;
  [ first [reflexivity
          | match goal with F : trace _ = trace _ |- _ => rewrite F; reflexivity end]
  | reflexivity ].

Ltac prim_host :=
  let H := fresh "H" in
  intros ? ? ? H; run_prim H; unfold same_host; simpl;
  repeat split; solve [reflexivity | assumption | lia].

Ltac unfold_acsi :=
  unfold Acsi.readCs, Acsi.readAck, Acsi.idle, Acsi.pullIrq, Acsi.writeData,
    Acsi.releaseBus, Acsi.releaseRq, Acsi.releaseDataBus, Acsi.acquireDrq,
    Acsi.acquireDataBus, Acsi.ACSI_READ_BYTE, Acsi.ACSI_SEND_BYTE,
    read_byte_slot, write_byte_slot.

(** * Systick around the transfers *)

Lemma quietly_closing a b c : quietly a b -> closing b c -> closing a c.
Proof.
  intros [_ (e1 & H1 & F1)] (mid & H2 & F2 & S2).
  exists (e1 ++ mid). split; [| split].
  - rewrite H2, H1, <- !app_assoc. reflexivity.
  - unfold quiet in *. rewrite forallb_app, F1, F2. reflexivity.
  - exact S2.
Qed.

Lemma closing_bind {A B} (m : M A) (k : A -> M B) :
  respects quietly m -> (forall x, respects closing (k x)) ->
  respects closing (bind m k).
Proof. apply respects_seq, quietly_closing. Qed.

Lemma closing_enable : respects closing Hw.systick_enable.
Proof.
  intros w a w' H. run_prim H. exists []. repeat split.
Qed.

Lemma closing_enable_ret {A} (x : A) : respects closing (Hw.systick_enable;; ret x).
Proof.
  intros w a w' H. apply bind_done in H as (u & w1 & H1 & H2).
  inversion H2; subst. eapply closing_enable, H1.
Qed.

(** A run that switches systick off and then closes as above has the
    suspended-once shape. *)
Lemma suspended_run {A} (tail : M A) w a w' :
  respects closing tail ->
  (Hw.systick_disable;; tail) w = Done a w' ->
  suspended_once (new_events w w') /\ systick w' = true.
Proof.
  intros Ht H. apply bind_done in H as (u & w1 & H1 & H2).
  apply Ht in H2 as (mid & Htr & Hq & Hs). run_prim H1.
  split; [| exact Hs].
  exists mid. split; [| exact Hq].
  apply new_events_app. rewrite Htr. simpl. rewrite <- app_assoc. reflexivity.
Qed.

Lemma suspended_once_throughout evs :
  suspended_once evs -> suspended_throughout evs = true.
Proof.
  intros (mid & -> & Hq). unfold suspended_throughout.
  rewrite rev_app_distr. cbn [rev app].
  rewrite forallb_forall. intros e He. apply in_rev in He.
  unfold quiet in Hq. rewrite forallb_forall in Hq. specialize (Hq e He).
  destruct e as [[|]| | | |]; simpl in *; congruence.
Qed.

Ltac closing_steps :=
  repeat (first [ apply closing_enable_ret
                | apply closing_enable
                | apply closing_bind; [| intros ?] ]).

Lemma readIrq_suspended w b w' :
  Acsi.readIrq w = Done b w' ->
  suspended_once (new_events w w') /\ systick w' = true.
Proof.
  apply suspended_run. unfold_acsi. closing_steps.
  all: repeat respects_step; prim_quietly.
Qed.

Lemma sendIrq_suspended byte w w' :
  Acsi.sendIrq byte w = Done tt w' ->
  suspended_once (new_events w w') /\ systick w' = true.
Proof.
  apply suspended_run. unfold_acsi. closing_steps.
  all: repeat respects_step; prim_quietly.
Qed.

Lemma readDma_suspended bytes count w w' :
  Acsi.readDma bytes count w = Done tt w' ->
  suspended_once (new_events w w') /\ systick w' = true.
Proof.
  apply suspended_run. unfold Hw.int_sub. unfold_acsi. closing_steps.
  all: repeat respects_step; try prim_quietly.
  all: intros ? ? ? H; discriminate H.
Qed.

Lemma sendDma_suspended bytes count w w' :
  Acsi.sendDma bytes count w = Done tt w' ->
  suspended_once (new_events w w') /\ systick w' = true.
Proof.
  apply suspended_run. unfold Hw.int_sub. unfold_acsi. closing_steps.
  all: repeat respects_step; try prim_quietly.
  all: intros ? ? ? H; discriminate H.
Qed.

(** The multi-byte [sendIrq] has no systick calls of its own: its log is a
    row of segments, one per byte. *)
Lemma sendIrq_buf_body_segment bytes count :
  respects in_segments
    (b <- Hw.load bytes;; Acsi.sendIrq b;; ret (bytes + 1, count - 1)).
Proof.
  intros w st w' H.
  apply bind_done in H as (b & w1 & H1 & H2).
  apply bind_done in H2 as (u & w2 & H2 & H3).
  inversion H3; subst; clear H3. destruct u.
  pose proof (sendIrq_suspended _ _ _ H2) as [Hs _].
  destruct Hs as (mid & Hn & Hq).
  assert (Ht : trace w' = trace w1 ++ EvSystick false :: mid ++ [EvSystick true]).
  { assert (Hq' : respects (adds_only (fun _ => true)) (Acsi.sendIrq b)).
    { unfold Acsi.sendIrq. unfold_acsi. repeat respects_step; prim_adds. }
    destruct (Hq' _ _ _ H2) as (evs & He & _).
    rewrite He. f_equal. rewrite <- Hn. symmetry. apply new_events_app, He. }
  run_prim H1.
  exists [EvLoad bytes b :: EvSystick false :: mid ++ [EvSystick true]].
  split.
  - rewrite Ht. simpl. rewrite <- app_assoc, app_nil_r. reflexivity.
  - constructor; [| constructor].
    exists bytes, b, (EvSystick false :: mid ++ [EvSystick true]).
    split; [reflexivity |]. exists mid. split; [reflexivity | exact Hq].
Qed.

Lemma sendIrq_buf_segments bytes count w w' :
  Acsi.sendIrq_buf bytes count w = Done tt w' ->
  exists segs, new_events w w' = concat segs /\ Forall sendIrq_segment segs.
Proof.
  intros H.
  assert (Hr : respects in_segments (Acsi.sendIrq_buf bytes count)).
  { unfold Acsi.sendIrq_buf. respects_step; [| respects_step].
    respects_step; [respects_step |]. apply sendIrq_buf_body_segment. }
  destruct (Hr _ _ _ H) as (segs & Ht & Hf).
  exists segs. split; [apply new_events_app, Ht | exact Hf].
Qed.

Lemma sendIrq_buf_body_on bytes count w st w' :
  (b <- Hw.load bytes;; Acsi.sendIrq b;; ret (bytes + 1, count - 1)) w = Done st w' ->
  systick w' = true.
Proof.
  intros H.
  apply bind_done in H as (b & w1 & H1 & H2).
  apply bind_done in H2 as ([] & w2 & H2 & H3).
  inversion H3; subst; clear H3.
  apply (sendIrq_suspended _ _ _ H2).
Qed.

Lemma sendIrq_buf_exit bytes count w w' :
  Acsi.sendIrq_buf bytes count w = Done tt w' ->
  0 < count -> systick w' = true.
Proof.
  intros H Hc. unfold Acsi.sendIrq_buf in H.
  apply bind_done in H as (st & w1 & H1 & H2).
  inversion H2; subst; clear H2.
  destruct (Z.to_nat count) as [|fuel] eqn:Ef; [lia |].
  cbn [while_] in H1.
  apply bind_done in H1 as (b & w0 & H0 & H1).
  inversion H0; subst; clear H0.
  destruct (0 <? count) eqn:E; [| apply Z.ltb_ge in E; lia].
  apply bind_done in H1 as (st1 & w2 & H1 & H2).
  apply sendIrq_buf_body_on in H1.
  assert (Hr : respects keeps_on
                 (while_ fuel (fun '(_, count) => ret (0 <? count))
                    (fun '(bytes, count) =>
                       b <- Hw.load bytes;; Acsi.sendIrq b;; ret (bytes + 1, count - 1))
                    st1)).
  { respects_step; [respects_step |].
    intros ? ? ? Hb _. eapply sendIrq_buf_body_on, Hb. }
  exact (Hr _ _ _ H2 H1).
Qed.

(** The multi-byte [readIrq] ends by switching systick on. *)
Lemma readIrq_buf_exit bytes count w w' :
  Acsi.readIrq_buf bytes count w = Done tt w' -> systick w' = true.
Proof.
  intros H. unfold Acsi.readIrq_buf in H.
  apply bind_done in H as (u1 & w1 & _ & H).
  apply bind_done in H as (u2 & w2 & _ & H).
  apply bind_done in H as (u3 & w3 & _ & H).
  run_prim H. reflexivity.
Qed.

(** C4 as amended: the single-byte [readIrq] and [sendIrq] and the block
    transfers [readDma] and [sendDma] switch systick off as their first
    action, on as their last and touch it nowhere in between, however many
    bytes a block has; they return with systick on.  The multi-byte
    [sendIrq] is an iteration of the single-byte form: its log is a row of
    per-byte segments, a load of the byte followed by a single-byte send
    with systick suspended from its first to its last action, and after at
    least one byte it returns with systick on.  The multi-byte [readIrq]
    returns with systick on. *)
Theorem systick_discipline (op : transfer) (w w' : World) :
  run op w = Done tt w' ->
  match op with
  | ReadIrq | SendIrq _ | ReadDma _ _ | SendDma _ _ =>
      suspended_once (new_events w w')
      /\ suspended_throughout (new_events w w') = true
      /\ systick w' = true
  | SendIrqBuf _ count =>
      (exists segs, new_events w w' = concat segs /\ Forall sendIrq_segment segs)
      /\ (0 < count -> systick w' = true)
  | ReadIrqBuf _ _ => systick w' = true
  end.
Proof.
  intros H.
  assert (G : forall evs s, suspended_once evs /\ s = true ->
                suspended_once evs /\ suspended_throughout evs = true /\ s = true).
  { intros evs s [H1 H2]. auto using suspended_once_throughout. }
  destruct op as [| bytes count | byte | bytes count | bytes count | bytes count];
    run_op H.
  - apply bind_done in H as (b & w1 & H1 & H2). inversion H2; subst.
    apply G. eapply readIrq_suspended, H1.
  - eapply readIrq_buf_exit, H.
  - apply G. eapply sendIrq_suspended, H.
  - split; [eapply sendIrq_buf_segments, H | eapply sendIrq_buf_exit, H].
  - apply G. eapply readDma_suspended, H.
  - apply G. eapply sendDma_suspended, H.
Qed.

Lemma systick_discipline_witness :
  exists w',
    run (SendDma 100 17) block_world = Done tt w'
    /\ suspended_once (new_events block_world w')
    /\ suspended_throughout (new_events block_world w') = true
    /\ systick w' = true.
Proof.
  eexists. split; [vm_compute; reflexivity |].
  apply (systick_discipline (SendDma 100 17) block_world). vm_compute. reflexivity.
Defined.

(** C4 as stated asks the same of the multi-byte forms.  Sending two bytes
    with the multi-byte [sendIrq], systick is switched on after the first
    byte and off again before the second; reading one byte with the
    multi-byte [readIrq], the single-byte form it calls switches systick on
    before the closing wait for CS. *)
Lemma systick_discipline_counterexample :
  (exists w', run (SendIrqBuf 100 2) irq_world = Done tt w'
              /\ suspended_throughout (new_events irq_world w') = false
              /\ filter (fun e => is_systick e = true) (new_events irq_world w')
                 = [EvSystick false; EvSystick true; EvSystick false; EvSystick true])
  /\ (exists w', run (ReadIrqBuf 200 1) irq_world = Done tt w'
                 /\ suspended_throughout (new_events irq_world w') = false
                 /\ filter (fun e => is_systick e = true) (new_events irq_world w')
                    = [EvSystick false; EvSystick false; EvSystick true; EvSystick true]).
Proof.
  split; (eexists; split; [vm_compute; reflexivity |]);
    split; vm_compute; reflexivity.
Qed.

(** * The bus on return from a transfer *)

Lemma releasing_bind {A B} (m : M A) (k : A -> M B) :
  (forall x, respects releasing (k x)) -> respects releasing (bind m k).
Proof.
  intros Hk.
  apply (respects_seq (fun _ _ => True) releasing); auto.
  intros w a w' _. exact I.
Qed.

Lemma releasing_base : respects releasing (Acsi.releaseBus;; Hw.systick_enable).
Proof.
  intros w a w' H. unfold_acsi.
  apply bind_done in H as (u1 & w1 & H1 & H2).
  apply bind_done in H1 as (u0 & w0 & H0 & H1).
  run_prim H0. run_prim H1. run_prim H2. reflexivity.
Qed.

Ltac releasing_steps :=
  repeat (first [ apply releasing_base | apply releasing_bind; intros ? ]).

Lemma sendIrq_releasing byte : respects releasing (Acsi.sendIrq byte).
Proof. unfold Acsi.sendIrq. releasing_steps. Qed.

Lemma readDma_releasing bytes count : respects releasing (Acsi.readDma bytes count).
Proof. unfold Acsi.readDma. releasing_steps. Qed.

Lemma sendDma_releasing bytes count : respects releasing (Acsi.sendDma bytes count).
Proof. unfold Acsi.sendDma. releasing_steps. Qed.

Lemma releasing_rq_bind {A B} (m : M A) (k : A -> M B) :
  respects same_data_direction m -> (forall x, respects releasing_rq (k x)) ->
  respects releasing_rq (bind m k).
Proof.
  apply respects_seq. unfold same_data_direction, releasing_rq.
  intros a b c H1 [H2 H3]. split; congruence.
Qed.

Lemma readIrq_releasing_rq : respects releasing_rq Acsi.readIrq.
Proof.
  unfold Acsi.readIrq. unfold_acsi.
  apply releasing_rq_bind; [prim_data_direction | intros ?].
  apply releasing_rq_bind; [prim_data_direction | intros ?].
  apply releasing_rq_bind; [repeat respects_step; prim_data_direction | intros ?].
  intros w a w' H.
  apply bind_done in H as (u1 & w1 & H1 & H2).
  apply bind_done in H2 as (u2 & w2 & H2 & H3).
  run_prim H1. run_prim H2. inversion H3; subst. split; reflexivity.
Qed.

Lemma same_directions_safely w w' : same_directions w w' -> safely w w'.
Proof.
  unfold same_directions, safely, bus_safe, data_bus_released, rq_released, directions.
  intros H. injection H as -> ->. auto.
Qed.

Lemma releasing_safely w w' : releasing w w' -> safely w w'.
Proof. intros H _. apply released_is_safe, H. Qed.

Lemma releasing_rq_safely w w' : releasing_rq w w' -> safely w w'.
Proof.
  unfold releasing_rq, safely, bus_safe, data_bus_released, rq_released.
  intros [-> ->] [H _]. split; [exact H | reflexivity].
Qed.

Ltac prim_safely := apply (respects_weaken _ _ _ same_directions_safely); prim_directions.

Lemma readIrq_buf_safely bytes count : respects safely (Acsi.readIrq_buf bytes count).
Proof.
  unfold Acsi.readIrq_buf. unfold_acsi. repeat respects_step.
  all: try prim_safely.
  apply (respects_weaken _ _ _ releasing_rq_safely), readIrq_releasing_rq.
Qed.

Lemma sendIrq_buf_safely bytes count : respects safely (Acsi.sendIrq_buf bytes count).
Proof.
  unfold Acsi.sendIrq_buf. repeat respects_step.
  all: try prim_safely.
  apply (respects_weaken _ _ _ releasing_safely), sendIrq_releasing.
Qed.

(** C7: a transfer operation that finds the bus in the safe configuration
    (data pins, interrupt, request and acknowledge pins all inputs) leaves
    it so on return, whichever operation and however the host behaved.
    The operations that take lines themselves put them back from any
    starting state: [sendIrq], [readDma] and [sendDma] return with both
    direction registers at their released values, the single-byte
    [readIrq] with the interrupt and request lines released and the
    direction of the data bus, which it never takes, as it found it. *)
Theorem bus_safe_on_return (op : transfer) (w w' : World) :
  run op w = Done tt w' ->
  (bus_safe w -> bus_safe w')
  /\ match op with
     | SendIrq _ | ReadDma _ _ | SendDma _ _ => directions w' = released_directions
     | ReadIrq => GPIOA_CRH w' = 0x44444BB4 /\ GPIOB_CRH w' = GPIOB_CRH w
     | ReadIrqBuf _ _ | SendIrqBuf _ _ => True
     end.
Proof.
  intros H.
  destruct op as [| bytes count | byte | bytes count | bytes count | bytes count];
    run_op H.
  - apply bind_done in H as (b & w1 & H1 & H2). inversion H2; subst.
    pose proof (readIrq_releasing_rq _ _ _ H1) as Hr.
    split; [apply releasing_rq_safely, Hr | exact Hr].
  - split; [eapply readIrq_buf_safely, H | exact I].
  - pose proof (sendIrq_releasing _ _ _ _ H) as Hr.
    split; [apply releasing_safely, Hr | exact Hr].
  - split; [eapply sendIrq_buf_safely, H | exact I].
  - pose proof (readDma_releasing _ _ _ _ _ H) as Hr.
    split; [apply releasing_safely, Hr | exact Hr].
  - pose proof (sendDma_releasing _ _ _ _ _ H) as Hr.
    split; [apply releasing_safely, Hr | exact Hr].
Qed.

Lemma bus_safe_on_return_witness :
  exists w',
    run (SendIrqBuf 100 2) irq_world = Done tt w'
    /\ bus_safe irq_world
    /\ bus_safe w'.
Proof.
  eexists. split; [vm_compute; reflexivity |].
  assert (Hs : bus_safe irq_world) by (split; reflexivity).
  split; [exact Hs |].
  refine (proj1 (bus_safe_on_return (SendIrqBuf 100 2) irq_world _ _) Hs).
  vm_compute. reflexivity.
Defined.

(** * Byte slots of a block transfer *)

Lemma tally_app f a b : tally f (a ++ b) = (tally f a + tally f b)%nat.
Proof. unfold tally. rewrite filter_app, length_app. reflexivity. Qed.

Lemma tally_none f evs :
  forallb (fun e => negb (f e)) evs = true -> tally f evs = 0%nat.
Proof.
  unfold tally. induction evs as [|e evs IH]; [reflexivity |].
  cbn [forallb]. intros H. apply andb_true_iff in H as [H1 H2].
  rewrite filter_cons. destruct (decide (f e = true)) as [E|E].
  - rewrite E in H1. discriminate.
  - apply IH, H2.
Qed.

Lemma tallies_bind f n1 n2 {A B} (m : M A) (k : A -> M B) :
  tallies f n1 m -> (forall a, tallies f n2 (k a)) ->
  tallies f (n1 + n2) (bind m k).
Proof.
  intros Hm Hk w b w'' H.
  apply bind_done in H as (a & w' & H1 & H2).
  destruct (Hm _ _ _ H1) as (e1 & T1 & C1).
  destruct (Hk _ _ _ _ H2) as (e2 & T2 & C2).
  exists (e1 ++ e2). split.
  - rewrite T2, T1, app_assoc. reflexivity.
  - rewrite tally_app, C1, C2. reflexivity.
Qed.

Lemma tallies_zero f {A} (m : M A) :
  respects (adds_only (fun e => negb (f e))) m -> tallies f 0 m.
Proof.
  intros Hm w a w' H. destruct (Hm _ _ _ H) as (evs & T & F).
  exists evs. split; [exact T | apply tally_none, F].
Qed.

Lemma tallies_per_byte f c slot n : forall addr,
  (forall a, tallies f c (slot a)) -> tallies f (n * c) (per_byte slot n addr).
Proof.
  induction n as [|n IH]; intros addr Hs; cbn [per_byte].
  - intros w a w' H. inversion H; subst. exists []. split; [symmetry; apply app_nil_r | reflexivity].
  - cbn [Nat.mul]. apply tallies_bind; [apply Hs | intros _; apply IH, Hs].
Qed.

Lemma tallies_done f n {A} (m : M A) w a w' :
  tallies f n m -> m w = Done a w' -> tally f (new_events w w') = n.
Proof.
  intros Hm H. destruct (Hm _ _ _ H) as (evs & T & C).
  rewrite (new_events_app _ _ _ T). exact C.
Qed.

Ltac tally_zero := apply tallies_zero; unfold_acsi; repeat respects_step; prim_adds.

Ltac tally_prim :=
  let H := fresh "H" in
  intros ? ? ? H; run_prim H; eexists; split; [reflexivity | reflexivity].

Lemma read_slot_resets addr : tallies is_reset 1 (read_byte_slot addr).
Proof.
  unfold read_byte_slot.
  apply (tallies_bind _ 1 0); [tally_prim | intros _; tally_zero].
Qed.

Lemma read_slot_stores addr : tallies is_store 1 (read_byte_slot addr).
Proof.
  unfold read_byte_slot.
  apply (tallies_bind _ 0 1); [tally_zero | intros _].
  apply (tallies_bind _ 0 1); [tally_zero | intros _].
  apply (tallies_bind _ 0 1); [tally_zero | intros ?]. tally_prim.
Qed.

Lemma write_slot_resets addr : tallies is_reset 1 (write_byte_slot addr).
Proof.
  unfold write_byte_slot.
  apply (tallies_bind _ 0 1); [tally_zero | intros ?].
  apply (tallies_bind _ 0 1); [tally_zero | intros _].
  apply (tallies_bind _ 1 0); [tally_prim | intros _; tally_zero].
Qed.

Lemma write_slot_loads addr : tallies is_load 1 (write_byte_slot addr).
Proof.
  unfold write_byte_slot.
  apply (tallies_bind _ 1 0); [tally_prim | intros ?; tally_zero].
Qed.

Lemma readBlock_tallies f buffer count :
  f (EvWrite R_TIMER1_CNT 2) = false ->
  (forall r v, r <> R_TIMER1_CNT -> f (EvWrite r v) = false) ->
  (forall b, f (EvSystick b) = false) ->
  (forall a, tallies f 1 (read_byte_slot a)) ->
  tallies f (Z.to_nat count) (readBlock_per_byte buffer count).
Proof.
  intros F1 F2 F3 Hs.
  replace (Z.to_nat count) with (0 + (0 + (Z.to_nat count * 1 + (0 + 0))))%nat by lia.
  unfold readBlock_per_byte.
  assert (Hz : forall e, f e = false -> forallb (fun e => negb (f e)) [e] = true)
    by (intros e He; simpl; rewrite He; reflexivity).
  apply tallies_bind; [| intros _; apply tallies_bind; [| intros _;
    apply tallies_bind; [apply tallies_per_byte, Hs | intros _;
      apply tallies_bind; [| intros _]]]].
  all: apply tallies_zero; unfold_acsi; repeat respects_step.
  all: intros ? ? ? H; run_prim H; unfold adds_only; simpl;
    eexists; (split; [reflexivity |]); apply Hz; auto; apply F2; discriminate.
Qed.

Lemma writeBlock_tallies f buffer count :
  f (EvWrite R_TIMER1_CNT 2) = false ->
  (forall r v, r <> R_TIMER1_CNT -> f (EvWrite r v) = false) ->
  (forall b, f (EvSystick b) = false) ->
  (forall a, tallies f 1 (write_byte_slot a)) ->
  tallies f (Z.to_nat count) (writeBlock_per_byte buffer count).
Proof.
  intros F1 F2 F3 Hs.
  replace (Z.to_nat count)
    with (0 + (0 + (0 + (Z.to_nat count * 1 + (0 + 0)))))%nat by lia.
  unfold writeBlock_per_byte.
  assert (Hz : forall e, f e = false -> forallb (fun e => negb (f e)) [e] = true)
    by (intros e He; simpl; rewrite He; reflexivity).
  apply tallies_bind; [| intros _; apply tallies_bind; [| intros _;
    apply tallies_bind; [| intros _;
      apply tallies_bind; [apply tallies_per_byte, Hs | intros _;
        apply tallies_bind; [| intros _]]]]].
  all: apply tallies_zero; unfold_acsi; repeat respects_step.
  all: intros ? ? ? H; run_prim H; unfold adds_only; simpl;
    eexists; (split; [reflexivity |]); apply Hz; auto; apply F2; discriminate.
Qed.

(** X14: whenever [readDma] or [sendDma] returns it has run exactly
    [count] byte slots (none for a negative count), stored, respectively
    loaded, that many bytes, released the bus and switched systick back on,
    whatever the polls of the counter found. *)
Theorem dma_runs_every_slot (op : transfer) (w w' : World) :
  run op w = Done tt w' ->
  match op with
  | ReadDma _ count =>
      slots (new_events w w') = Z.to_nat count
      /\ tally is_store (new_events w w') = Z.to_nat count
      /\ directions w' = released_directions /\ systick w' = true
  | SendDma _ count =>
      slots (new_events w w') = Z.to_nat count
      /\ tally is_load (new_events w w') = Z.to_nat count
      /\ directions w' = released_directions /\ systick w' = true
  | _ => True
  end.
Proof.
  intros H.
  destruct op as [| bytes count | byte | bytes count | bytes count | bytes count];
    try exact I; run_op H.
  - destruct (decide (INT_MIN <= count - 16 <= INT_MAX)) as [Hc|Hc];
      [| rewrite readDma_undefined in H by exact Hc; discriminate].
    pose proof (readDma_releasing _ _ _ _ _ H) as Hd.
    pose proof (readDma_suspended _ _ _ _ H) as [_ Hs].
    rewrite (readDma_per_byte bytes count Hc) in H.
    repeat split; try assumption.
    + eapply tallies_done; [| exact H].
      apply readBlock_tallies; try reflexivity; [| apply read_slot_resets].
      intros r v Hr. destruct r; try reflexivity. congruence.
    + eapply tallies_done; [| exact H].
      apply readBlock_tallies; try reflexivity. apply read_slot_stores.
  - destruct (decide (INT_MIN <= count - 16 <= INT_MAX)) as [Hc|Hc];
      [| rewrite sendDma_undefined in H by exact Hc; discriminate].
    pose proof (sendDma_releasing _ _ _ _ _ H) as Hd.
    pose proof (sendDma_suspended _ _ _ _ H) as [_ Hs].
    rewrite (sendDma_per_byte bytes count Hc) in H.
    repeat split; try assumption.
    + eapply tallies_done; [| exact H].
      apply writeBlock_tallies; try reflexivity; [| apply write_slot_resets].
      intros r v Hr. destruct r; try reflexivity. congruence.
    + eapply tallies_done; [| exact H].
      apply writeBlock_tallies; try reflexivity. apply write_slot_loads.
Qed.

Lemma dma_runs_every_slot_witness :
  exists w',
    run (ReadDma 200 3) double_ack_world = Done tt w'
    /\ existsb is_overrun (new_events double_ack_world w') = true
    /\ slots (new_events double_ack_world w') = 3%nat
    /\ tally is_store (new_events double_ack_world w') = 3%nat
    /\ directions w' = released_directions /\ systick w' = true.
Proof.
  eexists. split; [vm_compute; reflexivity |].
  split; [vm_compute; reflexivity |].
  apply (dma_runs_every_slot (ReadDma 200 3) double_ack_world).
  vm_compute. reflexivity.
Defined.

(** With ACK pulsed twice in the second of three slots, the poll reads 2,
    the slot ends, and the third slot runs as usual; both operations return
    with all three bytes handled, the byte of the first of the two pulses
    lost. *)
Lemma double_ack_completes :
  (exists w', Acsi.readDma 200 3 double_ack_world = Done tt w'
              /\ filter (fun e => is_overrun e = true) (new_events double_ack_world w')
                 = [EvRead R_TIMER1_CNT 2]
              /\ stops_at_overrun (new_events double_ack_world w') = false
              /\ slots (new_events double_ack_world w') = 3%nat
              /\ (mem w' !! 200, mem w' !! 201, mem w' !! 202)
                 = (Some 0, Some 0xA2, Some 2))
  /\ (exists w', Acsi.sendDma 100 3 double_ack_world = Done tt w'
                 /\ filter (fun e => is_overrun e = true) (new_events double_ack_world w')
                    = [EvRead R_TIMER1_CNT 2]
                 /\ stops_at_overrun (new_events double_ack_world w') = false
                 /\ bus_words (new_events double_ack_world w')
                    = [0x1200; 0x3400; 0x5600]).
Proof.
  split; (eexists; split; [vm_compute; reflexivity |]);
    repeat split; vm_compute; reflexivity.
Qed.

(** * Block transfers of no bytes *)

Lemma readDma_no_bytes (bytes count : Z) (w : World) :
  INT_MIN + 16 <= count <= 0 ->
  exists w',
    Acsi.readDma bytes count w = Done tt w'
    /\ mem w' = mem w
    /\ trace w' = trace w ++ readDma_frame.
Proof.
  intros [Hlo Hhi].
  rewrite (readDma_per_byte bytes count) by (unfold INT_MIN, INT_MAX in *; lia).
  unfold readBlock_per_byte.
  replace (Z.to_nat count) with 0%nat by lia.
  eexists. split; [reflexivity |]. split; [reflexivity |].
  cbn. unfold readDma_frame. repeat rewrite <- app_assoc. reflexivity.
Qed.

Lemma sendDma_no_bytes (bytes count : Z) (w : World) :
  INT_MIN + 16 <= count <= 0 ->
  exists w',
    Acsi.sendDma bytes count w = Done tt w'
    /\ mem w' = mem w
    /\ trace w' = trace w ++ sendDma_frame.
Proof.
  intros [Hlo Hhi].
  rewrite (sendDma_per_byte bytes count) by (unfold INT_MIN, INT_MAX in *; lia).
  unfold writeBlock_per_byte.
  replace (Z.to_nat count) with 0%nat by lia.
  eexists. split; [reflexivity |]. split; [reflexivity |].
  cbn. unfold sendDma_frame. repeat rewrite <- app_assoc. reflexivity.
Qed.

(** C10 as amended: for a count that is zero or negative and at least
    [INT_MIN + 16], [readDma] and [sendDma] return normally; the buffer and
    the rest of memory are untouched, and the log gains exactly the frame of
    the operation: systick off, lines acquired, bus released, systick on, with
    no load, no store and no counter reset or poll in between. *)
Theorem dma_no_bytes (bytes count : Z) (w : World) :
  INT_MIN + 16 <= count <= 0 ->
  (exists w', Acsi.readDma bytes count w = Done tt w'
              /\ mem w' = mem w /\ new_events w w' = readDma_frame)
  /\ (exists w', Acsi.sendDma bytes count w = Done tt w'
                 /\ mem w' = mem w /\ new_events w w' = sendDma_frame).
Proof.
  intros H. split.
  - destruct (readDma_no_bytes bytes count w H) as (w' & E & Hm & Ht).
    exists w'. auto using new_events_app.
  - destruct (sendDma_no_bytes bytes count w H) as (w' & E & Hm & Ht).
    exists w'. auto using new_events_app.
Qed.

Lemma dma_no_bytes_witness :
  INT_MIN + 16 <= -3 <= 0
  /\ (exists w', Acsi.readDma 100 (-3) (power_on (still_host 0 0)) = Done tt w'
                 /\ mem w' = mem (power_on (still_host 0 0))
                 /\ new_events (power_on (still_host 0 0)) w' = readDma_frame)
  /\ (exists w', Acsi.sendDma 100 (-3) (power_on (still_host 0 0)) = Done tt w'
                 /\ mem w' = mem (power_on (still_host 0 0))
                 /\ new_events (power_on (still_host 0 0)) w' = sendDma_frame).
Proof.
  assert (H : INT_MIN + 16 <= -3 <= 0) by (unfold INT_MIN; lia).
  split; [exact H |].
  exact (dma_no_bytes 100 (-3) (power_on (still_host 0 0)) H).
Defined.

(** C10 as stated fails at the sixteen most negative counts: [count - 16]
    in the condition of the unrolled loop is then not an [int].  At
    [INT_MIN] the operations have no defined result, where the claim has
    them return. *)
Lemma dma_no_bytes_counterexample :
  INT_MIN <= 0
  /\ Acsi.readDma 100 INT_MIN (power_on (still_host 0 0)) = Undefined
  /\ Acsi.sendDma 100 INT_MIN (power_on (still_host 0 0)) = Undefined.
Proof.
  split; [unfold INT_MIN; lia |].
  split; [apply readDma_undefined | apply sendDma_undefined];
    unfold INT_MIN, INT_MAX; lia.
Qed.

(** * Command capture *)

Lemma c_bool_false z : c_bool z = false <-> z = 0.
Proof.
  unfold c_bool. rewrite negb_false_iff. apply Z.eqb_eq.
Qed.

Lemma c_bool_true z : c_bool z = true <-> z <> 0.
Proof.
  unfold c_bool. rewrite negb_true_iff. apply Z.eqb_neq.
Qed.

Lemma land_bit_testbit (m d : Z) :
  0 <= d -> c_bool (Z.land (Z.shiftl 1 d) m) = Z.testbit m d.
Proof.
  intros Hd. rewrite Z.shiftl_1_l.
  destruct (Z.testbit m d) eqn:E.
  - apply c_bool_true. intros H0.
    assert (Hb : Z.testbit (Z.land (2 ^ d) m) d = true)
      by (rewrite Z.land_spec, Z.pow2_bits_true, E by lia; reflexivity).
    rewrite H0, Z.bits_0 in Hb. discriminate.
  - apply c_bool_false. apply Z.bits_inj'. intros i Hi.
    rewrite Z.land_spec, Z.bits_0.
    destruct (Z.eq_dec i d) as [->|Hne].
    + rewrite E. apply andb_false_r.
    + rewrite Z.pow2_bits_false by lia. reflexivity.
Qed.

Lemma uint16_range z : 0 <= uint16 z < 65536.
Proof.
  unfold uint16. change 0xFFFF with (Z.ones 16).
  rewrite Z.land_ones by lia. apply Z.mod_pos_bound. lia.
Qed.

Lemma device_id_range z : 0 <= device_id (uint16 z) < 8.
Proof.
  unfold device_id. pose proof (uint16_range z) as H.
  rewrite Z.shiftr_div_pow2 by lia. change (2 ^ 13) with 8192.
  split; [apply Z.div_pos; lia | apply Z.div_lt_upper_bound; lia].
Qed.

Lemma command_byte_id z :
  Z.shiftr (uint8 (Z.shiftr (uint16 z) 8)) 5 = device_id (uint16 z).
Proof.
  unfold device_id. pose proof (uint16_range z) as H.
  assert (Hb : 0 <= Z.shiftr (uint16 z) 8 < 256).
  { rewrite Z.shiftr_div_pow2 by lia. change (2 ^ 8) with 256.
    split; [apply Z.div_pos; lia | apply Z.div_lt_upper_bound; lia]. }
  unfold uint8 at 1. change 0xFF with (Z.ones 8).
  rewrite Z.land_ones by lia. rewrite Z.mod_small by exact Hb.
  rewrite Z.shiftr_shiftr by lia. reflexivity.
Qed.

(** A busy-wait on port B returns the first snapshot on which it does not
    go round again. *)
Lemma poll_GPIOB again fuel : forall w v w',
  poll fuel Hw.read_GPIOB_IDR again w = Done v w' ->
  exists t : nat,
    (now w <= t)%nat /\ now w' = S t
    /\ v = uint16 (host_GPIOB (host w) t)
    /\ again v = false
    /\ (forall t' : nat, (now w <= t' < t)%nat ->
          again (uint16 (host_GPIOB (host w) t')) = true)
    /\ host w' = host w /\ patience w' = patience w.
Proof.
  induction fuel as [|fuel IH]; intros w v w' H; [discriminate |].
  cbn [poll] in H. apply bind_done in H as (p & w1 & H1 & H2).
  run_prim H1.
  destruct (again (uint16 (host_GPIOB (host w) (now w)))) eqn:E.
  - apply IH in H2 as (t & Ht & Hn & Hv & Ha & Hb & Hh & Hp).
    simpl in *. exists t. repeat split; try assumption; try lia.
    intros t' Ht'. destruct (Nat.eq_dec t' (now w)) as [->|Hne];
      [exact E | apply Hb; lia].
  - inversion H2; subst; clear H2. exists (now w). simpl.
    repeat split; try assumption; try lia.
Qed.

Lemma waitCommand_loop_first mask fuel : forall w port w',
  Acsi.waitCommand_loop fuel mask w = Done port w' ->
  exists t : nat,
    (now w <= t < now w')%nat
    /\ port = uint16 (host_GPIOB (host w) t)
    /\ accepted mask port
    /\ (forall t' : nat, (now w <= t' < t)%nat ->
          ~ accepted mask (uint16 (host_GPIOB (host w) t')))
    /\ host w' = host w /\ patience w' = patience w.
Proof.
  induction fuel as [|fuel IH]; intros w port w' H; [discriminate |].
  cbn [Acsi.waitCommand_loop] in H.
  apply bind_done in H as (p & w1 & H1 & H2).
  unfold busy_wait in H1.
  apply poll_GPIOB in H1 as (t & Ht & Hn & Hv & Ha & Hb & Hh & Hp).
  apply c_bool_false in Ha.
  assert (Hid : 0 <= Z.shiftr p (8 + 5)).
  { rewrite Hv. apply device_id_range. }
  rewrite land_bit_testbit in H2 by exact Hid.
  assert (Hrej : forall t' : nat, (now w <= t' < t)%nat ->
                   ~ accepted mask (uint16 (host_GPIOB (host w) t'))).
  { intros t' Ht' [Hs _]. specialize (Hb t' Ht').
    apply c_bool_true in Hb. apply Hb, Hs. }
  destruct (Z.testbit mask (Z.shiftr p (8 + 5))) eqn:E; cbn [negb] in H2.
  - apply bind_done in H2 as (q & w2 & H2 & H3).
    rewrite idle_always_true in H2. inversion H2; subst q w2; clear H2.
    cbn [negb] in H3. inversion H3; subst; clear H3.
    exists t. simpl. rewrite Hn.
    repeat split; try assumption; try lia.
  - apply IH in H2 as (t2 & Ht2 & Hv2 & Hacc & Hb2 & Hh2 & Hp2).
    rewrite Hh in *. exists t2.
    split; [lia |]. split; [exact Hv2 |]. split; [exact Hacc |].
    split; [| split; congruence].
    intros t' Ht'.
    destruct (Nat.lt_ge_cases t' t) as [Hlt|Hge]; [apply Hrej; lia |].
    destruct (Nat.eq_dec t' t) as [->|Hne]; [| apply Hb2; lia].
    intros [_ Hsel]. unfold selected, device_id in Hsel.
    rewrite <- Hv in Hsel. change (8 + 5) with 13 in E. congruence.
Qed.

(** C2: whenever [waitCommand mask] returns, it returns for one snapshot of
    port B, taken at some poll [t] of the call: that snapshot shows the
    strobe pattern (A1 and CS low), the device id in its top three data
    bits is in [mask], and the byte returned is the data byte of that very
    snapshot, whose top three bits are the id.  Every earlier snapshot of
    the call was turned down, so a strobe whose id is not in [mask] never
    makes the call return. *)
Theorem waitCommand_selected (mask : Z) (w : World) (byte : Z) (w' : World) :
  Acsi.waitCommand mask w = Done byte w' ->
  exists (t : nat) (port : Z),
    (now w <= t < now w')%nat
    /\ port = uint16 (host_GPIOB (host w) t)
    /\ strobe port
    /\ selected mask (device_id port)
    /\ byte = uint8 (Z.shiftr port 8)
    /\ Z.shiftr byte 5 = device_id port
    /\ (forall t' : nat, (now w <= t' < t)%nat ->
          ~ (strobe (uint16 (host_GPIOB (host w) t'))
             /\ selected mask (device_id (uint16 (host_GPIOB (host w) t'))))).
Proof.
  intros H. unfold Acsi.waitCommand in H.
  apply bind_done in H as (u & w1 & H1 & H2). run_prim H1.
  apply bind_done in H2 as (port & w2 & H2 & H3).
  apply waitCommand_loop_first in H2 as (t & Ht & Hv & [Hs Hsel] & Hb & Hh & Hp).
  simpl in *.
  apply bind_done in H3 as (c & w3 & H3 & H4).
  assert (Hmono : (now w2 <= now w3)%nat).
  { assert (Hr : respects same_host (busy_wait Acsi.readCs negb))
      by (unfold_acsi; repeat respects_step; prim_host).
    apply (Hr _ _ _ H3). }
  apply bind_done in H4 as (u4 & w4 & H4 & H5). run_prim H4.
  inversion H5; subst; clear H5. simpl.
  exists t, (uint16 (host_GPIOB (host w) t)).
  split; [lia |]. split; [reflexivity |]. split; [exact Hs |].
  split; [exact Hsel |]. split; [reflexivity |].
  split; [apply command_byte_id | exact Hb].
Qed.

Lemma waitCommand_selected_witness :
  exists w',
    Acsi.waitCommand 4 (power_on toggling_host) = Done 0x41 w'
    /\ exists (t : nat) (port : Z),
         (now (power_on toggling_host) <= t < now w')%nat
         /\ port = uint16 (host_GPIOB (host (power_on toggling_host)) t)
         /\ strobe port
         /\ selected 4 (device_id port)
         /\ 0x41 = uint8 (Z.shiftr port 8)
         /\ Z.shiftr 0x41 5 = device_id port
         /\ (forall t' : nat, (now (power_on toggling_host) <= t' < t)%nat ->
               ~ (strobe (uint16 (host_GPIOB (host (power_on toggling_host)) t'))
                  /\ selected 4
                       (device_id
                          (uint16 (host_GPIOB (host (power_on toggling_host)) t'))))).
Proof.
  eexists. split; [vm_compute; reflexivity |].
  apply (waitCommand_selected 4 (power_on toggling_host) 0x41).
  vm_compute. reflexivity.
Defined.

(** * Writing a block and reading it back *)

Lemma runs_ret {A} (a : A) w (Q : A -> World -> Prop) : Q a w -> runs (ret a) w Q.
Proof. intros H. exists a, w. split; [reflexivity | exact H]. Qed.

Lemma runs_bind {A B} (m : M A) (k : A -> M B) w (Q : B -> World -> Prop) :
  runs m w (fun a w1 => runs (k a) w1 Q) -> runs (bind m k) w Q.
Proof.
  intros (a & w1 & H1 & b & w2 & H2 & HQ). exists b, w2.
  split; [| exact HQ]. unfold bind. rewrite H1. exact H2.
Qed.

Lemma runs_modify f w (Q : unit -> World -> Prop) : Q tt (f w) -> runs (modify f) w Q.
Proof. intros H. exists tt, (f w). split; [reflexivity | exact H]. Qed.

Lemma runs_conseq {A} (m : M A) w (Q Q' : A -> World -> Prop) :
  (forall a w', Q a w' -> Q' a w') -> runs m w Q -> runs m w Q'.
Proof. intros HQ (a & w' & H & Hq). exists a, w'. auto. Qed.

Lemma runs_meq {A} (m1 m2 : M A) w (Q : A -> World -> Prop) :
  m1 =m= m2 -> runs m2 w Q -> runs m1 w Q.
Proof. intros E (a & w' & H & Hq). exists a, w'. rewrite E. auto. Qed.

Lemma runs_load addr b w (Q : Z -> World -> Prop) :
  mem w !! addr = Some b -> Q b (record (EvLoad addr b) w) -> runs (Hw.load addr) w Q.
Proof.
  intros Hm HQ. exists b, (record (EvLoad addr b) w). split; [| exact HQ].
  unfold Hw.load. rewrite Hm. reflexivity.
Qed.

Lemma read_CNT_one_ack w s :
  host_ACK (host w) (now w) = [s] ->
  TIMER1_CNT w = 0 ->
  Hw.read_TIMER1_CNT w =
  Done 1 (record (EvRead R_TIMER1_CNT 1) (set_now (S (now w)) (Hw.ack_edge w s))).
Proof.
  intros Ha Hc. unfold Hw.read_TIMER1_CNT. rewrite Ha. cbn [fold_left]. cbv zeta.
  assert (E : TIMER1_CNT (Hw.ack_edge w s) = 1)
    by (unfold Hw.ack_edge; simpl; rewrite Hc; reflexivity).
  rewrite E. reflexivity.
Qed.

(** With the counter at zero and one pulse of ACK before the first poll,
    the busy-wait of a byte slot ends at that poll, the counter at 1 and
    port B copied into the compare register. *)
Lemma runs_tick w s (Q : Z -> World -> Prop) :
  (1 <= patience w)%nat ->
  host_ACK (host w) (now w) = [s] ->
  TIMER1_CNT w = 0 ->
  Q 1 (record (EvRead R_TIMER1_CNT 1) (set_now (S (now w)) (Hw.ack_edge w s))) ->
  runs (busy_wait Hw.read_TIMER1_CNT (fun cnt => cnt =? 0)) w Q.
Proof.
  intros Hp Ha Hc HQ.
  exists 1, (record (EvRead R_TIMER1_CNT 1) (set_now (S (now w)) (Hw.ack_edge w s))).
  split; [| exact HQ].
  unfold busy_wait. destruct (patience w) as [|p]; [lia |].
  cbn [poll]. unfold bind. rewrite (read_CNT_one_ack w s Ha Hc). reflexivity.
Qed.

(** One byte slot of the writer under a host that acknowledges. *)
Lemma write_slot_runs addr b w :
  mem w !! addr = Some b ->
  (1 <= patience w)%nat ->
  (exists s, host_ACK (host w) (now w) = [s]) ->
  runs (write_byte_slot addr) w (fun _ w1 =>
    mem w1 = mem w /\ host w1 = host w /\ now w1 = S (now w)
    /\ patience w1 = patience w
    /\ trace w1 = trace w ++ [EvLoad addr b; EvWrite R_GPIOB_ODR (Z.shiftl b 8);
                              EvWrite R_TIMER1_CNT 0; EvRead R_TIMER1_CNT 1]).
Proof.
  intros Hm Hp [s Ha]. unfold write_byte_slot.
  apply runs_bind. eapply runs_load; [exact Hm |].
  apply runs_bind. apply runs_modify.
  apply runs_bind. apply runs_modify.
  apply runs_bind. eapply (runs_tick _ s); [exact Hp | exact Ha | reflexivity |].
  apply runs_ret. simpl. repeat split. rewrite <- !app_assoc. reflexivity.
Qed.

(** One byte slot of the reader: the byte stored is the data byte of the
    port at the pulse. *)
Lemma read_slot_runs addr s w :
  (1 <= patience w)%nat ->
  host_ACK (host w) (now w) = [s] ->
  runs (read_byte_slot addr) w (fun _ w1 =>
    mem w1 = <[addr := uint8 (Z.shiftr (uint16 s) 8)]> (mem w)
    /\ host w1 = host w /\ now w1 = S (now w) /\ patience w1 = patience w).
Proof.
  intros Hp Ha. unfold read_byte_slot.
  apply runs_bind. apply runs_modify.
  apply runs_bind. eapply (runs_tick _ s); [exact Hp | exact Ha | reflexivity |].
  apply runs_bind. eexists _, _. split; [reflexivity |].
  apply runs_modify. simpl. repeat split.
Qed.

Lemma holds_tail m addr b bs :
  holds m addr (b :: bs) -> m !! addr = Some b /\ holds m (addr + 1) bs.
Proof.
  intros H. split.
  - specialize (H 0%nat b eq_refl). rewrite Z.add_0_r in H. exact H.
  - intros k x Hk. specialize (H (S k) x Hk).
    replace (addr + 1 + Z.of_nat k) with (addr + Z.of_nat (S k)) by lia. exact H.
Qed.

Lemma writer_runs bs : forall addr w,
  holds (mem w) addr bs ->
  acks_each_poll w (length bs) ->
  (1 <= patience w)%nat ->
  runs (per_byte write_byte_slot (length bs) addr) w (fun _ w' =>
    mem w' = mem w /\ host w' = host w /\ patience w' = patience w
    /\ exists evs, trace w' = trace w ++ evs
                   /\ bus_words evs = map (fun b => Z.shiftl b 8) bs).
Proof.
  induction bs as [|b bs IH]; intros addr w Hh Ha Hp; cbn [length per_byte].
  - apply runs_ret. repeat split. exists []. split; [symmetry; apply app_nil_r | reflexivity].
  - apply holds_tail in Hh as [Hb Hh].
    apply runs_bind.
    eapply runs_conseq; [| apply (write_slot_runs addr b w Hb Hp)].
    + intros _ w1 (Hm1 & Hh1 & Hn1 & Hp1 & Ht1).
      eapply runs_conseq; [| apply (IH (addr + 1) w1)].
      * intros _ w' (Hm' & Hh' & Hp' & evs & Ht' & Hw').
        repeat split; try congruence.
        eexists. split; [rewrite Ht', Ht1, <- app_assoc; reflexivity |].
        unfold bus_words in *. rewrite omap_app, Hw'. reflexivity.
      * rewrite Hm1. exact Hh.
      * intros k Hk. destruct (Ha (S k) ltac:(simpl; lia)) as [s Hs].
        exists s. rewrite Hh1, Hn1.
        replace (S (now w) + k)%nat with (now w + S k)%nat by lia. exact Hs.
      * lia.
    + destruct (Ha 0%nat ltac:(simpl; lia)) as [s Hs].
      exists s. rewrite Nat.add_0_r in Hs. exact Hs.
Qed.

Lemma loopback_byte b ctl :
  is_byte b -> 0 <= ctl < 256 ->
  uint8 (Z.shiftr (uint16 (Z.lor (Z.shiftl b 8) ctl)) 8) = b.
Proof.
  intros Hb Hc. unfold is_byte in Hb.
  assert (Hs : Z.shiftl b 8 = b * 256) by (rewrite Z.shiftl_mul_pow2 by lia; reflexivity).
  assert (H0 : Z.land (Z.shiftl b 8) ctl = 0).
  { apply Z.bits_inj'. intros i Hi. rewrite Z.land_spec, Z.bits_0.
    destruct (Z.lt_ge_cases i 8) as [Hlt|Hge].
    - rewrite Z.shiftl_spec_low by lia. reflexivity.
    - replace ctl with (ctl mod 2 ^ 8)
        by (apply Z.mod_small; change (2 ^ 8) with 256; lia).
      rewrite Z.mod_pow2_bits_high by lia. apply andb_false_r. }
  assert (Hl : Z.lor (Z.shiftl b 8) ctl = b * 256 + ctl).
  { rewrite <- Z.lxor_lor by exact H0.
    rewrite <- Z.add_nocarry_lxor by exact H0. rewrite Hs. reflexivity. }
  rewrite Hl. unfold uint16, uint8.
  change 0xFFFF with (Z.ones 16). change 0xFF with (Z.ones 8).
  rewrite (Z.land_ones (b * 256 + ctl) 16) by lia. change (2 ^ 16) with 65536.
  rewrite (Z.mod_small (b * 256 + ctl)) by lia.
  rewrite Z.shiftr_div_pow2 by lia. change (2 ^ 8) with 256.
  replace ((b * 256 + ctl) / 256) with b
    by (apply Z.div_unique with ctl; lia).
  rewrite Z.land_ones by lia. change (2 ^ 8) with 256. apply Z.mod_small. lia.
Qed.

Lemma reader_runs bs : forall addr w,
  Forall is_byte bs ->
  loopback (map (fun b => Z.shiftl b 8) bs) w ->
  (1 <= patience w)%nat ->
  runs (per_byte read_byte_slot (length bs) addr) w (fun _ w' =>
    holds (mem w') addr bs
    /\ (forall a, a < addr -> mem w' !! a = mem w !! a)).
Proof.
  induction bs as [|b bs IH]; intros addr w Hb Hl Hp; cbn [length per_byte].
  - apply runs_ret. split; [intros k x Hk; discriminate | reflexivity].
  - apply Forall_cons in Hb as [Hb Hbs].
    destruct (Hl 0%nat (Z.shiftl b 8) eq_refl) as (ctl & Hc & Hs).
    rewrite Nat.add_0_r in Hs.
    apply runs_bind.
    eapply runs_conseq; [| apply (read_slot_runs addr _ w Hp Hs)].
    intros _ w1 (Hm1 & Hh1 & Hn1 & Hp1).
    rewrite (loopback_byte b ctl Hb Hc) in Hm1.
    eapply runs_conseq; [| apply (IH (addr + 1) w1 Hbs)].
    + intros _ w' [Hh' Hf']. split.
      * intros [|k] x Hk.
        -- cbn in Hk. inversion Hk; subst x. rewrite Z.add_0_r.
           rewrite Hf' by lia. rewrite Hm1. apply lookup_insert_eq.
        -- replace (addr + Z.of_nat (S k)) with (addr + 1 + Z.of_nat k) by lia.
           apply Hh'. exact Hk.
      * intros a Ha. rewrite Hf' by lia. rewrite Hm1.
        apply lookup_insert_ne. lia.
    + intros k v Hk. destruct (Hl (S k) v Hk) as (c & Hc' & Hs').
      exists c. split; [exact Hc' |]. rewrite Hh1, Hn1.
      replace (S (now w) + k)%nat with (now w + S k)%nat by lia. exact Hs'.
    + lia.
Qed.

Ltac runs_prims :=
  unfold Hw.systick_disable, Hw.systick_enable, Acsi.acquireDataBus, Acsi.acquireDrq,
    Acsi.releaseBus, Acsi.releaseDataBus, Acsi.releaseRq, Hw.write_GPIOA_CRH,
    Hw.write_GPIOB_CRH, Hw.write_TIMER1_CNT;
  repeat first [ apply runs_modify
               | apply runs_bind; apply runs_modify
               | apply runs_bind; apply runs_bind; apply runs_modify ].

Lemma sendDma_runs bs src w :
  Z.of_nat (length bs) <= INT_MAX ->
  holds (mem w) src bs ->
  acks_each_poll w (length bs) ->
  (1 <= patience w)%nat ->
  runs (Acsi.sendDma src (Z.of_nat (length bs))) w (fun _ w' =>
    mem w' = mem w
    /\ bus_words (new_events w w') = map (fun b => Z.shiftl b 8) bs).
Proof.
  intros Hn Hh Ha Hp.
  eapply runs_meq;
    [apply sendDma_per_byte; unfold INT_MIN, INT_MAX in *; lia |].
  unfold writeBlock_per_byte. rewrite Nat2Z.id.
  runs_prims.
  apply runs_bind.
  eapply runs_conseq; [| apply writer_runs; simpl; assumption].
  intros _ w1 (Hm & _ & _ & evs & Ht & Hw). simpl in Hm, Ht.
  runs_prims. simpl. split; [exact Hm |].
  erewrite new_events_app; [| simpl; rewrite Ht, <- !app_assoc; reflexivity].
  unfold bus_words in *. rewrite !omap_app, Hw. simpl. apply app_nil_r.
Qed.

Lemma readDma_runs bs dst w :
  Z.of_nat (length bs) <= INT_MAX ->
  Forall is_byte bs ->
  loopback (map (fun b => Z.shiftl b 8) bs) w ->
  (1 <= patience w)%nat ->
  runs (Acsi.readDma dst (Z.of_nat (length bs))) w (fun _ w' =>
    holds (mem w') dst bs
    /\ (forall a, a < dst -> mem w' !! a = mem w !! a)).
Proof.
  intros Hn Hb Hl Hp.
  eapply runs_meq;
    [apply readDma_per_byte; unfold INT_MIN, INT_MAX in *; lia |].
  unfold readBlock_per_byte. rewrite Nat2Z.id.
  runs_prims.
  apply runs_bind.
  eapply runs_conseq; [| apply reader_runs; simpl; assumption].
  intros _ w1 [Hh Hf]. simpl in Hf.
  runs_prims. simpl. split; assumption.
Qed.

(** The round trip for a block of any length an [int] can count. *)
Lemma block_round_trip_any (bs : list Z) (src dst : Z) (ws : World) :
  Z.of_nat (length bs) <= INT_MAX ->
  Forall is_byte bs ->
  holds (mem ws) src bs ->
  acks_each_poll ws (length bs) ->
  (1 <= patience ws)%nat ->
  exists ws',
    Acsi.sendDma src (Z.of_nat (length bs)) ws = Done tt ws'
    /\ forall wr,
         loopback (bus_words (new_events ws ws')) wr ->
         (1 <= patience wr)%nat ->
         exists wr',
           Acsi.readDma dst (Z.of_nat (length bs)) wr = Done tt wr'
           /\ holds (mem wr') dst bs.
Proof.
  intros Hn Hb Hh Ha Hp.
  destruct (sendDma_runs bs src ws Hn Hh Ha Hp) as ([] & ws' & Hs & _ & Hw).
  exists ws'. split; [exact Hs |].
  intros wr Hl Hpr. rewrite Hw in Hl.
  destruct (readDma_runs bs dst wr Hn Hb Hl Hpr) as ([] & wr' & Hr & Hh' & _).
  exists wr'. split; assumption.
Qed.

(** C6: for a sequence of bytes of one of the lengths 0, 1, 15, 16, 17,
    255 and 4096 held in memory, [sendDma] under a host that acknowledges
    every byte returns, and [readDma] of the same count, fed by the loopback
    harness with the words [sendDma] drove onto port B, returns and leaves
    exactly that sequence, in order, in its buffer. *)
Theorem block_round_trip (bs : list Z) (src dst : Z) (ws : World) :
  In (length bs) [0; 1; 15; 16; 17; 255; 4096]%nat ->
  Forall is_byte bs ->
  holds (mem ws) src bs ->
  acks_each_poll ws (length bs) ->
  (1 <= patience ws)%nat ->
  exists ws',
    Acsi.sendDma src (Z.of_nat (length bs)) ws = Done tt ws'
    /\ forall wr,
         loopback (bus_words (new_events ws ws')) wr ->
         (1 <= patience wr)%nat ->
         exists wr',
           Acsi.readDma dst (Z.of_nat (length bs)) wr = Done tt wr'
           /\ holds (mem wr') dst bs.
Proof.
  intros Hlen. apply block_round_trip_any.
  unfold INT_MAX. simpl in Hlen.
  repeat (destruct Hlen as [<- | Hlen]; [lia |]). contradiction.
Qed.

Lemma seq_bytes_are_bytes n : Forall is_byte (seq_bytes n).
Proof.
  unfold seq_bytes. apply Forall_forall. intros b Hb.
  apply list_elem_of_In, in_map_iff in Hb as (k & <- & _).
  unfold is_byte. apply Z.mod_pos_bound. lia.
Qed.

Lemma buffer_at_holds bs : forall addr, holds (buffer_at addr bs) addr bs.
Proof.
  unfold buffer_at.
  induction bs as [|b bs IH] using rev_ind; intros addr k x Hk.
  - discriminate.
  - rewrite imap_app, list_to_map_app. cbn [imap list_to_map Nat.add].
    apply lookup_union_Some_raw.
    destruct (lookup_app_Some bs [b] k x) as [Hcase _].
    destruct (Hcase Hk) as [Hl | [Hge Hr]].
    + left. apply IH, Hl.
    + right. destruct (k - length bs)%nat as [|j] eqn:Ej; [| discriminate].
      cbn in Hr. inversion Hr; subst x. assert (k = length bs) as -> by lia.
      split.
      * apply not_elem_of_list_to_map_1. rewrite fmap_imap.
        intros Hin. apply elem_of_lookup_imap_1 in Hin as (i & y & Heq & Hi).
        apply lookup_lt_Some in Hi. cbn in Heq. lia.
      * rewrite Nat.add_0_r. cbn. apply lookup_insert_eq.
Qed.

Lemma block_round_trip_witness :
  In (length (seq_bytes 17)) [0; 1; 15; 16; 17; 255; 4096]%nat
  /\ Forall is_byte (seq_bytes 17)
  /\ holds (mem block_world) 100 (seq_bytes 17)
  /\ acks_each_poll block_world (length (seq_bytes 17))
  /\ (1 <= patience block_world)%nat
  /\ exists ws',
       Acsi.sendDma 100 (Z.of_nat (length (seq_bytes 17))) block_world = Done tt ws'
       /\ forall wr,
            loopback (bus_words (new_events block_world ws')) wr ->
            (1 <= patience wr)%nat ->
            exists wr',
              Acsi.readDma 500 (Z.of_nat (length (seq_bytes 17))) wr = Done tt wr'
              /\ holds (mem wr') 500 (seq_bytes 17).
Proof.
  assert (H1 : In (length (seq_bytes 17)) [0; 1; 15; 16; 17; 255; 4096]%nat)
    by (vm_compute; tauto).
  assert (H2 : Forall is_byte (seq_bytes 17)) by apply seq_bytes_are_bytes.
  assert (H3 : holds (mem block_world) 100 (seq_bytes 17))
    by apply buffer_at_holds.
  assert (H4 : acks_each_poll block_world (length (seq_bytes 17)))
    by (intros k _; eexists; reflexivity).
  assert (H5 : (1 <= patience block_world)%nat) by (vm_compute; lia).
  repeat (split; [assumption |]).
  exact (block_round_trip (seq_bytes 17) 100 500 block_world H1 H2 H3 H4 H5).
Defined.

(** * Block transfers under repeated acknowledge *)
















(** * Further properties of the engine *)

#[export] Instance untouched_preorder : PreOrder untouched.
Proof.
  split.
  - intros w. repeat split.
  - intros a b c (A1 & A2 & A3 & A4 & A5 & A6 & A7) (B1 & B2 & B3 & B4 & B5 & B6 & B7).
    repeat split; congruence.
Qed.

#[export] Instance only_polls_preorder : PreOrder only_polls.
Proof.
  split.
  - intros w. split; reflexivity.
  - intros a b c [H1 F1] [H2 F2]. split; etransitivity; eauto.
Qed.

#[export] Instance same_memory_preorder : PreOrder same_memory.
Proof.
  split; unfold same_memory; [intros w; reflexivity | intros a b c H1 H2; congruence].
Qed.

#[export] Instance stores_within_preorder lo hi : PreOrder (stores_within lo hi).
Proof.
  split.
  - intros w a _. reflexivity.
  - intros a b c H1 H2 x Hx. rewrite (H2 x Hx). apply H1, Hx.
Qed.

#[export] Instance silent_preorder : PreOrder silent.
Proof.
  split.
  - intros w. split; reflexivity.
  - intros a b c [H1 F1] [H2 F2]. split; [congruence | etransitivity; eauto].
Qed.

Ltac prim_polls :=
  let H := fresh "H" in
  intros ? ? ? H; run_prim H; unfold only_polls, untouched, adds_only; simpl;
  split; [repeat split |];
  eexists; split; reflexivity.

Ltac prim_memory :=
  let H := fresh "H" in
  intros ? ? ? H; run_prim H; unfold same_memory; simpl;
  solve [reflexivity | assumption].

(** ** The session invariant *)

Lemma run_safely op : respects safely (run op).
Proof.
  destruct op as [| bytes count | byte | bytes count | bytes count | bytes count].
  - rewrite run_ReadIrq. respects_step; [| respects_step].
    apply (respects_weaken _ _ _ releasing_rq_safely), readIrq_releasing_rq.
  - apply readIrq_buf_safely.
  - apply (respects_weaken _ _ _ releasing_safely), sendIrq_releasing.
  - apply sendIrq_buf_safely.
  - apply (respects_weaken _ _ _ releasing_safely), readDma_releasing.
  - apply (respects_weaken _ _ _ releasing_safely), sendDma_releasing.
Qed.

Lemma run_all_safely ops : respects safely (run_all ops).
Proof.
  induction ops as [|op ops IH]; cbn [run_all].
  - respects_step.
  - respects_step; [apply run_safely | exact IH].
Qed.

Lemma setupGpio_result w :
  exists w',
    Acsi.setupGpio w = Done tt w'
    /\ directions w' = released_directions
    /\ GPIOA_ODR w' = Z.lor (GPIOA_ODR w) DRQ_MASK
    /\ mem w' = mem w /\ systick w' = systick w.
Proof. eexists. repeat split. Qed.

(** X1: [setupGpio], from whatever state the pins are in, leaves the bus in
    the safe configuration with the output latch of DRQ high, and the bus is
    in the safe configuration again after any sequence of transfer
    operations that follows it, each time the sequence returns. *)
Theorem session_bus_safe (ops : list transfer) (w w' : World) :
  (Acsi.setupGpio;; run_all ops) w = Done tt w' ->
  bus_safe w'
  /\ exists w0, Acsi.setupGpio w = Done tt w0
                /\ bus_safe w0
                /\ Z.testbit (GPIOA_ODR w0) DRQ_PIN = true.
Proof.
  intros H. apply bind_done in H as ([] & w0 & H0 & H1).
  destruct (setupGpio_result w) as (w0' & E & Hd & Ho & _).
  rewrite E in H0. inversion H0; subst w0'; clear H0.
  assert (Hs : bus_safe w0) by (apply released_is_safe, Hd).
  split; [exact (run_all_safely ops _ _ _ H1 Hs) |].
  exists w0. repeat split; try assumption; try apply Hs.
  rewrite Ho, Z.lor_spec. unfold DRQ_MASK, DRQ_PIN.
  replace (Z.testbit 2048 11) with true by reflexivity. apply orb_true_r.
Qed.

Lemma session_bus_safe_witness :
  exists w',
    (Acsi.setupGpio;; run_all [SendIrq 0x12; ReadIrq; SendIrqBuf 100 2])
      (set_GPIOB_CRH 0x33333333 irq_world) = Done tt w'
    /\ bus_safe w'.
Proof.
  eexists. split; [vm_compute; reflexivity |].
  refine (proj1 (session_bus_safe [SendIrq 0x12; ReadIrq; SendIrqBuf 100 2]
                   (set_GPIOB_CRH 0x33333333 irq_world) _ _)).
  vm_compute. reflexivity.
Defined.

(** ** Busy-waits on port B *)

Lemma runs_respects (R : World -> World -> Prop) {A} (m : M A) w
  (Q : A -> World -> Prop) :
  respects R m -> runs m w Q -> runs m w (fun a w' => Q a w' /\ R w w').
Proof.
  intros Hr (a & w' & H & HQ). exists a, w'. split; [exact H |].
  split; [exact HQ | eapply Hr, H].
Qed.

Lemma runs_done {A} (m : M A) w a w' (Q : A -> World -> Prop) :
  runs m w Q -> m w = Done a w' -> Q a w'.
Proof.
  intros (a0 & w0 & H0 & HQ) H. rewrite H0 in H. inversion H; subst. exact HQ.
Qed.

Section Polling.
Context {A : Type} (read : M A) (f : Z -> A).
Hypothesis read_snapshot : forall w,
  exists w1, read w = Done (f (snapshot w (now w))) w1
             /\ now w1 = S (now w) /\ host w1 = host w /\ patience w1 = patience w.

(** A busy-wait that returns has stopped at the first poll on which it
    does not go round again. *)
Lemma poll_first again fuel : forall w v w',
  poll fuel read again w = Done v w' ->
  exists t : nat,
    (now w <= t)%nat /\ now w' = S t
    /\ v = f (snapshot w t)
    /\ again v = false
    /\ (forall t' : nat, (now w <= t' < t)%nat -> again (f (snapshot w t')) = true)
    /\ host w' = host w /\ patience w' = patience w.
Proof.
  induction fuel as [|fuel IH]; intros w v w' H; [discriminate |].
  cbn [poll] in H. apply bind_done in H as (p & w1 & H1 & H2).
  destruct (read_snapshot w) as (w1' & E & Hn & Hh & Hp).
  rewrite E in H1. inversion H1; subst p w1'; clear H1.
  destruct (again (f (snapshot w (now w)))) eqn:Ea.
  - apply IH in H2 as (t & Ht & Hn' & Hv & Ha & Hb & Hh' & Hp').
    unfold snapshot in *. rewrite Hh in *.
    exists t. repeat split; try assumption; try lia; try congruence.
    intros t' Ht'. destruct (Nat.eq_dec t' (now w)) as [->|Hne];
      [exact Ea | apply Hb; lia].
  - inversion H2; subst v w'; clear H2. exists (now w).
    repeat split; try assumption; try lia.
Qed.

(** A busy-wait returns as soon as the host lets it, if that is within the
    polls the watchdog allows. *)
Lemma poll_runs again k : forall fuel w,
  (k < fuel)%nat ->
  (forall j : nat, (j < k)%nat -> again (f (snapshot w (now w + j))) = true) ->
  again (f (snapshot w (now w + k))) = false ->
  runs (poll fuel read again) w (fun v w' =>
    v = f (snapshot w (now w + k)) /\ now w' = S (now w + k)
    /\ host w' = host w /\ patience w' = patience w).
Proof.
  induction k as [|k IH]; intros fuel w Hf Hb Hs;
    (destruct fuel as [|fuel]; [lia |]); cbn [poll].
  - destruct (read_snapshot w) as (w1 & E & Hn & Hh & Hp).
    rewrite Nat.add_0_r in *.
    exists (f (snapshot w (now w))), w1. split.
    + unfold bind. rewrite E, Hs. reflexivity.
    + repeat split; assumption.
  - destruct (read_snapshot w) as (w1 & E & Hn & Hh & Hp).
    assert (H0 : again (f (snapshot w (now w))) = true).
    { specialize (Hb 0%nat ltac:(lia)). rewrite Nat.add_0_r in Hb. exact Hb. }
    assert (Hsn : forall t, snapshot w1 t = snapshot w t)
      by (intros t; unfold snapshot; rewrite Hh; reflexivity).
    destruct (IH fuel w1 ltac:(lia)) as (v & w' & H & Hv & Hn' & Hh' & Hp').
    + intros j Hj. rewrite Hsn, Hn.
      replace (S (now w) + j)%nat with (now w + S j)%nat by lia. apply Hb. lia.
    + rewrite Hsn, Hn.
      replace (S (now w) + k)%nat with (now w + S k)%nat by lia. exact Hs.
    + exists v, w'. split.
      * unfold bind. rewrite E, H0. exact H.
      * rewrite Hsn, Hn in Hv. rewrite Hn in Hn'.
        replace (S (now w) + k)%nat with (now w + S k)%nat in * by lia.
        repeat split; congruence.
Qed.
(** The same, when only some later poll is known to stop the wait. *)
Lemma poll_runs_upto again k : forall fuel w,
  (k < fuel)%nat ->
  again (f (snapshot w (now w + k))) = false ->
  runs (poll fuel read again) w (fun v w' =>
    exists j : nat,
      (j <= k)%nat /\ v = f (snapshot w (now w + j)) /\ again v = false
      /\ (forall i : nat, (i < j)%nat -> again (f (snapshot w (now w + i))) = true)
      /\ now w' = S (now w + j)
      /\ host w' = host w /\ patience w' = patience w).
Proof.
  induction k as [|k IH]; intros fuel w Hf Hs;
    (destruct fuel as [|fuel]; [lia |]); cbn [poll];
    destruct (read_snapshot w) as (w1 & E & Hn & Hh & Hp).
  - rewrite Nat.add_0_r in Hs.
    exists (f (snapshot w (now w))), w1. split.
    + unfold bind. rewrite E, Hs. reflexivity.
    + exists 0%nat. rewrite Nat.add_0_r.
      repeat split; try assumption; try lia.
  - destruct (again (f (snapshot w (now w)))) eqn:E0.
    + assert (Hsn : forall t, snapshot w1 t = snapshot w t)
        by (intros t; unfold snapshot; rewrite Hh; reflexivity).
      destruct (IH fuel w1 ltac:(lia)) as (v & w' & H & j & Hj & Hv & Ha & Hb & Hn' & Hh' & Hp').
      * rewrite Hsn, Hn.
        replace (S (now w) + k)%nat with (now w + S k)%nat by lia. exact Hs.
      * exists v, w'. split; [unfold bind; rewrite E, E0; exact H |].
        exists (S j). rewrite Hsn, Hn in Hv. rewrite Hn in Hn'.
        replace (S (now w) + j)%nat with (now w + S j)%nat in * by lia.
        repeat split; try assumption; try lia; try congruence.
        intros i Hi. destruct i as [|i]; [rewrite Nat.add_0_r; exact E0 |].
        specialize (Hb i ltac:(lia)). rewrite Hsn, Hn in Hb.
        replace (S (now w) + i)%nat with (now w + S i)%nat in * by lia. exact Hb.
    + exists (f (snapshot w (now w))), w1. split.
      * unfold bind. rewrite E, E0. reflexivity.
      * exists 0%nat. rewrite Nat.add_0_r.
        repeat split; try assumption; try lia.
Qed.
End Polling.

Lemma read_GPIOB_snapshot w :
  exists w1, Hw.read_GPIOB_IDR w = Done (snapshot w (now w)) w1
             /\ now w1 = S (now w) /\ host w1 = host w /\ patience w1 = patience w.
Proof. eexists. repeat split. Qed.

Lemma readCs_snapshot w :
  exists w1, Acsi.readCs w = Done (cs_high (snapshot w (now w))) w1
             /\ now w1 = S (now w) /\ host w1 = host w /\ patience w1 = patience w.
Proof. eexists. repeat split. Qed.


Lemma steady_modify f :
  (forall w, host (f w) = host w /\ patience (f w) = patience w /\ now (f w) = now w) ->
  steady (modify f).
Proof. intros H w. exists tt, (f w). split; [reflexivity | apply H]. Qed.

Lemma steady_bind {A B} (m : M A) (k : A -> M B) :
  steady m -> (forall a, steady (k a)) -> steady (bind m k).
Proof.
  intros Hm Hk w. destruct (Hm w) as (a & w1 & E1 & H1 & P1 & N1).
  destruct (Hk a w1) as (b & w2 & E2 & H2 & P2 & N2).
  exists b, w2. split; [unfold bind; rewrite E1; exact E2 |].
  repeat split; congruence.
Qed.

Lemma steady_ret {A} (a : A) : steady (ret a).
Proof. intros w. exists a, w. repeat split. Qed.

Ltac steady_tac :=
  unfold_acsi;
  unfold Hw.systick_disable, Hw.systick_enable, Hw.write_GPIOA_CRH, Hw.write_GPIOB_CRH,
    Hw.write_GPIOA_ODR, Hw.write_GPIOB_ODR, Hw.write_TIMER1_CNT, Hw.store;
  repeat first [ apply steady_ret
               | apply steady_modify; intros ?; repeat split
               | apply steady_bind; [| intros ?] ].

Lemma runs_steady {A B} (m : M A) (k : A -> M B) w (Q : B -> World -> Prop) :
  steady m ->
  (forall a w1, host w1 = host w -> patience w1 = patience w -> now w1 = now w ->
     runs (k a) w1 Q) ->
  runs (bind m k) w Q.
Proof.
  intros Hm Hk. destruct (Hm w) as (a & w1 & E1 & H1 & P1 & N1).
  apply runs_bind. exists a, w1. split; [exact E1 | apply Hk; assumption].
Qed.

Lemma snapshot_same w1 w t : host w1 = host w -> snapshot w1 t = snapshot w t.
Proof. intros H. unfold snapshot. rewrite H. reflexivity. Qed.
(** ** More on command capture *)

Lemma respects_waitCommand_loop (R : World -> World -> Prop) `{!PreOrder R} mask :
  respects R Hw.read_GPIOB_IDR -> respects R Hw.read_GPIOA_IDR ->
  forall fuel, respects R (Acsi.waitCommand_loop fuel mask).
Proof.
  intros Hb Ha. induction fuel as [|fuel IH]; cbn [Acsi.waitCommand_loop].
  - intros w a w' H. discriminate.
  - unfold Acsi.idle. repeat respects_step; assumption.
Qed.

Lemma respects_waitCommand_patient (R : World -> World -> Prop) `{!PreOrder R} mask :
  respects R Hw.read_GPIOB_IDR -> respects R Hw.read_GPIOA_IDR ->
  respects R (fun w => Acsi.waitCommand_loop (patience w) mask w).
Proof.
  intros Hb Ha w a w' E.
  eapply (respects_waitCommand_loop R mask Hb Ha), E.
Qed.

Lemma waitCommand_only_polls mask : respects only_polls (Acsi.waitCommand mask).
Proof.
  unfold Acsi.waitCommand. unfold_acsi.
  respects_step; [prim_polls |].
  respects_step;
    [apply respects_waitCommand_patient; [typeclasses eauto | prim_polls | prim_polls] |].
  repeat respects_step; prim_polls.
Qed.

Lemma waitCommand_closing mask :
  respects closing
    (port <- (fun w => Acsi.waitCommand_loop (patience w) mask w);;
     busy_wait Acsi.readCs negb;; Hw.systick_enable;; ret (uint8 (Z.shiftr port 8))).
Proof.
  apply closing_bind;
    [apply respects_waitCommand_patient;
     [typeclasses eauto | prim_quietly | prim_quietly]
    | intros port].
  apply closing_bind; [unfold_acsi; repeat respects_step; prim_quietly | intros _].
  apply closing_enable_ret.
Qed.

(** X2: a call of [waitCommand] that returns has written no register and
    no memory: its log holds systick being switched off first and on last
    and, in between, nothing but reads of the two input registers; it
    returns with systick on. *)
Theorem waitCommand_frame (mask : Z) (w : World) (byte : Z) (w' : World) :
  Acsi.waitCommand mask w = Done byte w' ->
  suspended_once (new_events w w')
  /\ systick w' = true
  /\ untouched w w'
  /\ forallb is_access (new_events w w') = true.
Proof.
  intros H.
  destruct (suspended_run _ _ _ _ (waitCommand_closing mask) H) as [Hs Ht].
  destruct (waitCommand_only_polls mask _ _ _ H) as [Hu (evs & He & Hf)].
  repeat split; try assumption; try apply Hu.
  rewrite (new_events_app _ _ _ He). exact Hf.
Qed.

Lemma waitCommand_frame_witness :
  exists w',
    Acsi.waitCommand 4 irq_world = Done 0x41 w'
    /\ suspended_once (new_events irq_world w')
    /\ systick w' = true
    /\ untouched irq_world w'
    /\ forallb is_access (new_events irq_world w') = true.
Proof.
  eexists. split; [vm_compute; reflexivity |].
  apply (waitCommand_frame 4 irq_world 0x41). vm_compute. reflexivity.
Defined.

(** X4: with a mask that selects none of the eight device ids, and so
    with the empty mask 0, [waitCommand] never returns, whatever the host
    does. *)
Theorem waitCommand_no_device (mask : Z) (w : World) :
  (forall d, 0 <= d < 8 -> Z.testbit mask d = false) ->
  forall byte w', Acsi.waitCommand mask w <> Done byte w'.
Proof.
  intros Hm byte w' H. unfold Acsi.waitCommand in H.
  apply bind_done in H as (u & w1 & _ & H).
  apply bind_done in H as (port & w2 & H & _).
  apply waitCommand_loop_first in H as (t & _ & Hv & [_ Hsel] & _).
  unfold selected in Hsel. rewrite Hv, Hm in Hsel by apply device_id_range.
  discriminate.
Qed.

Lemma waitCommand_no_device_witness :
  (forall d, 0 <= d < 8 -> Z.testbit 0 d = false)
  /\ forall byte w', Acsi.waitCommand 0 irq_world <> Done byte w'.
Proof.
  assert (H : forall d, 0 <= d < 8 -> Z.testbit 0 d = false)
    by (intros d _; apply Z.bits_0).
  split; [exact H | exact (waitCommand_no_device 0 irq_world H)].
Defined.

(** ** The disconnect guard *)

Lemma guard_never_ends w c w' :
  (forall t : nat, (now w <= t)%nat -> cs_high (snapshot w t) = false) ->
  busy_wait Acsi.readCs negb w <> Done c w'.
Proof.
  intros Hlow H. unfold busy_wait in H.
  apply (poll_first Acsi.readCs cs_high readCs_snapshot) in H
    as (t & Ht & _ & Hv & Ha & _).
  rewrite Hv, Hlow in Ha by exact Ht. discriminate.
Qed.

(** A computation whose continuation cannot return cannot return. *)
Lemma stuck_step {A B} (m : M A) (k : A -> M B) w0 w :
  respects same_host m ->
  same_host w0 w ->
  (forall a w1, same_host w0 w1 -> forall b w', k a w1 <> Done b w') ->
  forall b w', bind m k w <> Done b w'.
Proof.
  intros Hm Hw Hk b w' H. apply bind_done in H as (a & w1 & H1 & H2).
  apply (Hk a w1) with (b := b) (w' := w'); [| exact H2].
  transitivity w; [exact Hw | eapply Hm, H1].
Qed.

Lemma stuck_guard {B} (k : bool -> M B) w0 w :
  (forall t : nat, (now w0 <= t)%nat -> cs_high (snapshot w0 t) = false) ->
  same_host w0 w ->
  forall b w', bind (busy_wait Acsi.readCs negb) k w <> Done b w'.
Proof.
  intros Hlow (Hh & _ & Hn) b w' H. apply bind_done in H as (c & w1 & H1 & _).
  revert H1. apply guard_never_ends. intros t Ht. unfold snapshot. rewrite Hh.
  apply Hlow. lia.
Qed.

Ltac stuck_steps :=
  repeat (eapply stuck_step;
          [ first [ prim_host | unfold_acsi; repeat respects_step; prim_host ]
          | eassumption
          | intros ? ? ? ]).

Lemma guard_waitCommand_from w0 w mask byte w' :
  (forall t : nat, (now w0 <= t)%nat -> cs_high (snapshot w0 t) = false) ->
  same_host w0 w ->
  Acsi.waitCommand mask w <> Done byte w'.
Proof.
  intros Hlow H0. unfold Acsi.waitCommand.
  eapply stuck_step; [prim_host | eassumption | intros ? ? ?].
  eapply stuck_step;
    [apply respects_waitCommand_patient; [typeclasses eauto | prim_host | prim_host]
    | eassumption | intros ? ? ?].
  apply (stuck_guard _ w0); assumption.
Qed.

Lemma guard_waitCommand w mask byte w' :
  (forall t : nat, (now w <= t)%nat -> cs_high (snapshot w t) = false) ->
  Acsi.waitCommand mask w <> Done byte w'.
Proof.
  intros Hlow. apply (guard_waitCommand_from w w); [exact Hlow | reflexivity].
Qed.

Lemma guard_readIrq_buf_from w0 w bytes count w' :
  (forall t : nat, (now w0 <= t)%nat -> cs_high (snapshot w0 t) = false) ->
  same_host w0 w ->
  Acsi.readIrq_buf bytes count w <> Done tt w'.
Proof.
  intros Hlow H0. unfold Acsi.readIrq_buf.
  eapply stuck_step; [prim_host | eassumption | intros ? ? ?].
  eapply stuck_step;
    [unfold Acsi.readIrq; unfold_acsi; repeat respects_step; prim_host
    | eassumption | intros ? ? ?].
  apply (stuck_guard _ w0); assumption.
Qed.

Lemma guard_readIrq_buf w bytes count w' :
  (forall t : nat, (now w <= t)%nat -> cs_high (snapshot w t) = false) ->
  Acsi.readIrq_buf bytes count w <> Done tt w'.
Proof.
  intros Hlow. apply (guard_readIrq_buf_from w w); [exact Hlow | reflexivity].
Qed.

Lemma guard_sendIrq_from w0 w byte w' :
  (forall t : nat, (now w0 <= t)%nat -> cs_high (snapshot w0 t) = false) ->
  same_host w0 w ->
  Acsi.sendIrq byte w <> Done tt w'.
Proof.
  intros Hlow H0. unfold Acsi.sendIrq.
  do 4 (eapply stuck_step; [unfold_acsi; prim_host | eassumption | intros ? ? ?]).
  eapply stuck_step;
    [unfold_acsi; repeat respects_step; prim_host | eassumption | intros ? ? ?].
  apply (stuck_guard _ w0); assumption.
Qed.

Lemma guard_sendIrq w byte w' :
  (forall t : nat, (now w <= t)%nat -> cs_high (snapshot w t) = false) ->
  Acsi.sendIrq byte w <> Done tt w'.
Proof.
  intros Hlow. apply (guard_sendIrq_from w w); [exact Hlow | reflexivity].
Qed.

(** X5: if the host never lets CS go high again, [waitCommand], the
    multi-byte [readIrq] and [sendIrq] never return: each ends in a wait for
    CS high that has no other way out. *)
Theorem disconnect_guard (w : World) :
  (forall t : nat, (now w <= t)%nat -> cs_high (snapshot w t) = false) ->
  (forall mask byte w', Acsi.waitCommand mask w <> Done byte w')
  /\ (forall bytes count w', Acsi.readIrq_buf bytes count w <> Done tt w')
  /\ (forall byte w', Acsi.sendIrq byte w <> Done tt w').
Proof.
  intros Hlow. split; [| split]; intros.
  - apply guard_waitCommand, Hlow.
  - apply guard_readIrq_buf, Hlow.
  - apply guard_sendIrq, Hlow.
Qed.

Lemma disconnect_guard_witness :
  (forall t : nat, (now (power_on (still_host 0x1900 0x4100)) <= t)%nat ->
     cs_high (snapshot (power_on (still_host 0x1900 0x4100)) t) = false)
  /\ Acsi.waitCommand 4 (power_on (still_host 0x1900 0x4100)) = Hang
  /\ (forall mask byte w',
        Acsi.waitCommand mask (power_on (still_host 0x1900 0x4100)) <> Done byte w').
Proof.
  assert (H : forall t : nat,
             (now (power_on (still_host 0x1900 0x4100)) <= t)%nat ->
             cs_high (snapshot (power_on (still_host 0x1900 0x4100)) t) = false)
    by (intros t _; reflexivity).
  split; [exact H |]. split; [vm_compute; reflexivity |].
  exact (proj1 (disconnect_guard _ H)).
Defined.

(** ** Returns of the interrupt byte protocol and of command capture *)

Lemma runs_busy_wait {A B} (read : M A) (f : Z -> A) again (k : nat)
  (kont : A -> M B) w (Q : B -> World -> Prop) :
  (forall w, exists w1, read w = Done (f (snapshot w (now w))) w1
                        /\ now w1 = S (now w) /\ host w1 = host w
                        /\ patience w1 = patience w) ->
  (k < patience w)%nat ->
  (forall j : nat, (j < k)%nat -> again (f (snapshot w (now w + j))) = true) ->
  again (f (snapshot w (now w + k))) = false ->
  (forall w1, host w1 = host w -> patience w1 = patience w ->
     now w1 = S (now w + k) -> runs (kont (f (snapshot w (now w + k)))) w1 Q) ->
  runs (bind (busy_wait read again) kont) w Q.
Proof.
  intros Hread Hk Hb Hs Hkont. apply runs_bind. unfold busy_wait.
  destruct (poll_runs read f Hread again k (patience w) w Hk Hb Hs)
    as (v & w1 & E & -> & Hn & Hh & Hp).
  exists (f (snapshot w (now w + k))), w1. split; [exact E |].
  apply Hkont; assumption.
Qed.

Lemma readIrq_runs (k : nat) w :
  (k < patience w)%nat ->
  (forall j : nat, (j < k)%nat -> cs_high (snapshot w (now w + j)) = true) ->
  cs_high (snapshot w (now w + k)) = false ->
  runs Acsi.readIrq w (fun b w' =>
    b = data_byte (snapshot w (now w + k)) /\ now w' = S (now w + k)).
Proof.
  intros Hk Hb Hs. unfold Acsi.readIrq.
  apply runs_steady; [steady_tac | intros _ w1 Hh1 Hp1 Hn1].
  apply runs_steady; [steady_tac | intros _ w2 Hh2 Hp2 Hn2].
  assert (Hh : host w2 = host w) by congruence.
  assert (Hn : now w2 = now w) by congruence.
  apply (runs_busy_wait Hw.read_GPIOB_IDR (fun p => p) _ k).
  - exact read_GPIOB_snapshot.
  - rewrite Hp2, Hp1. exact Hk.
  - intros j Hj. rewrite (snapshot_same _ _ _ Hh), Hn. apply (Hb j Hj).
  - rewrite (snapshot_same _ _ _ Hh), Hn. exact Hs.
  - intros w3 Hh3 Hp3 Hn3.
    apply runs_steady; [steady_tac | intros _ w4 Hh4 Hp4 Hn4].
    apply runs_steady; [steady_tac | intros _ w5 Hh5 Hp5 Hn5].
    apply runs_ret. rewrite (snapshot_same _ _ _ Hh), Hn. split; [reflexivity |].
    congruence.
Qed.

Lemma readIrq_same_memory : respects same_memory Acsi.readIrq.
Proof. unfold Acsi.readIrq. unfold_acsi. repeat respects_step; prim_memory. Qed.

(** X7: if the host lowers CS at the [k]-th poll after the call, having
    held it high until then, and [k] is within the watchdog's patience, the
    single-byte [readIrq] returns the data byte port B shows at that very
    poll, having polled [k + 1] times; memory is untouched, the interrupt
    and request lines are released and systick is on. *)
Theorem readIrq_first_low (k : nat) (w : World) :
  (k < patience w)%nat ->
  (forall j : nat, (j < k)%nat -> cs_high (snapshot w (now w + j)) = true) ->
  cs_high (snapshot w (now w + k)) = false ->
  exists w',
    Acsi.readIrq w = Done (data_byte (snapshot w (now w + k))) w'
    /\ now w' = S (now w + k)
    /\ mem w' = mem w
    /\ GPIOA_CRH w' = 0x44444BB4 /\ GPIOB_CRH w' = GPIOB_CRH w
    /\ systick w' = true.
Proof.
  intros Hk Hb Hs.
  destruct (readIrq_runs k w Hk Hb Hs) as (b & w' & E & -> & Hn).
  exists w'. split; [exact E |]. split; [exact Hn |].
  split; [exact (readIrq_same_memory _ _ _ E) |].
  destruct (readIrq_releasing_rq _ _ _ E) as [Ha Hb'].
  split; [exact Ha |]. split; [exact Hb' |].
  apply (readIrq_suspended _ _ _ E).
Qed.

Lemma readIrq_first_low_witness :
  (0 < patience irq_world)%nat
  /\ (forall j : nat, (j < 0)%nat ->
        cs_high (snapshot irq_world (now irq_world + j)) = true)
  /\ cs_high (snapshot irq_world (now irq_world + 0)) = false
  /\ exists w',
       Acsi.readIrq irq_world
       = Done (data_byte (snapshot irq_world (now irq_world + 0))) w'
       /\ now w' = S (now irq_world + 0)
       /\ mem w' = mem irq_world
       /\ GPIOA_CRH w' = 0x44444BB4 /\ GPIOB_CRH w' = GPIOB_CRH irq_world
       /\ systick w' = true.
Proof.
  assert (H1 : (0 < patience irq_world)%nat) by (vm_compute; lia).
  assert (H2 : forall j : nat, (j < 0)%nat ->
                 cs_high (snapshot irq_world (now irq_world + j)) = true)
    by (intros j Hj; lia).
  assert (H3 : cs_high (snapshot irq_world (now irq_world + 0)) = false)
    by reflexivity.
  split; [exact H1 |]. split; [exact H2 |]. split; [exact H3 |].
  exact (readIrq_first_low 0 irq_world H1 H2 H3).
Defined.

Lemma sendIrq_runs (byte : Z) (k1 k2 : nat) w :
  (k1 < patience w)%nat -> (k2 < patience w)%nat ->
  (forall j : nat, (j < k1)%nat -> cs_high (snapshot w (now w + j)) = true) ->
  cs_high (snapshot w (now w + k1)) = false ->
  (forall j : nat, (j < k2)%nat ->
     cs_high (snapshot w (now w + k1 + 1 + j)) = false) ->
  cs_high (snapshot w (now w + k1 + 1 + k2)) = true ->
  runs (Acsi.sendIrq byte) w (fun _ w' => now w' = (now w + k1 + k2 + 2)%nat).
Proof.
  intros Hk1 Hk2 Hb1 Hs1 Hb2 Hs2. unfold Acsi.sendIrq.
  apply runs_steady; [steady_tac | intros _ w1 Hh1 Hp1 Hn1].
  apply runs_steady; [steady_tac | intros _ w2 Hh2 Hp2 Hn2].
  apply runs_steady; [steady_tac | intros _ w3 Hh3 Hp3 Hn3].
  apply runs_steady; [steady_tac | intros _ w4 Hh4 Hp4 Hn4].
  assert (Hh : host w4 = host w) by congruence.
  assert (Hn : now w4 = now w) by congruence.
  assert (Hp : patience w4 = patience w) by congruence.
  apply (runs_busy_wait Acsi.readCs cs_high _ k1).
  - exact readCs_snapshot.
  - rewrite Hp. exact Hk1.
  - intros j Hj. rewrite (snapshot_same _ _ _ Hh), Hn. apply (Hb1 j Hj).
  - rewrite (snapshot_same _ _ _ Hh), Hn. exact Hs1.
  - intros w5 Hh5 Hp5 Hn5.
    assert (Hh' : host w5 = host w) by congruence.
    apply (runs_busy_wait Acsi.readCs cs_high _ k2).
    + exact readCs_snapshot.
    + rewrite Hp5, Hp. exact Hk2.
    + intros j Hj. rewrite (snapshot_same _ _ _ Hh'), Hn5, Hn.
      replace (S (now w + k1) + j)%nat with (now w + k1 + 1 + j)%nat by lia.
      rewrite (Hb2 j Hj). reflexivity.
    + rewrite (snapshot_same _ _ _ Hh'), Hn5, Hn.
      replace (S (now w + k1) + k2)%nat with (now w + k1 + 1 + k2)%nat by lia.
      rewrite Hs2. reflexivity.
    + intros w6 Hh6 Hp6 Hn6.
      apply runs_steady; [steady_tac | intros _ w7 Hh7 Hp7 Hn7].
      destruct (ltac:(steady_tac) : steady Hw.systick_enable) with w7
        as (u & w8 & E & _ & _ & Hn8).
      exists u, w8. split; [exact E |]. lia.
Qed.

(** ** What the sending operations put on the data pins *)

Lemma respects_seq3 (R1 R2 R3 : World -> World -> Prop) {A B}
  (m : M A) (k : A -> M B) :
  (forall a b c, R1 a b -> R2 b c -> R3 a c) ->
  respects R1 m -> (forall x, respects R2 (k x)) -> respects R3 (bind m k).
Proof.
  intros Hc Hm Hk w b w'' H.
  apply bind_done in H as (a & w' & H1 & H2).
  eapply Hc; [eapply Hm | eapply Hk]; eauto.
Qed.

Lemma words_app a b w1 w2 w3 :
  words a w1 w2 -> words b w2 w3 -> words (a ++ b) w1 w3.
Proof.
  intros [M1 (e1 & T1 & W1)] [M2 (e2 & T2 & W2)]. split; [congruence |].
  exists (e1 ++ e2). split; [rewrite T2, T1, app_assoc; reflexivity |].
  unfold bus_words in *. rewrite omap_app, W1, W2. reflexivity.
Qed.

Lemma bus_words_none evs :
  forallb (fun e => negb (is_bus_word e)) evs = true -> bus_words evs = [].
Proof.
  unfold bus_words. induction evs as [|e evs IH]; [reflexivity |].
  cbn [forallb]. intros H. apply andb_true_iff in H as [H1 H2].
  change (e :: evs) with ([e] ++ evs). rewrite omap_app, (IH H2), app_nil_r.
  destruct e as [b | r v | r v | a v | a v]; try reflexivity.
  destruct r; try reflexivity. discriminate.
Qed.

Lemma silent_words w w' : silent w w' -> words [] w w'.
Proof.
  intros [Hm (evs & Ht & Hf)]. split; [exact Hm |].
  exists evs. split; [exact Ht | apply bus_words_none, Hf].
Qed.

Ltac prim_silent :=
  let H := fresh "H" in
  intros ? ? ? H; run_prim H; unfold silent, adds_only; simpl;
  split; [solve [reflexivity | assumption] |];
  eexists; split;
  [ first [reflexivity
          | match goal with F : trace _ = trace _ |- _ => rewrite F; reflexivity end]
  | reflexivity ].

Ltac silent_tac := unfold_acsi; repeat respects_step; prim_silent.

Lemma writeData_words b : respects (words [on_data_pins b]) (Acsi.writeData b).
Proof.
  intros w a w' H. unfold Acsi.writeData in H. run_prim H.
  split; [reflexivity |]. eexists. split; reflexivity.
Qed.

Lemma words_silent_r ws a b c : words ws a b -> silent b c -> words ws a c.
Proof.
  intros H1 H2. apply silent_words in H2.
  rewrite <- (app_nil_r ws). eapply words_app; eauto.
Qed.

Lemma words_silent_l ws a b c : silent a b -> words ws b c -> words ws a c.
Proof.
  intros H1 H2. apply silent_words in H1.
  change ws with ([] ++ ws). eapply words_app; eauto.
Qed.

Lemma sendIrq_words byte : respects (words [on_data_pins byte]) (Acsi.sendIrq byte).
Proof.
  unfold Acsi.sendIrq.
  apply (respects_seq3 silent (words [on_data_pins byte]) _ _ _ (words_silent_l _));
    [prim_silent | intros _].
  apply (respects_seq3 silent (words [on_data_pins byte]) _ _ _ (words_silent_l _));
    [silent_tac | intros _].
  apply (respects_seq3 (words [on_data_pins byte]) silent _ _ _ (words_silent_r _));
    [apply writeData_words | intros _].
  silent_tac.
Qed.

Lemma write_slot_words addr b w w' :
  mem w !! addr = Some b ->
  write_byte_slot addr w = Done tt w' ->
  words [on_data_pins b] w w'.
Proof.
  intros Hm H. unfold write_byte_slot in H.
  apply bind_done in H as (v & w1 & H1 & H2).
  unfold Hw.load in H1. rewrite Hm in H1. inversion H1; subst v w1; clear H1.
  apply (words_silent_l _ w (record (EvLoad addr b) w)).
  - split; [reflexivity |]. exists [EvLoad addr b]. split; reflexivity.
  - revert H2.
    apply (respects_seq3 (words [on_data_pins b]) silent _ _ _ (words_silent_r _));
      [apply writeData_words | intros _].
    silent_tac.
Qed.

Lemma sendIrq_at_words addr b w w' :
  mem w !! addr = Some b ->
  sendIrq_at addr w = Done tt w' ->
  words [on_data_pins b] w w'.
Proof.
  intros Hm H. unfold sendIrq_at in H.
  apply bind_done in H as (v & w1 & H1 & H2).
  unfold Hw.load in H1. rewrite Hm in H1. inversion H1; subst v w1; clear H1.
  apply (words_silent_l _ w (record (EvLoad addr b) w)).
  - split; [reflexivity |]. exists [EvLoad addr b]. split; reflexivity.
  - eapply sendIrq_words, H2.
Qed.

Lemma per_byte_words (slot : Z -> M unit) :
  (forall addr b w w', mem w !! addr = Some b -> slot addr w = Done tt w' ->
     words [on_data_pins b] w w') ->
  forall bs addr w w',
    holds (mem w) addr bs ->
    per_byte slot (length bs) addr w = Done tt w' ->
    words (map on_data_pins bs) w w'.
Proof.
  intros Hslot. induction bs as [|b bs IH]; intros addr w w' Hh H;
    cbn [length per_byte map] in *.
  - inversion H; subst. split; [reflexivity |].
    exists []. split; [symmetry; apply app_nil_r | reflexivity].
  - apply holds_tail in Hh as [Hb Hh].
    apply bind_done in H as ([] & w1 & H1 & H2).
    pose proof (Hslot _ _ _ _ Hb H1) as Hw1.
    change (on_data_pins b :: map on_data_pins bs)
      with ([on_data_pins b] ++ map on_data_pins bs).
    eapply words_app; [exact Hw1 |].
    apply (IH (addr + 1)); [| exact H2].
    destruct Hw1 as [Hm _]. rewrite Hm. exact Hh.
Qed.

Lemma words_done ws w w' :
  words ws w w' -> mem w' = mem w /\ bus_words (new_events w w') = ws.
Proof.
  intros [Hm (evs & Ht & Hw)]. split; [exact Hm |].
  rewrite (new_events_app _ _ _ Ht). exact Hw.
Qed.

Lemma silent_systick_disable : respects silent Hw.systick_disable.
Proof. prim_silent. Qed.

Lemma silent_acquireDataBus : respects silent Acsi.acquireDataBus.
Proof. silent_tac. Qed.

Lemma silent_acquireDrq : respects silent Acsi.acquireDrq.
Proof. silent_tac. Qed.

Lemma silent_release_enable : respects silent (Acsi.releaseBus;; Hw.systick_enable).
Proof. silent_tac. Qed.

(** X9: whenever [sendDma] returns, for a buffer holding the bytes [bs]
    and a count equal to their number, the words it wrote to the output
    register of port B are exactly those bytes, in order, each shifted onto
    the data pins (bits 8 to 15); memory is as it was.  This holds for every
    host, also one that pulses ACK several times in a slot. *)
Theorem sendDma_drives_buffer (bs : list Z) (src : Z) (w w' : World) :
  holds (mem w) src bs ->
  Acsi.sendDma src (Z.of_nat (length bs)) w = Done tt w' ->
  mem w' = mem w
  /\ bus_words (new_events w w') = map on_data_pins bs.
Proof.
  intros Hh H. apply words_done.
  destruct (decide (INT_MIN <= Z.of_nat (length bs) - 16 <= INT_MAX)) as [Hc|Hc];
    [| rewrite sendDma_undefined in H by exact Hc; discriminate].
  rewrite (sendDma_per_byte src _ Hc) in H. unfold writeBlock_per_byte in H.
  rewrite Nat2Z.id in H.
  apply bind_done in H as ([] & w1 & H1 & H). apply silent_systick_disable in H1.
  apply bind_done in H as ([] & w2 & H2 & H). apply silent_acquireDataBus in H2.
  apply bind_done in H as ([] & w3 & H3 & H). apply silent_acquireDrq in H3.
  apply bind_done in H as ([] & w4 & H4 & H). apply silent_release_enable in H.
  assert (Hs : silent w w3) by (etransitivity; [exact H1 | etransitivity; eauto]).
  apply (words_silent_l _ _ _ _ Hs).
  apply (words_silent_r _ _ w4); [| exact H].
  apply (per_byte_words write_byte_slot write_slot_words bs src); [| exact H4].
  destruct Hs as [-> _]. exact Hh.
Qed.

Lemma sendDma_drives_buffer_witness :
  exists w',
    holds (mem double_ack_world) 100 [0x12; 0x34; 0x56]
    /\ Acsi.sendDma 100 (Z.of_nat (length [0x12; 0x34; 0x56])) double_ack_world
       = Done tt w'
    /\ mem w' = mem double_ack_world
    /\ bus_words (new_events double_ack_world w') = map on_data_pins [0x12; 0x34; 0x56].
Proof.
  eexists.
  assert (Hh : holds (mem double_ack_world) 100 [0x12; 0x34; 0x56])
    by apply buffer_at_holds.
  split; [exact Hh |]. split; [vm_compute; reflexivity |].
  apply (sendDma_drives_buffer [0x12; 0x34; 0x56] 100 double_ack_world);
    [exact Hh | vm_compute; reflexivity].
Defined.

(** X6: [sendIrq] returns once the host has completed one strobe cycle
    within the watchdog's patience: CS high for [k1] polls, then low, then
    low for [k2] more polls, then high.  It has then polled port B
    [k1 + k2 + 2] times, put the byte, and nothing else, on the data pins,
    left memory alone, released every line and switched systick back on. *)
Theorem sendIrq_strobe_cycle (byte : Z) (k1 k2 : nat) (w : World) :
  (k1 < patience w)%nat -> (k2 < patience w)%nat ->
  (forall j : nat, (j < k1)%nat -> cs_high (snapshot w (now w + j)) = true) ->
  cs_high (snapshot w (now w + k1)) = false ->
  (forall j : nat, (j < k2)%nat ->
     cs_high (snapshot w (now w + k1 + 1 + j)) = false) ->
  cs_high (snapshot w (now w + k1 + 1 + k2)) = true ->
  exists w',
    Acsi.sendIrq byte w = Done tt w'
    /\ now w' = (now w + k1 + k2 + 2)%nat
    /\ bus_words (new_events w w') = [on_data_pins byte]
    /\ mem w' = mem w
    /\ directions w' = released_directions
    /\ systick w' = true.
Proof.
  intros Hk1 Hk2 Hb1 Hs1 Hb2 Hs2.
  destruct (sendIrq_runs byte k1 k2 w Hk1 Hk2 Hb1 Hs1 Hb2 Hs2) as ([] & w' & E & Hn).
  exists w'. split; [exact E |]. split; [exact Hn |].
  destruct (words_done _ _ _ (sendIrq_words byte _ _ _ E)) as [Hm Hw].
  split; [exact Hw |]. split; [exact Hm |].
  split; [exact (sendIrq_releasing byte _ _ _ E) |].
  apply (sendIrq_suspended _ _ _ E).
Qed.

Lemma sendIrq_strobe_cycle_witness :
  (0 < patience irq_world)%nat
  /\ (forall j : nat, (j < 0)%nat ->
        cs_high (snapshot irq_world (now irq_world + j)) = true)
  /\ cs_high (snapshot irq_world (now irq_world + 0)) = false
  /\ (forall j : nat, (j < 0)%nat ->
        cs_high (snapshot irq_world (now irq_world + 0 + 1 + j)) = false)
  /\ cs_high (snapshot irq_world (now irq_world + 0 + 1 + 0)) = true
  /\ exists w',
       Acsi.sendIrq 0x5A irq_world = Done tt w'
       /\ now w' = (now irq_world + 0 + 0 + 2)%nat
       /\ bus_words (new_events irq_world w') = [on_data_pins 0x5A]
       /\ mem w' = mem irq_world
       /\ directions w' = released_directions
       /\ systick w' = true.
Proof.
  assert (H1 : (0 < patience irq_world)%nat) by (vm_compute; lia).
  assert (H2 : forall j : nat, (j < 0)%nat ->
                 cs_high (snapshot irq_world (now irq_world + j)) = true)
    by (intros j Hj; lia).
  assert (H3 : cs_high (snapshot irq_world (now irq_world + 0)) = false)
    by reflexivity.
  assert (H4 : forall j : nat, (j < 0)%nat ->
                 cs_high (snapshot irq_world (now irq_world + 0 + 1 + j)) = false)
    by (intros j Hj; lia).
  assert (H5 : cs_high (snapshot irq_world (now irq_world + 0 + 1 + 0)) = true)
    by reflexivity.
  repeat (split; [assumption |]).
  exact (sendIrq_strobe_cycle 0x5A 0 0 irq_world H1 H1 H2 H3 H4 H5).
Defined.

(** ** The multi-byte forms as iterations *)

Lemma countdown_per_byte (step : Z -> M unit) (body : Z * Z -> M (Z * Z)) {B}
  (k : M B) :
  (forall b c, body (b, c) =m= (step b;; ret (b + 1, c - 1))) ->
  forall n fuel bytes count,
    n = Z.to_nat count -> (n <= fuel)%nat ->
    (while_ fuel (fun '(_, c) => ret (0 <? c)) body (bytes, count);; k)
    =m= (per_byte step n bytes;; k).
Proof.
  intros Hbody. induction n as [|n IH]; intros fuel bytes count Hn Hf.
  - rewrite while_unfold, bind_ret_l.
    destruct (0 <? count) eqn:E; [apply Z.ltb_lt in E; lia |].
    cbn [per_byte]. rewrite !bind_ret_l. reflexivity.
  - destruct fuel as [|fuel]; [lia |].
    rewrite while_unfold, bind_ret_l.
    destruct (0 <? count) eqn:E; [| apply Z.ltb_ge in E; lia].
    rewrite Hbody. cbn [per_byte]. rewrite !bind_assoc.
    setoid_rewrite bind_ret_l.
    setoid_rewrite (IH fuel (bytes + 1) (count - 1) ltac:(lia) ltac:(lia)).
    reflexivity.
Qed.

Lemma sendIrq_buf_per_byte bytes count :
  Acsi.sendIrq_buf bytes count =m= per_byte sendIrq_at (Z.to_nat count) bytes.
Proof.
  unfold Acsi.sendIrq_buf.
  assert (Hbody : forall b c,
            (fun '(bytes, count) =>
               x <- Hw.load bytes;; Acsi.sendIrq x;; ret (bytes + 1, count - 1)) (b, c)
            =m= (sendIrq_at b;; ret (b + 1, c - 1))).
  { intros b c. unfold sendIrq_at. rewrite bind_assoc. reflexivity. }
  rewrite (countdown_per_byte sendIrq_at _ (ret tt) Hbody
             (Z.to_nat count) (Z.to_nat count) bytes count eq_refl (le_n _)).
  intros w. unfold bind, ret. destruct (per_byte _ _ _ w) as [[] ? | |]; reflexivity.
Qed.

Lemma readIrq_buf_per_byte bytes count :
  Acsi.readIrq_buf bytes count
  =m= (Hw.systick_disable;;
       per_byte readIrq_at (Z.to_nat count) bytes;;
       busy_wait Acsi.readCs negb;;
       Hw.systick_enable).
Proof.
  unfold Acsi.readIrq_buf.
  apply bind_proper; [reflexivity | intros _].
  assert (Hbody : forall b c,
            (fun '(bytes, count) =>
               x <- Acsi.readIrq;; Hw.store bytes x;; ret (bytes + 1, count - 1)) (b, c)
            =m= (readIrq_at b;; ret (b + 1, c - 1))).
  { intros b c. unfold readIrq_at. rewrite bind_assoc. reflexivity. }
  apply (countdown_per_byte readIrq_at _ _ Hbody
           (Z.to_nat count) (Z.to_nat count) bytes count eq_refl (le_n _)).
Qed.

(** X8: the multi-byte [sendIrq] is, on every world, [count] single-byte
    [sendIrq] calls in a row on the bytes at [bytes], [bytes + 1], ...:
    same outcome, same final world, same log.  For a count of zero or less
    it returns at once and has done nothing at all, not even touched
    systick.  The multi-byte [readIrq] is in the same way [count] calls of
    the single-byte [readIrq], each result stored at the next address,
    inside its own systick bracket and followed by the wait for CS high. *)
Theorem irq_buf_iterates (bytes count : Z) (w : World) :
  Acsi.sendIrq_buf bytes count w = per_byte sendIrq_at (Z.to_nat count) bytes w
  /\ (count <= 0 -> Acsi.sendIrq_buf bytes count w = Done tt w)
  /\ Acsi.readIrq_buf bytes count w
     = (Hw.systick_disable;;
        per_byte readIrq_at (Z.to_nat count) bytes;;
        busy_wait Acsi.readCs negb;;
        Hw.systick_enable) w.
Proof.
  split; [apply sendIrq_buf_per_byte |]. split; [| apply readIrq_buf_per_byte].
  intros Hc. rewrite sendIrq_buf_per_byte.
  replace (Z.to_nat count) with 0%nat by lia. reflexivity.
Qed.

(** X10: whenever the multi-byte [sendIrq] returns, for a buffer holding
    the bytes [bs] and a count equal to their number, the words it wrote to
    the output register of port B are exactly those bytes, in order, each
    shifted onto the data pins; memory is as it was. *)
Theorem sendIrq_buf_drives_buffer (bs : list Z) (src : Z) (w w' : World) :
  holds (mem w) src bs ->
  Acsi.sendIrq_buf src (Z.of_nat (length bs)) w = Done tt w' ->
  mem w' = mem w
  /\ bus_words (new_events w w') = map on_data_pins bs.
Proof.
  intros Hh H. apply words_done.
  rewrite sendIrq_buf_per_byte, Nat2Z.id in H.
  exact (per_byte_words sendIrq_at sendIrq_at_words bs src w w' Hh H).
Qed.

Lemma sendIrq_buf_drives_buffer_witness :
  exists w',
    holds (mem irq_world) 100 [0x12; 0x34]
    /\ Acsi.sendIrq_buf 100 (Z.of_nat (length [0x12; 0x34])) irq_world = Done tt w'
    /\ mem w' = mem irq_world
    /\ bus_words (new_events irq_world w') = map on_data_pins [0x12; 0x34].
Proof.
  eexists.
  assert (Hh : holds (mem irq_world) 100 [0x12; 0x34]) by apply buffer_at_holds.
  split; [exact Hh |]. split; [vm_compute; reflexivity |].
  apply (sendIrq_buf_drives_buffer [0x12; 0x34] 100 irq_world);
    [exact Hh | vm_compute; reflexivity].
Defined.

(** ** Memory outside the buffer *)

Lemma stores_within_wider lo hi lo' hi' w w' :
  (forall a, lo <= a < hi -> lo' <= a < hi') ->
  stores_within lo hi w w' -> stores_within lo' hi' w w'.
Proof. intros Hsub H a Ha. apply H. intros Hin. apply Ha, Hsub, Hin. Qed.

Lemma same_memory_within lo hi w w' : same_memory w w' -> stores_within lo hi w w'.
Proof. intros H a _. rewrite H. reflexivity. Qed.

Lemma store_within addr v : respects (stores_within addr (addr + 1)) (Hw.store addr v).
Proof.
  intros w a w' H. run_prim H. intros x Hx. simpl.
  apply lookup_insert_ne. lia.
Qed.

Lemma read_slot_within addr :
  respects (stores_within addr (addr + 1)) (read_byte_slot addr).
Proof.
  unfold read_byte_slot.
  do 3 (respects_step; [repeat respects_step;
                        apply (respects_weaken _ _ _ (same_memory_within _ _));
                        prim_memory |]).
  apply store_within.
Qed.

Lemma readIrq_at_within addr :
  respects (stores_within addr (addr + 1)) (readIrq_at addr).
Proof.
  unfold readIrq_at. respects_step; [| apply store_within].
  apply (respects_weaken _ _ _ (same_memory_within _ _)), readIrq_same_memory.
Qed.

Lemma per_byte_within (slot : Z -> M unit) :
  (forall a, respects (stores_within a (a + 1)) (slot a)) ->
  forall n addr,
    respects (stores_within addr (addr + Z.of_nat n)) (per_byte slot n addr).
Proof.
  intros Hslot. induction n as [|n IH]; intros addr; cbn [per_byte].
  - respects_step.
  - respects_step.
    + eapply respects_weaken; [| apply Hslot].
      intros w w'. apply stores_within_wider. intros x Hx. lia.
    + eapply respects_weaken; [| apply (IH (addr + 1))].
      intros w w'. apply stores_within_wider. intros x Hx. lia.
Qed.

Lemma readDma_within bytes count :
  respects (stores_within bytes (bytes + count)) (Acsi.readDma bytes count).
Proof.
  intros w a w' H.
  destruct (decide (INT_MIN <= count - 16 <= INT_MAX)) as [Hc|Hc];
    [| rewrite readDma_undefined in H by exact Hc; discriminate].
  rewrite (readDma_per_byte bytes count Hc) in H.
  assert (Hr : respects (stores_within bytes (bytes + count))
                 (readBlock_per_byte bytes count)).
  { unfold readBlock_per_byte.
    do 2 (respects_step;
          [unfold_acsi; repeat respects_step;
           apply (respects_weaken _ _ _ (same_memory_within _ _)); prim_memory |]).
    respects_step.
    - eapply respects_weaken; [| apply per_byte_within, read_slot_within].
      intros w1 w2. apply stores_within_wider. intros x Hx. lia.
    - unfold_acsi. repeat respects_step;
        apply (respects_weaken _ _ _ (same_memory_within _ _)); prim_memory. }
  exact (Hr _ _ _ H).
Qed.

Lemma readIrq_buf_within bytes count :
  respects (stores_within bytes (bytes + count)) (Acsi.readIrq_buf bytes count).
Proof.
  intros w a w' H. rewrite readIrq_buf_per_byte in H.
  assert (Hr : respects (stores_within bytes (bytes + count))
                 (Hw.systick_disable;;
                  per_byte readIrq_at (Z.to_nat count) bytes;;
                  busy_wait Acsi.readCs negb;; Hw.systick_enable)).
  { respects_step;
      [apply (respects_weaken _ _ _ (same_memory_within _ _)); prim_memory |].
    respects_step.
    - eapply respects_weaken; [| apply per_byte_within, readIrq_at_within].
      intros w1 w2. apply stores_within_wider. intros x Hx. lia.
    - unfold_acsi. repeat respects_step;
        apply (respects_weaken _ _ _ (same_memory_within _ _)); prim_memory. }
  exact (Hr _ _ _ H).
Qed.

Lemma sendIrq_same_memory byte : respects same_memory (Acsi.sendIrq byte).
Proof. unfold Acsi.sendIrq. unfold_acsi. repeat respects_step; prim_memory. Qed.

Lemma sendIrq_buf_same_memory bytes count :
  respects same_memory (Acsi.sendIrq_buf bytes count).
Proof.
  unfold Acsi.sendIrq_buf. respects_step; [| respects_step].
  respects_step; [respects_step |].
  respects_step; [prim_memory |].
  respects_step; [apply sendIrq_same_memory | respects_step].
Qed.

Lemma sendDma_same_memory bytes count :
  respects same_memory (Acsi.sendDma bytes count).
Proof.
  intros w a w' H.
  destruct (decide (INT_MIN <= count - 16 <= INT_MAX)) as [Hc|Hc];
    [| rewrite sendDma_undefined in H by exact Hc; discriminate].
  rewrite (sendDma_per_byte bytes count Hc) in H.
  assert (Hr : respects same_memory (writeBlock_per_byte bytes count))
    by (unfold writeBlock_per_byte; unfold_acsi; repeat respects_step; prim_memory).
  exact (Hr _ _ _ H).
Qed.

(** X11: no transfer operation changes memory outside the buffer it is
    given.  [readDma] and the multi-byte [readIrq] leave every address
    outside [bytes, bytes + count) as it was (for a count of zero or less:
    every address); the single-byte forms and all sending operations leave
    all of memory as it was. *)
Theorem memory_outside_buffer (op : transfer) (w w' : World) :
  run op w = Done tt w' ->
  match op with
  | ReadDma bytes count | ReadIrqBuf bytes count =>
      forall a, ~ (bytes <= a < bytes + count) -> mem w' !! a = mem w !! a
  | ReadIrq | SendIrq _ | SendIrqBuf _ _ | SendDma _ _ => mem w' = mem w
  end.
Proof.
  intros H.
  destruct op as [| bytes count | byte | bytes count | bytes count | bytes count];
    run_op H.
  - apply bind_done in H as (b & w1 & H1 & H2). inversion H2; subst.
    exact (readIrq_same_memory _ _ _ H1).
  - exact (readIrq_buf_within bytes count _ _ _ H).
  - exact (sendIrq_same_memory byte _ _ _ H).
  - exact (sendIrq_buf_same_memory bytes count _ _ _ H).
  - exact (readDma_within bytes count _ _ _ H).
  - exact (sendDma_same_memory bytes count _ _ _ H).
Qed.

Lemma memory_outside_buffer_witness :
  exists w',
    run (ReadDma 104 3) double_ack_world = Done tt w'
    /\ (forall a, ~ (104 <= a < 104 + 3) -> mem w' !! a = mem double_ack_world !! a)
    /\ mem w' !! 104 = Some 0.
Proof.
  eexists. split; [vm_compute; reflexivity |].
  split; [| vm_compute; reflexivity].
  apply (memory_outside_buffer (ReadDma 104 3) double_ack_world).
  vm_compute. reflexivity.
Defined.

(** ** Command capture returns *)

Lemma accepted_strobe mask port :
  accepted mask port -> c_bool (Z.land port (Z.lor A1_MASK CS_MASK)) = false.
Proof. intros [Hs _]. apply c_bool_false, Hs. Qed.

Lemma runs_idle w (Q : bool -> World -> Prop) :
  Q true (record (EvRead R_GPIOA_IDR (uint16 (host_GPIOA (host w) (now w))))
            (set_now (S (now w)) w)) ->
  runs Acsi.idle w Q.
Proof. intros H. eexists _, _. split; [apply idle_always_true | exact H]. Qed.

Lemma waitCommand_loop_runs mask : forall fuel (k : nat) w,
  (k < fuel)%nat -> (k < patience w)%nat ->
  (forall j : nat, (j < k)%nat -> ~ accepted mask (snapshot w (now w + j))) ->
  accepted mask (snapshot w (now w + k)) ->
  runs (Acsi.waitCommand_loop fuel mask) w (fun port w' =>
    port = snapshot w (now w + k) /\ now w' = (now w + k + 2)%nat
    /\ host w' = host w /\ patience w' = patience w).
Proof.
  induction fuel as [|fuel IH]; intros k w Hf Hp Hrej Hacc; [lia |].
  cbn [Acsi.waitCommand_loop]. apply runs_bind. unfold busy_wait.
  destruct (poll_runs_upto Hw.read_GPIOB_IDR (fun p => p) read_GPIOB_snapshot
              (fun port => c_bool (Z.land port (Z.lor A1_MASK CS_MASK)))
              k (patience w) w Hp (accepted_strobe _ _ Hacc))
    as (port & w1 & E & j & Hj & Hv & Ha & _ & Hn1 & Hh1 & Hp1).
  exists port, w1. split; [exact E |].
  assert (Hid : 0 <= Z.shiftr port (8 + 5))
    by (rewrite Hv; apply device_id_range).
  rewrite land_bit_testbit by exact Hid.
  assert (Hst : strobe port) by (apply c_bool_false, Ha).
  destruct (Z.testbit mask (Z.shiftr port (8 + 5))) eqn:Et; cbn [negb].
  - assert (j = k) as ->.
    { destruct (Nat.eq_dec j k) as [|Hne]; [assumption |].
      exfalso. apply (Hrej j ltac:(lia)). rewrite <- Hv. split; assumption. }
    apply runs_bind. apply runs_idle.
    cbn [negb]. apply runs_ret. simpl. rewrite Hn1.
    repeat split; try assumption. lia.
  - assert (Hlt : (j < k)%nat).
    { destruct (Nat.eq_dec j k) as [->|Hne]; [| lia].
      exfalso. destruct Hacc as [_ Hsel]. unfold selected, device_id in Hsel.
      rewrite <- Hv in Hsel. change (8 + 5) with 13 in Et. congruence. }
    assert (Hsn : forall t, snapshot w1 t = snapshot w t)
      by (intros t; apply snapshot_same, Hh1).
    eapply runs_conseq; [| apply (IH (k - j - 1)%nat w1)].
    + intros p w' (Hp' & Hn' & Hh' & Hpp').
      rewrite Hsn, Hn1 in Hp'. rewrite Hn1 in Hn'.
      replace (S (now w + j) + (k - j - 1))%nat with (now w + k)%nat in * by lia.
      repeat split; try congruence; try lia.
    + lia.
    + rewrite Hp1. lia.
    + intros i Hi. rewrite Hsn, Hn1.
      replace (S (now w + j) + i)%nat with (now w + (j + 1 + i))%nat by lia.
      apply Hrej. lia.
    + rewrite Hsn, Hn1.
      replace (S (now w + j) + (k - j - 1))%nat with (now w + k)%nat by lia.
      exact Hacc.
Qed.

Lemma waitCommand_runs mask (k c : nat) w :
  (k < patience w)%nat -> (c < patience w)%nat ->
  (forall j : nat, (j < k)%nat -> ~ accepted mask (snapshot w (now w + j))) ->
  accepted mask (snapshot w (now w + k)) ->
  (forall i : nat, (i < c)%nat -> cs_high (snapshot w (now w + k + 2 + i)) = false) ->
  cs_high (snapshot w (now w + k + 2 + c)) = true ->
  runs (Acsi.waitCommand mask) w (fun byte w' =>
    byte = data_byte (snapshot w (now w + k)) /\ now w' = (now w + k + c + 3)%nat).
Proof.
  intros Hk Hc Hrej Hacc Hlow Hhigh. unfold Acsi.waitCommand.
  apply runs_steady; [steady_tac | intros _ w1 Hh1 Hp1 Hn1].
  assert (Hsn1 : forall t, snapshot w1 t = snapshot w t)
    by (intros t; apply snapshot_same, Hh1).
  apply runs_bind.
  eapply runs_conseq; [| apply (waitCommand_loop_runs mask (patience w1) k w1)].
  - intros port w2 (Hport & Hn2 & Hh2 & Hp2).
    rewrite Hsn1, Hn1 in Hport. rewrite Hn1 in Hn2.
    assert (Hh : host w2 = host w) by congruence.
    apply (runs_busy_wait Acsi.readCs cs_high _ c).
    + exact readCs_snapshot.
    + rewrite Hp2, Hp1. exact Hc.
    + intros i Hi. rewrite (snapshot_same _ _ _ Hh), Hn2, (Hlow i Hi). reflexivity.
    + rewrite (snapshot_same _ _ _ Hh), Hn2, Hhigh. reflexivity.
    + intros w3 Hh3 Hp3 Hn3.
      apply runs_bind.
      destruct (ltac:(steady_tac) : steady Hw.systick_enable) with w3
        as (u & w4 & E & _ & _ & Hn4).
      exists u, w4. split; [exact E |]. apply runs_ret.
      split; [rewrite Hport; reflexivity | lia].
  - rewrite Hp1. exact Hk.
  - rewrite Hp1. exact Hk.
  - intros j Hj. rewrite Hsn1, Hn1. apply Hrej, Hj.
  - rewrite Hsn1, Hn1. exact Hacc.
Qed.

(** X3: [waitCommand] returns the command the host sends.  If the
    [k]-th snapshot of port B after the call is the first that shows the
    strobe with a device id in the mask, and CS, low for the [c] polls that
    follow the check of the bus, goes high at the next, both within the
    watchdog's patience, then [waitCommand] returns the data byte of that
    [k]-th snapshot, after [k + c + 3] polls, with systick on and no
    register or memory changed. *)
Theorem waitCommand_returns (mask : Z) (k c : nat) (w : World) :
  (k < patience w)%nat -> (c < patience w)%nat ->
  (forall j : nat, (j < k)%nat -> ~ accepted mask (snapshot w (now w + j))) ->
  accepted mask (snapshot w (now w + k)) ->
  (forall i : nat, (i < c)%nat -> cs_high (snapshot w (now w + k + 2 + i)) = false) ->
  cs_high (snapshot w (now w + k + 2 + c)) = true ->
  exists w',
    Acsi.waitCommand mask w = Done (data_byte (snapshot w (now w + k))) w'
    /\ now w' = (now w + k + c + 3)%nat
    /\ systick w' = true
    /\ untouched w w'.
Proof.
  intros Hk Hc Hrej Hacc Hlow Hhigh.
  destruct (waitCommand_runs mask k c w Hk Hc Hrej Hacc Hlow Hhigh)
    as (b & w' & E & -> & Hn).
  exists w'. split; [exact E |]. split; [exact Hn |].
  split; [apply (suspended_run _ _ _ _ (waitCommand_closing mask) E) |].
  apply (waitCommand_only_polls mask _ _ _ E).
Qed.

Lemma waitCommand_returns_witness :
  (0 < patience irq_world)%nat /\ (1 < patience irq_world)%nat
  /\ (forall j : nat, (j < 0)%nat ->
        ~ accepted 4 (snapshot irq_world (now irq_world + j)))
  /\ accepted 4 (snapshot irq_world (now irq_world + 0))
  /\ (forall i : nat, (i < 1)%nat ->
        cs_high (snapshot irq_world (now irq_world + 0 + 2 + i)) = false)
  /\ cs_high (snapshot irq_world (now irq_world + 0 + 2 + 1)) = true
  /\ exists w',
       Acsi.waitCommand 4 irq_world
       = Done (data_byte (snapshot irq_world (now irq_world + 0))) w'
       /\ now w' = (now irq_world + 0 + 1 + 3)%nat
       /\ systick w' = true
       /\ untouched irq_world w'.
Proof.
  assert (H1 : (0 < patience irq_world)%nat) by (vm_compute; lia).
  assert (H2 : (1 < patience irq_world)%nat) by (vm_compute; lia).
  assert (H3 : forall j : nat, (j < 0)%nat ->
                 ~ accepted 4 (snapshot irq_world (now irq_world + j)))
    by (intros j Hj; lia).
  assert (H4 : accepted 4 (snapshot irq_world (now irq_world + 0)))
    by (split; reflexivity).
  assert (H5 : forall i : nat, (i < 1)%nat ->
                 cs_high (snapshot irq_world (now irq_world + 0 + 2 + i)) = false)
    by (intros i Hi; assert (i = 0%nat) as -> by lia; reflexivity).
  assert (H6 : cs_high (snapshot irq_world (now irq_world + 0 + 2 + 1)) = true)
    by reflexivity.
  repeat (split; [assumption |]).
  exact (waitCommand_returns 4 0 1 irq_world H1 H2 H3 H4 H5 H6).
Defined.

(** ** One interrupt per byte *)

Ltac tally_steps n1 n2 := apply (tallies_bind _ n1 n2); [| intros ?].

Lemma readIrq_pulls : tallies is_pull 1 Acsi.readIrq.
Proof.
  unfold Acsi.readIrq.
  tally_steps 0%nat 1%nat; [tally_zero |].
  tally_steps 1%nat 0%nat; [unfold_acsi; tally_prim | tally_zero].
Qed.

Lemma sendIrq_pulls byte : tallies is_pull 1 (Acsi.sendIrq byte).
Proof.
  unfold Acsi.sendIrq.
  tally_steps 0%nat 1%nat; [tally_zero |].
  tally_steps 0%nat 1%nat; [tally_zero |].
  tally_steps 0%nat 1%nat; [tally_zero |].
  tally_steps 1%nat 0%nat; [unfold_acsi; tally_prim | tally_zero].
Qed.

Lemma readIrq_at_pulls addr : tallies is_pull 1 (readIrq_at addr).
Proof.
  unfold readIrq_at. tally_steps 1%nat 0%nat; [apply readIrq_pulls | tally_zero].
Qed.

Lemma sendIrq_at_pulls addr : tallies is_pull 1 (sendIrq_at addr).
Proof.
  unfold sendIrq_at. tally_steps 0%nat 1%nat; [tally_zero | apply sendIrq_pulls].
Qed.

Lemma readIrq_at_stores addr : tallies is_store 1 (readIrq_at addr).
Proof.
  unfold readIrq_at. tally_steps 0%nat 1%nat; [| tally_prim].
  unfold Acsi.readIrq. tally_zero.
Qed.

Lemma sendIrq_at_loads addr : tallies is_load 1 (sendIrq_at addr).
Proof.
  unfold sendIrq_at. tally_steps 1%nat 0%nat; [tally_prim |].
  unfold Acsi.sendIrq. tally_zero.
Qed.

Lemma tallies_meq f n {A} (m m' : M A) :
  m =m= m' -> tallies f n m' -> tallies f n m.
Proof.
  intros E Hm w a w' H. rewrite E in H. exact (Hm w a w' H).
Qed.

Lemma tallies_each f slot n addr :
  (forall a, tallies f 1 (slot a)) -> tallies f n (per_byte slot n addr).
Proof.
  intros Hs. pose proof (tallies_per_byte f 1 slot n addr Hs) as H.
  rewrite Nat.mul_1_r in H. exact H.
Qed.

Lemma readIrq_buf_tallies f bytes count :
  (forall b, f (EvSystick b) = false) ->
  (forall v, f (EvRead R_GPIOB_IDR v) = false) ->
  (forall a, tallies f 1 (readIrq_at a)) ->
  tallies f (Z.to_nat count) (Acsi.readIrq_buf bytes count).
Proof.
  intros F1 F2 Hs.
  apply (tallies_meq _ _ _ _ (readIrq_buf_per_byte bytes count)).
  assert (Hz : forall e, f e = false -> forallb (fun e => negb (f e)) [e] = true)
    by (intros e He; simpl; rewrite He; reflexivity).
  assert (Hgen : forall n,
            tallies f (0 + (n * 1 + (0 + 0)))
              (Hw.systick_disable;;
               per_byte readIrq_at n bytes;;
               busy_wait Acsi.readCs negb;;
               Hw.systick_enable)).
  { intros n.
    apply tallies_bind; [| intros _; apply tallies_bind;
      [apply tallies_per_byte, Hs | intros _; apply tallies_bind; [| intros _]]].
    all: apply tallies_zero; unfold_acsi; repeat respects_step.
    all: intros ? ? ? H; run_prim H; unfold adds_only; simpl;
      eexists; (split; [reflexivity |]); apply Hz; auto. }
  specialize (Hgen (Z.to_nat count)).
  replace (0 + (Z.to_nat count * 1 + (0 + 0)))%nat with (Z.to_nat count) in Hgen by lia.
  exact Hgen.
Qed.

(** X12: the interrupt line is pulled exactly once per byte.  A
    single-byte [readIrq] or [sendIrq] that returns has pulled IRQ once; the
    multi-byte forms have pulled it [count] times (never, for a count of
    zero or less) and have stored, respectively loaded, that many bytes;
    the block transfers [readDma] and [sendDma] never pull it. *)
Theorem one_interrupt_per_byte (op : transfer) (w w' : World) :
  run op w = Done tt w' ->
  match op with
  | ReadIrq | SendIrq _ => tally is_pull (new_events w w') = 1%nat
  | ReadIrqBuf _ count =>
      tally is_pull (new_events w w') = Z.to_nat count
      /\ tally is_store (new_events w w') = Z.to_nat count
  | SendIrqBuf _ count =>
      tally is_pull (new_events w w') = Z.to_nat count
      /\ tally is_load (new_events w w') = Z.to_nat count
  | ReadDma _ _ | SendDma _ _ => tally is_pull (new_events w w') = 0%nat
  end.
Proof.
  intros H.
  destruct op as [| bytes count | byte | bytes count | bytes count | bytes count];
    run_op H.
  - eapply tallies_done; [| exact H].
    replace 1%nat with (1 + 0)%nat by reflexivity.
    apply tallies_bind; [apply readIrq_pulls | intros _; tally_zero].
  - split; (eapply tallies_done; [| exact H]).
    + apply readIrq_buf_tallies; try reflexivity. apply readIrq_at_pulls.
    + apply readIrq_buf_tallies; try reflexivity. apply readIrq_at_stores.
  - eapply tallies_done; [| exact H]. apply sendIrq_pulls.
  - rewrite sendIrq_buf_per_byte in H.
    split; (eapply tallies_done; [| exact H]).
    + apply tallies_each, sendIrq_at_pulls.
    + apply tallies_each, sendIrq_at_loads.
  - destruct (decide (INT_MIN <= count - 16 <= INT_MAX)) as [Hc|Hc];
      [| rewrite readDma_undefined in H by exact Hc; discriminate].
    rewrite (readDma_per_byte bytes count Hc) in H.
    eapply tallies_done; [| exact H].
    unfold readBlock_per_byte. tally_zero.
  - destruct (decide (INT_MIN <= count - 16 <= INT_MAX)) as [Hc|Hc];
      [| rewrite sendDma_undefined in H by exact Hc; discriminate].
    rewrite (sendDma_per_byte bytes count Hc) in H.
    eapply tallies_done; [| exact H].
    unfold writeBlock_per_byte. tally_zero.
Qed.

Lemma one_interrupt_per_byte_witness :
  exists w',
    run (SendIrqBuf 100 2) irq_world = Done tt w'
    /\ tally is_pull (new_events irq_world w') = Z.to_nat 2
    /\ tally is_load (new_events irq_world w') = Z.to_nat 2.
Proof.
  eexists. split; [vm_compute; reflexivity |].
  apply (one_interrupt_per_byte (SendIrqBuf 100 2) irq_world).
  vm_compute. reflexivity.
Defined.

(** ** A block transfer without acknowledge *)

Lemma poll_no_ack fuel : forall w c w',
  TIMER1_CNT w = 0 ->
  (forall t : nat, (now w <= t)%nat -> host_ACK (host w) t = []) ->
  poll fuel Hw.read_TIMER1_CNT (fun cnt => cnt =? 0) w <> Done c w'.
Proof.
  induction fuel as [|fuel IH]; intros w c w' Hc Hq H; [discriminate |].
  cbn [poll] in H. apply bind_done in H as (v & w1 & H1 & H2).
  unfold Hw.read_TIMER1_CNT in H1. rewrite (Hq (now w) (le_n _)) in H1.
  cbn [fold_left] in H1. cbv zeta in H1. inversion H1; subst v w1; clear H1.
  rewrite Hc in H2. cbn [Z.eqb] in H2.
  revert H2. apply IH; [exact Hc |].
  intros t Ht. simpl in *. apply Hq. lia.
Qed.

Lemma slot_wait_stuck {B} (k : Z -> M B) w0 w :
  (forall t : nat, (now w0 <= t)%nat -> host_ACK (host w0) t = []) ->
  same_host w0 w ->
  forall b w',
    (Hw.write_TIMER1_CNT 0;;
     bind (busy_wait Hw.read_TIMER1_CNT (fun cnt => cnt =? 0)) k) w
    <> Done b w'.
Proof.
  intros Hq (Hh & _ & Hn) b w' H.
  apply bind_done in H as (u & w1 & H1 & H2). run_prim H1.
  apply bind_done in H2 as (c & w2 & H2 & _).
  unfold busy_wait in H2. revert H2. apply poll_no_ack; [reflexivity |].
  intros t Ht. simpl in *. rewrite Hh. apply Hq. lia.
Qed.

Lemma read_slot_stuck w0 w addr :
  (forall t : nat, (now w0 <= t)%nat -> host_ACK (host w0) t = []) ->
  same_host w0 w ->
  forall {B} (k : unit -> M B) b w', bind (read_byte_slot addr) k w <> Done b w'.
Proof.
  intros Hq H0 B k b w' H. apply bind_done in H as (u & w1 & H & _).
  revert H. unfold read_byte_slot. apply (slot_wait_stuck _ w0); assumption.
Qed.

Lemma write_slot_stuck w0 w addr :
  (forall t : nat, (now w0 <= t)%nat -> host_ACK (host w0) t = []) ->
  same_host w0 w ->
  forall {B} (k : unit -> M B) b w', bind (write_byte_slot addr) k w <> Done b w'.
Proof.
  intros Hq H0 B k b w' H. apply bind_done in H as (u & w1 & H & _).
  revert H. unfold write_byte_slot.
  eapply stuck_step; [prim_host | eassumption | intros ? ? ?].
  eapply stuck_step; [unfold_acsi; prim_host | eassumption | intros ? ? ?].
  apply (slot_wait_stuck _ w0); assumption.
Qed.

(** X13: a block transfer has no way out but the host's acknowledge.  If
    the host never pulses ACK again, [readDma] and [sendDma] of one byte or
    more never return, however long the device is prepared to wait. *)
Theorem dma_waits_for_ack (bytes count : Z) (w : World) :
  0 < count ->
  (forall t : nat, (now w <= t)%nat -> host_ACK (host w) t = []) ->
  (forall w', Acsi.readDma bytes count w <> Done tt w')
  /\ (forall w', Acsi.sendDma bytes count w <> Done tt w').
Proof.
  intros Hc Hq.
  destruct (Z.to_nat count) as [|n] eqn:En; [lia |].
  assert (H0 : same_host w w) by reflexivity.
  split; intros w'.
  - destruct (decide (INT_MIN <= count - 16 <= INT_MAX)) as [Hr|Hr];
      [| rewrite readDma_undefined by exact Hr; discriminate].
    rewrite (readDma_per_byte bytes count Hr). unfold readBlock_per_byte.
    rewrite En. cbn [per_byte].
    eapply stuck_step; [prim_host | eassumption | intros ? ? ?].
    eapply stuck_step; [unfold_acsi; repeat respects_step; prim_host
                       | eassumption | intros ? ? ?].
    rewrite bind_assoc. apply (read_slot_stuck w); assumption.
  - destruct (decide (INT_MIN <= count - 16 <= INT_MAX)) as [Hr|Hr];
      [| rewrite sendDma_undefined by exact Hr; discriminate].
    rewrite (sendDma_per_byte bytes count Hr). unfold writeBlock_per_byte.
    rewrite En. cbn [per_byte].
    eapply stuck_step; [prim_host | eassumption | intros ? ? ?].
    eapply stuck_step; [unfold_acsi; prim_host | eassumption | intros ? ? ?].
    eapply stuck_step; [unfold_acsi; repeat respects_step; prim_host
                       | eassumption | intros ? ? ?].
    rewrite bind_assoc. apply (write_slot_stuck w); assumption.
Qed.

Lemma dma_waits_for_ack_witness :
  (forall w', Acsi.readDma 100 1 (power_on (still_host 0x1900 0x00C0)) <> Done tt w')
  /\ (forall w', Acsi.sendDma 100 1 (power_on (still_host 0x1900 0x00C0)) <> Done tt w').
Proof.
  apply (dma_waits_for_ack 100 1 (power_on (still_host 0x1900 0x00C0)));
    [lia | intros t _; reflexivity].
Defined.
